(** * paws.components.model_loader: a shallow embedding of [ModelLoader]

    The module assembles the semi-weakly supervised model of the PAWS
    analysis.  These layers of the Python code are embedded here:

    - the likelihood-ratio transforms ([_get_one_signal_semi_weakly_layer]
      and its three siblings), written once over the operator protocol of
      Python numbers and instantiated at binary64 floats and at symbolic
      Keras tensors;
    - the loader configuration ([__init__], the [loss] property,
      [get_loss_fn], [get_train_config]) and the callbacks made from it
      ([get_callbacks]);
    - the model builder ([get_supervised_model_inputs],
      [get_semi_weakly_weights], [_get_prior_out], [get_kappa_out],
      [_get_semi_weakly_model]) as a state-and-exception monad over the
      loader object and a log of file accesses;
    - reading and writing the trainable weights
      ([set_semi_weakly_model_weights], [get_semi_weakly_model_weights],
      [set_model_weights]), over whatever array type the variables hold.

    Python floats are IEEE 754 binary64 values: they are modelled by Rocq's
    primitive floats, whose operations are specified by [FloatAxioms]. *)

From Stdlib Require Import ZArith Lia Bool List String Ascii.
From Stdlib Require Import DecimalString.
From Stdlib Require Import Floats.
Import ListNotations.

Set Warnings "-inexact-float,-register-all".

(* ================================================================== *)
(** * Exceptions and results *)
(* ================================================================== *)

(** The exception classes the module raises or lets through. *)
Inductive exn : Type :=
| ValueError (msg : string)
| RuntimeError (msg : string)
| FileNotFoundError (msg : string)
| KeyError (key : string)
| IndexError
| TypeError
| UnboundLocalError (name : string)
| ZeroDivisionError
| OSError (path : string).

Inductive result (A : Type) : Type :=
| Ok (a : A)
| Raise (e : exn).
Arguments Ok {A} a.
Arguments Raise {A} e.

Definition is_ok {A : Type} (r : result A) : bool :=
  match r with Ok _ => true | Raise _ => false end.

Definition result_bind {A B : Type} (r : result A) (k : A -> result B) : result B :=
  match r with
  | Ok a => k a
  | Raise e => Raise e
  end.

Declare Scope result_scope.
Delimit Scope result_scope with result.
Notation "x <- c ;; k" := (result_bind c (fun x => k))
  (at level 61, c at next level, right associativity) : result_scope.
Open Scope result_scope.

(** A keyword argument with a default value: [None] is the omitted argument. *)
Definition kwarg {A : Type} (default : A) (given : option A) : A :=
  match given with
  | Some a => a
  | None => default
  end.

(** The list comprehension [[f(x) for x in xs]] where [f] may raise. *)
Fixpoint mapM {A B : Type} (f : A -> result B) (xs : list A) : result (list B) :=
  match xs with
  | [] => Ok []
  | x :: rest => y <- f x ;; ys <- mapM f rest ;; Ok (y :: ys)
  end.

(* ================================================================== *)
(** * The operator protocol of Python numbers *)
(* ================================================================== *)

(** The transforms only use [+], [-], [*], [/] and float literals, so they
    run on anything that implements these operators: Python floats and
    Keras tensors alike.  Only true division can raise. *)
Class PyNumber (T : Type) : Type := {
  of_float : float -> T;
  py_add : T -> T -> T;
  py_sub : T -> T -> T;
  py_mul : T -> T -> T;
  py_truediv : T -> T -> result T }.

Declare Scope py_scope.
Delimit Scope py_scope with py.
Notation "x + y" := (py_add x y) : py_scope.
Notation "x - y" := (py_sub x y) : py_scope.
Notation "x * y" := (py_mul x y) : py_scope.
Notation "x / y" := (py_truediv x y) : py_scope.
Notation "# x" := (of_float x%float) (at level 1, x constr at level 0, format "# x") : py_scope.

(** Python's [float.__truediv__]: a zero divisor (of either sign) raises. *)
Definition float_truediv (x y : float) : result float :=
  if (y =? 0)%float then Raise ZeroDivisionError else Ok (x / y)%float.

#[export] Instance PyFloat : PyNumber float := {|
  of_float := fun x => x;
  py_add := PrimFloat.add;
  py_sub := PrimFloat.sub;
  py_mul := PrimFloat.mul;
  py_truediv := float_truediv |}.

(* ================================================================== *)
(** * The likelihood-ratio transforms *)
(* ================================================================== *)

Section Layers.
Context {T : Type} `{PyNumber T}.
Local Open Scope py_scope.

(** [kappa: float = 1.], [epsilon: float = 1e-10], [bug_fix: bool = True]. *)
Definition _get_one_signal_semi_weakly_layer
    (fs_out mu : T) (kappa epsilon : option T) (bug_fix : option bool) : result T :=
  let kappa := kwarg #1 kappa in
  let epsilon := kwarg #1e-10 epsilon in
  let bug_fix := kwarg true bug_fix in
  LLR <- kappa * fs_out / (#1 - fs_out + epsilon) ;;
  let LLR_xs := #1 + mu * (LLR - #1) in
  ws_out <- (if bug_fix then LLR_xs / (LLR_xs + #1 - mu)
             else LLR_xs / (LLR_xs + #1)) ;;
  Ok ws_out.

Definition _get_two_signal_semi_weakly_layer
    (fs_2_out fs_3_out mu alpha : T) (kappa_2 kappa_3 epsilon : option T)
    (bug_fix : option bool) : result T :=
  let kappa_2 := kwarg #1 kappa_2 in
  let kappa_3 := kwarg #1 kappa_3 in
  let epsilon := kwarg #1e-10 epsilon in
  let bug_fix := kwarg true bug_fix in
  LLR_2 <- kappa_2 * fs_2_out / (#1 - fs_2_out + epsilon) ;;
  LLR_3 <- kappa_3 * fs_3_out / (#1 - fs_3_out + epsilon) ;;
  let LLR_xs := #1 + mu * (alpha * LLR_3 + (#1 - alpha) * LLR_2 - #1) in
  ws_out <- (if bug_fix then LLR_xs / (LLR_xs + #1 - mu)
             else LLR_xs / (LLR_xs + #1)) ;;
  Ok ws_out.

Definition _get_one_signal_likelihood_layer
    (fs_out mu : T) (kappa epsilon : option T) : result T :=
  let kappa := kwarg #1 kappa in
  let epsilon := kwarg #1e-10 epsilon in
  LLR <- kappa * fs_out / (#1 - fs_out + epsilon) ;;
  let LLR_xs := #1 + mu * (LLR - #1) in
  Ok LLR_xs.

Definition _get_two_signal_likelihood_layer
    (fs_2_out fs_3_out mu alpha : T) (kappa_2 kappa_3 epsilon : option T) : result T :=
  let kappa_2 := kwarg #1 kappa_2 in
  let kappa_3 := kwarg #1 kappa_3 in
  let epsilon := kwarg #1e-10 epsilon in
  LLR_2 <- kappa_2 * fs_2_out / (#1 - fs_2_out + epsilon) ;;
  LLR_3 <- kappa_3 * fs_3_out / (#1 - fs_3_out + epsilon) ;;
  let LLR_xs := #1 + mu * (alpha * LLR_3 + (#1 - alpha) * LLR_2 - #1) in
  Ok LLR_xs.

(** The transform as the specification writes it (section 4.2):
    [LLR = kappa * f_s / (1 - f_s + epsilon)],
    [LLR_xs = 1 + mu * (LLR - 1)], and
    [w_s = LLR_xs / (LLR_xs + 1 - mu)] with the fix,
    [w_s = LLR_xs / (LLR_xs + 1)] without. *)
Definition spec_LLR (kappa f_s epsilon : T) : result T :=
  kappa * f_s / (#1 - f_s + epsilon).

Definition spec_LLR_xs (mu LLR : T) : T :=
  #1 + mu * (LLR - #1).

Definition spec_w_s (bug_fix : bool) (mu LLR_xs : T) : result T :=
  match bug_fix with
  | true => LLR_xs / (LLR_xs + #1 - mu)
  | false => LLR_xs / (LLR_xs + #1)
  end.

Definition spec_one_signal_weight
    (f_s mu kappa epsilon : T) (bug_fix : bool) : result T :=
  result_bind (spec_LLR kappa f_s epsilon)
    (fun LLR => spec_w_s bug_fix mu (spec_LLR_xs mu LLR)).
End Layers.

(** Classes of binary64 values, read on the specification side. *)
Definition SF_is_finite (x : spec_float) : bool :=
  match x with
  | S754_zero _ | S754_finite _ _ _ => true
  | _ => false
  end.

Definition SF_is_zero (x : spec_float) : bool :=
  match x with
  | S754_zero _ => true
  | _ => false
  end.

Definition SF_is_nan (x : spec_float) : bool :=
  match x with
  | S754_nan => true
  | _ => false
  end.

(** The likelihood ratio [kappa * f_s / (1. - f_s + epsilon)] of Python
    floats is computed (the denominator is not zero) and is finite. *)
Definition LLR_finite (kappa f_s epsilon : float) : bool :=
  match spec_LLR kappa f_s epsilon with
  | Ok LLR => is_finite LLR
  | Raise _ => false
  end.

(** The likelihood ratio is computed and [LLR - 1.] is finite: neither an
    overflow to infinity nor a NaN. *)
Definition LLR_minus_one_finite (kappa f_s epsilon : float) : bool :=
  match spec_LLR kappa f_s epsilon with
  | Ok LLR => is_finite (LLR - 1)%float
  | Raise _ => false
  end.

(* ================================================================== *)
(** * Strings, dictionaries and paths *)
(* ================================================================== *)

Definition ascii_lower (c : ascii) : ascii :=
  let n := nat_of_ascii c in
  if (65 <=? n)%nat && (n <=? 90)%nat then ascii_of_nat (n + 32) else c.

(** [str.lower] on ASCII text. *)
Fixpoint lower (s : string) : string :=
  match s with
  | EmptyString => EmptyString
  | String c rest => String (ascii_lower c) (lower rest)
  end.

(** [x in [a, b, ...]] for strings. *)
Definition str_in (x : string) (candidates : list string) : bool :=
  existsb (String.eqb x) candidates.

(** [str(n)] for a natural number. *)
Definition str_of_nat (n : nat) : string :=
  NilEmpty.string_of_uint (Nat.to_uint n).

(** The double-quote character, for messages that quote a name. *)
Definition dquote : string := String (ascii_of_nat 34) EmptyString.

(** A Python [dict] with [str] keys: insertion-ordered, keys unique. *)
Definition dict (V : Type) : Type := list (string * V).

Fixpoint dict_get {V : Type} (d : dict V) (k : string) : option V :=
  match d with
  | [] => None
  | (k', v) :: rest => if String.eqb k' k then Some v else dict_get rest k
  end.

(** [d[k] = v]: an existing key keeps its position. *)
Fixpoint dict_set {V : Type} (d : dict V) (k : string) (v : V) : dict V :=
  match d with
  | [] => [(k, v)]
  | (k', v') :: rest =>
      if String.eqb k' k then (k, v) :: rest else (k', v') :: dict_set rest k v
  end.

(** [d[k]], raising [KeyError]. *)
Definition getitem {V : Type} (d : dict V) (k : string) : result V :=
  match dict_get d k with
  | Some v => Ok v
  | None => Raise (KeyError k)
  end.

(** [d.get(k, default)]. *)
Definition dict_get_default {V : Type} (d : dict V) (k : string) (default : V) : V :=
  match dict_get d k with
  | Some v => v
  | None => default
  end.

Module os_path.
Definition slash : ascii := ascii_of_nat 47.

Fixpoint lstrip_slash (cs : list ascii) : list ascii :=
  match cs with
  | c :: rest => if Ascii.eqb c slash then lstrip_slash rest else cs
  | [] => []
  end.

Fixpoint drop_to_slash (cs : list ascii) : list ascii :=
  match cs with
  | c :: rest => if Ascii.eqb c slash then cs else drop_to_slash rest
  | [] => []
  end.

(** [posixpath.dirname]: the text up to the last slash, without trailing
    slashes unless it consists of slashes only. *)
Definition dirname (p : string) : string :=
  let head_rev := drop_to_slash (rev (list_ascii_of_string p)) in
  match lstrip_slash head_rev with
  | [] => string_of_list_ascii (rev head_rev)
  | stripped => string_of_list_ascii (rev stripped)
  end.

Definition startswith_slash (s : string) : bool :=
  match s with
  | String c _ => Ascii.eqb c slash
  | EmptyString => false
  end.

Definition endswith_slash (s : string) : bool :=
  match rev (list_ascii_of_string s) with
  | c :: _ => Ascii.eqb c slash
  | [] => false
  end.

(** [posixpath.join] of two components. *)
Definition join (a b : string) : string :=
  if startswith_slash b then b
  else if String.eqb a EmptyString || endswith_slash a then (a ++ b)%string
  else (a ++ String slash b)%string.
End os_path.

(* ================================================================== *)
(** * Keras objects, symbolically *)
(* ================================================================== *)

(** [get_parameter_transform(name)] and [get_parameter_regularizer(name)]
    come from the parameter registry of [paws.utils]; their results are
    kept as the registry entries they name. *)
Inductive Activation : Type :=
| linear
| ParameterTransform (parameter : string).

Inductive Regularizer : Type :=
| ParameterRegularizer (parameter : string).

(** The one-weight model built by [get_single_parameter_model]:
    [Dense(1, use_bias=False, ...)] on an input of shape [(1,)]. *)
Record ParameterModel : Type := {
  pm_activation : Activation;
  pm_kernel_initializer : option float;
  pm_kernel_constraint : option string;
  pm_kernel_regularizer : option Regularizer;
  pm_trainable : bool;
  pm_name : string }.

Record Layer : Type := {
  layer_name : string;
  trainable : bool }.

(** A model read from disk by [load_model]. *)
Record LoadedModel : Type := {
  _name : string;
  layers : list Layer }.

Inductive Callable : Type :=
| WeightModel (m : ParameterModel)
| Loaded (m : LoadedModel).

(** Symbolic Keras tensors: the nodes of the graph the builder wires. *)
Inductive tensor : Type :=
| Input (name : string) (shape : list Z) (dtype : string)
| OnesLikeSlice (x : tensor)
| Constant (c : float)
| Call (f : Callable) (args : list tensor)
| Concatenate (xs : list tensor)
| Average (xs : list tensor)
| Add (a b : tensor)
| Sub (a b : tensor)
| Mul (a b : tensor)
| Div (a b : tensor).

(** Operators on tensors add a node to the graph; none of them raises. *)
#[export] Instance PyTensor : PyNumber tensor := {|
  of_float := Constant;
  py_add := Add;
  py_sub := Sub;
  py_mul := Mul;
  py_truediv := fun a b => Ok (Div a b) |}.

(** [tf.keras.Model(inputs=..., outputs=..., name=...)]. *)
Record KerasModel : Type := {
  km_inputs : list tensor;
  km_outputs : tensor;
  km_name : string }.

(** [get_single_parameter_model]; the defaults are [activation='linear'],
    [None] for the three kernel arguments, [trainable=True], [name='dense']. *)
Definition get_single_parameter_model
    (activation : option Activation)
    (kernel_initializer : option float)
    (kernel_constraint : option string)
    (kernel_regularizer : option Regularizer)
    (trainable : option bool)
    (name : option string) : ParameterModel :=
  {| pm_activation := kwarg linear activation;
     pm_kernel_initializer := kernel_initializer;
     pm_kernel_constraint := kernel_constraint;
     pm_kernel_regularizer := kernel_regularizer;
     pm_trainable := if negb (kwarg true trainable) then false else true;
     pm_name := kwarg "dense"%string name |}.

Definition set_name (m : LoadedModel) (name : string) : LoadedModel :=
  {| _name := name; layers := layers m |}.

(** [freeze_all_layers]: [for layer in model.layers: layer.trainable = False]. *)
Definition freeze_all_layers (model : LoadedModel) : LoadedModel :=
  {| _name := _name model;
     layers := map (fun layer => {| layer_name := layer_name layer;
                                    trainable := false |}) (layers model) |}.

(* ================================================================== *)
(** * Settings and the loader object *)
(* ================================================================== *)

(** The members of the [paws.settings] enumerations that this module
    names; any other member is kept by its key. *)
Inductive FeatureLevel : Type :=
| HIGH_LEVEL
| LOW_LEVEL
| OTHER_FEATURE_LEVEL (key : string).

Inductive ModelType : Type :=
| SEMI_WEAKLY
| IDEAL_WEAKLY
| PRIOR_RATIO
| OTHER_MODEL_TYPE (key : string).

Inductive DecayMode : Type :=
| TWO_PRONG
| THREE_PRONG.

Definition ModelType_eqb (a b : ModelType) : bool :=
  match a, b with
  | SEMI_WEAKLY, SEMI_WEAKLY => true
  | IDEAL_WEAKLY, IDEAL_WEAKLY => true
  | PRIOR_RATIO, PRIOR_RATIO => true
  | OTHER_MODEL_TYPE k1, OTHER_MODEL_TYPE k2 => String.eqb k1 k2
  | _, _ => false
  end.

(** A [model_type] argument: [Optional[Union[str, ModelType]]]. *)
Inductive ModelTypeArg : Type :=
| ByName (name : string)
| ByMember (m : ModelType).

(** Truth value of a [model_type] argument: [None] and the empty string
    are false, an enumeration member is true. *)
Definition truthy (model_type : option ModelTypeArg) : bool :=
  match model_type with
  | None => false
  | Some (ByName name) => negb (String.eqb name EmptyString)
  | Some (ByMember _) => true
  end.

(** The attributes that [BaseLoader.__init__] sets and this module reads. *)
Record BaseLoader : Type := {
  feature_level : FeatureLevel;
  decay_modes : list DecayMode;
  variables : option (list Z);
  noise_dimension_per_jet : option Z;
  use_validation : bool;
  distribute_strategy : option string }.

Record ModelLoader : Type := {
  base : BaseLoader;
  _loss : string;
  _sigmoid_activation : bool;
  semi_weakly_weight_models : option (dict ParameterModel);
  llr_model : option KerasModel;
  fs_model : option KerasModel;
  llr_2_model : option KerasModel;
  llr_3_model : option KerasModel;
  fs_2_model : option KerasModel;
  fs_3_model : option KerasModel }.

(** The arguments that [ModelLoader.__init__] hands to the base class:
    every one but [sigmoid_activation] and [loss]. *)
Record BaseArgs : Type := {
  arg_feature_level : string;
  arg_decay_modes : string;
  arg_variables : option string;
  arg_noise_dimension : option Z;
  arg_use_validation : bool;
  arg_distribute_strategy : option string;
  arg_outdir : string;
  arg_verbosity : string }.

(** What the module calls but does not define: parsers of the settings
    enumerations, the base class, the path manager, [split_str] of
    quickstats, Python's [float(str)], and two Keras constructors.  A
    parser answers [None] where the Python one raises.
    [ModelType_format m] is the text of [m] in an f-string.
    [Input_error name shape dtype] is the exception that
    [Input(shape=shape, dtype=dtype, name=name)] raises, if it raises, and
    [ModelCheckpoint_error filepath save_weights_only save_best_only
    save_freq] the one that [ModelCheckpoint(filepath, ...)] raises: which
    arguments Keras refuses, and how, depends on its version. *)
Record Collaborators : Type := {
  BaseLoader_init : BaseArgs -> result BaseLoader;
  ModelType_parse_name : string -> option ModelType;
  ModelType_format : ModelType -> string;
  LoggerSaveMode_is_train : string -> option bool;
  _get_train_features : ModelType -> list string;
  path_manager_get_file : string -> string -> string;
  split_str : string -> list string;
  float_of_str : string -> option float;
  Input_error : string -> list Z -> string -> option exn;
  ModelCheckpoint_error : string -> bool -> bool -> string -> option exn }.

(** Loss objects: a Keras loss name or one of the two aliad losses. *)
Inductive LossFn : Type :=
| LossName (name : string)
| ScaledBinaryCrossentropy (offset scale : float)
| ScaledNLLLoss (offset scale : float).

Record EarlyStoppingConfig : Type := {
  monitor : string;
  es_patience : Z;
  restore_best_weights : bool;
  always_restore_best_weights : bool }.

Record LRSchedulerConfig : Type := {
  initial_lr : float;
  lr_decay_factor : float;
  lr_patience : Z;
  min_lr : float;
  verbose : option bool }.

Record ModelCheckpointConfig : Type := {
  save_weights_only : bool;
  save_best_only : bool;
  mc_save_freq : string }.

Record MetricsLoggerConfig : Type := {
  ml_save_freq : string }.

Record WeightsLoggerConfig : Type := {
  wl_save_freq : string;
  display_weight : bool }.

(** [config['callbacks']]: an absent key is [None]. *)
Record CallbacksConfig : Type := {
  lr_scheduler : option LRSchedulerConfig;
  early_stopping : EarlyStoppingConfig;
  model_checkpoint : option ModelCheckpointConfig;
  metrics_logger : option MetricsLoggerConfig;
  weights_logger : option WeightsLoggerConfig }.

Record OptimizerConfig : Type := {
  learning_rate : float;
  clipvalue : option float;
  clipnorm : option float }.

Record TrainConfig : Type := {
  cfg_loss : LossFn;
  cfg_metrics : option (list string);
  cfg_epochs : Z;
  cfg_optimizer : string;
  cfg_optimizer_config : OptimizerConfig;
  cfg_checkpoint_dir : string;
  cfg_callbacks : CallbacksConfig }.

(** [epochs or default]: [None] and [0] are false. *)
Definition int_or (value : option Z) (default : Z) : Z :=
  match value with
  | Some n => if Z.eqb n 0 then default else n
  | None => default
  end.

(** The [loss] property. *)
Definition loss (self : ModelLoader) : string := _loss self.

Definition with_loss (self : ModelLoader) (value : string) : ModelLoader :=
  {| base := base self;
     _loss := value;
     _sigmoid_activation := _sigmoid_activation self;
     semi_weakly_weight_models := semi_weakly_weight_models self;
     llr_model := llr_model self;
     fs_model := fs_model self;
     llr_2_model := llr_2_model self;
     llr_3_model := llr_3_model self;
     fs_2_model := fs_2_model self;
     fs_3_model := fs_3_model self |}.

Definition invalid_loss_message (value : string) : string :=
  ("Invalid name for loss function: " ++ value ++ ". Please choose between "
   ++ dquote ++ "bce" ++ dquote ++ " and " ++ dquote ++ "nll" ++ dquote ++ ".")%string.

(** The setter of the [loss] property. *)
Definition loss_setter (self : ModelLoader) (value : string) : result ModelLoader :=
  let value := lower value in
  if negb (str_in value ["bce"; "nll"]%string) then
    Raise (ValueError (invalid_loss_message value))
  else Ok (with_loss self value).

Section Loader.
Variable ext : Collaborators.

(** [ModelLoader.__init__], with the defaults [sigmoid_activation=False]
    and [loss='bce']: the base class is initialised from the other
    arguments, then the two are stored as given. *)
Definition ModelLoader_init (base_args : BaseArgs)
    (sigmoid_activation : option bool) (loss : option string) : result ModelLoader :=
  b <- BaseLoader_init ext base_args ;;
  Ok {| base := b;
        _loss := kwarg "bce"%string loss;
        _sigmoid_activation := kwarg false sigmoid_activation;
        semi_weakly_weight_models := None;
        llr_model := None;
        fs_model := None;
        llr_2_model := None;
        llr_3_model := None;
        fs_2_model := None;
        fs_3_model := None |}.

(** [ModelType.parse]. *)
Definition ModelType_parse (model_type : ModelTypeArg) : result ModelType :=
  match model_type with
  | ByMember m => Ok m
  | ByName name =>
      match ModelType_parse_name ext name with
      | Some m => Ok m
      | None => Raise (ValueError ("invalid option for the enum class ModelType: " ++ name))
      end
  end.

(** [model_type and test(ModelType.parse(model_type))]: the parser only
    runs on a true [model_type]. *)
Definition and_parsed (model_type : option ModelTypeArg)
    (test : ModelType -> bool) : result bool :=
  match model_type with
  | Some a =>
      if truthy model_type then m <- ModelType_parse a ;; Ok (test m)
      else Ok false
  | None => Ok false
  end.

(** [f'{model_type}']: a [str] is its own text. *)
Definition format_model_type (model_type : option ModelTypeArg) : string :=
  match model_type with
  | Some (ByName name) => name
  | Some (ByMember m) => ModelType_format ext m
  | None => "None"
  end.

Definition get_loss_fn (self : ModelLoader)
    (model_type : option ModelTypeArg) : result LossFn :=
  if String.eqb (loss self) "bce" then
    weakly <- and_parsed model_type
                (fun m => existsb (ModelType_eqb m) [SEMI_WEAKLY; IDEAL_WEAKLY]) ;;
    if weakly then
      Ok (ScaledBinaryCrossentropy (-0x1.62e42fefa39efp-1)%float 1000%float)
    else Ok (LossName "binary_crossentropy")
  else if String.eqb (loss self) "nll" then
    mismatch <- and_parsed model_type
                  (fun m => negb (existsb (ModelType_eqb m) [SEMI_WEAKLY])) ;;
    if mismatch then
      Raise (RuntimeError ("NLL loss is only allowed for semi-weakly models, not "
                           ++ format_model_type model_type ++ "."))
    else Ok (ScaledNLLLoss 0%float 1%float)
  else Raise (ValueError ("Invalid name for loss function: " ++ loss self)).

Definition get_train_config (self : ModelLoader)
    (checkpoint_dir : string)
    (model_type : option ModelTypeArg)
    (weight_clipping : bool)
    (epochs : option Z)
    (model_save_freq metric_save_freq weight_save_freq : string)
    : result TrainConfig :=
  is_prior_ratio <- and_parsed model_type (fun m => ModelType_eqb m PRIOR_RATIO) ;;
  if is_prior_ratio then
    let config :=
      {| cfg_loss := LossName "MSE";
         cfg_metrics := None;
         cfg_epochs := int_or epochs 3000;
         cfg_optimizer := "Adam";
         cfg_optimizer_config :=
           {| learning_rate := 0.001%float; clipvalue := None; clipnorm := None |};
         cfg_checkpoint_dir := checkpoint_dir;
         cfg_callbacks :=
           {| lr_scheduler := None;
              early_stopping :=
                {| monitor := "val_loss";
                   es_patience := 200;
                   restore_best_weights := true;
                   always_restore_best_weights := true |};
              model_checkpoint := None;
              metrics_logger := None;
              weights_logger := None |} |} in
    Ok config
  else
    budget <-
      match feature_level (base self) with
      | HIGH_LEVEL => Ok (int_or epochs 200, 20%Z)
      | LOW_LEVEL => Ok (int_or epochs 20, 5%Z)
      | OTHER_FEATURE_LEVEL key =>
          Raise (RuntimeError ("Unknown feature level: " ++ key))
      end ;;
    let '(epochs, patience) := budget in
    let monitor_metric :=
      if use_validation (base self) then "val_loss"%string else "loss"%string in
    let metrics := ["accuracy"%string] in
    loss_fn <- get_loss_fn self model_type ;;
    let lr_scheduler_0 :=
      {| initial_lr := 0.001%float;
         lr_decay_factor := 0.5%float;
         lr_patience := 5;
         min_lr := 1e-6%float;
         verbose := None |} in
    let early_stopping_0 :=
      {| monitor := monitor_metric;
         es_patience := patience;
         restore_best_weights := true;
         always_restore_best_weights := true |} in
    let model_checkpoint_0 :=
      {| save_weights_only := true;
         save_best_only := false;
         mc_save_freq := model_save_freq |} in
    let optimizer_config_0 :=
      {| learning_rate := 0.01%float; clipvalue := None; clipnorm := None |} in
    (* config['callbacks'].pop('model_checkpoint') on a per-run policy *)
    per_run <- match LoggerSaveMode_is_train ext model_save_freq with
               | Some b => Ok b
               | None => Raise (ValueError
                   ("invalid option for the enum class LoggerSaveMode: " ++ model_save_freq))
               end ;;
    let model_checkpoint_1 := if per_run then None else Some model_checkpoint_0 in
    is_semi_weakly <- and_parsed model_type (fun m => ModelType_eqb m SEMI_WEAKLY) ;;
    if is_semi_weakly then
      let lr := 0.01%float in
      let optimizer_config_1 :=
        if weight_clipping then
          {| learning_rate := lr;
             clipvalue := Some 0.0001%float;
             clipnorm := Some 0.0001%float |}
        else optimizer_config_0 in
      let early_stopping_1 :=
        {| monitor := monitor early_stopping_0;
           es_patience := if String.eqb (loss self) "nll" then 30 else 20;
           restore_best_weights := restore_best_weights early_stopping_0;
           always_restore_best_weights := always_restore_best_weights early_stopping_0 |} in
      Ok {| cfg_loss := loss_fn;
            cfg_metrics := Some metrics;
            cfg_epochs := epochs;
            cfg_optimizer := "Adam";
            cfg_optimizer_config := optimizer_config_1;
            cfg_checkpoint_dir := checkpoint_dir;
            cfg_callbacks :=
              {| lr_scheduler :=
                   Some {| initial_lr := lr;
                           lr_decay_factor := 0.5%float;
                           lr_patience := 5;
                           min_lr := 1e-6%float;
                           verbose := Some true |};
                 early_stopping := early_stopping_1;
                 model_checkpoint := model_checkpoint_1;
                 metrics_logger := Some {| ml_save_freq := metric_save_freq |};
                 weights_logger := Some {| wl_save_freq := weight_save_freq;
                                           display_weight := true |} |} |}
    else
      Ok {| cfg_loss := loss_fn;
            cfg_metrics := Some metrics;
            cfg_epochs := epochs;
            cfg_optimizer := "Adam";
            cfg_optimizer_config := optimizer_config_0;
            cfg_checkpoint_dir := checkpoint_dir;
            cfg_callbacks :=
              {| lr_scheduler := Some lr_scheduler_0;
                 early_stopping := early_stopping_0;
                 model_checkpoint := model_checkpoint_1;
                 metrics_logger := Some {| ml_save_freq := metric_save_freq |};
                 weights_logger := None |} |}.
End Loader.

(* ================================================================== *)
(** * The model builder *)
(* ================================================================== *)

(** One entry of [feature_metadata]: the keyword arguments of [Input]. *)
Record FeatureMetadata : Type := {
  shape : list Z;
  dtype : string }.

(** [shape[-1]], raising [IndexError] on an empty shape. *)
Definition last_dim (sh : list Z) : result Z :=
  match rev sh with
  | d :: _ => Ok d
  | [] => Raise IndexError
  end.

(** [shape[-1] = d]. *)
Definition set_last_dim (sh : list Z) (d : Z) : result (list Z) :=
  match rev sh with
  | _ :: front => Ok (rev (d :: front))
  | [] => Raise IndexError
  end.

Definition label_map : dict string :=
  [("part_coords", "points"); ("part_features", "features"); ("part_masks", "masks")]%string.

(** The last loop of [get_supervised_model_inputs]: for the entries in
    order, [inputs[key]] is the [Input] made from the keywords of the
    entry and [name=feature]; the first [Input] that raises ends the
    call. *)
Fixpoint input_layers (ext : Collaborators) (tmp_metadata : dict FeatureMetadata)
    (inputs : dict tensor) : result (dict tensor) :=
  match tmp_metadata with
  | [] => Ok inputs
  | (feature, metadata) :: rest =>
      let key := dict_get_default label_map feature feature in
      match Input_error ext feature (shape metadata) (dtype metadata) with
      | Some e => Raise e
      | None =>
          input_layers ext rest
            (dict_set inputs key (Input feature (shape metadata) (dtype metadata)))
      end
  end.

(** [get_supervised_model_inputs].  The second component is the metadata as
    the call leaves it: the copy is shallow, so the entries the caller
    holds are the ones updated. *)
Definition get_supervised_model_inputs (ext : Collaborators) (self : ModelLoader)
    (feature_metadata : dict FeatureMetadata) (downcast : bool)
    : result (dict tensor * dict FeatureMetadata) :=
  let tmp_metadata := feature_metadata in
  let tmp_metadata :=
    if downcast then
      map (fun entry : string * FeatureMetadata =>
             let (feature, metadata) := entry in
             if String.eqb (dtype metadata) "float64"
             then (feature, {| shape := shape metadata; dtype := "float32" |})
             else (feature, metadata)) tmp_metadata
    else tmp_metadata in
  tmp_metadata <-
    match variables (base self) with
    | Some vars =>
        let nvar := Z.of_nat (List.length vars) in
        jet <- getitem tmp_metadata "jet_features" ;;
        sh <- set_last_dim (shape jet) nvar ;;
        Ok (dict_set tmp_metadata "jet_features" {| shape := sh; dtype := dtype jet |})
    | None => Ok tmp_metadata
    end ;;
  tmp_metadata <-
    match noise_dimension_per_jet (base self) with
    | Some noise =>
        if Z.eqb noise 0 then Ok tmp_metadata
        else
          jet <- getitem tmp_metadata "jet_features" ;;
          d <- last_dim (shape jet) ;;
          sh <- set_last_dim (shape jet) (d + noise) ;;
          Ok (dict_set tmp_metadata "jet_features" {| shape := sh; dtype := dtype jet |})
    | None => Ok tmp_metadata
    end ;;
  inputs <- input_layers ext tmp_metadata [] ;;
  Ok (inputs, tmp_metadata).

(** [get_semi_weakly_weights].  [use_sigmoid] is a parameter of the Python
    function; [regularizers[p]] is [get_parameter_regularizer(p)] when
    [use_regularizer] holds and [None] otherwise. *)
Definition get_semi_weakly_weights (m1 m2 : float) (mu alpha : option float)
    (use_sigmoid : bool) (use_regularizer : bool) : dict ParameterModel :=
  let regularizers :=
    map (fun parameter : string =>
           (parameter,
            if use_regularizer then Some (ParameterRegularizer parameter) else None))
        ["m1"; "m2"; "mu"; "alpha"]%string in
  let regularizer_of (parameter : string) : option Regularizer :=
    dict_get_default regularizers parameter None in
  let weights : dict ParameterModel :=
    [("m1"%string,
      get_single_parameter_model (Some (ParameterTransform "m1")) (Some m1) None
        (regularizer_of "m1"%string) None (Some "m1"%string));
     ("m2"%string,
      get_single_parameter_model (Some (ParameterTransform "m2")) (Some m2) None
        (regularizer_of "m2"%string) None (Some "m2"%string))] in
  let weights :=
    match mu with
    | Some mu =>
        dict_set weights "mu"
          (get_single_parameter_model (Some (ParameterTransform "mu")) (Some mu) None
             (regularizer_of "mu"%string) None (Some "mu"%string))
    | None => weights
    end in
  let weights :=
    match alpha with
    | Some alpha =>
        dict_set weights "alpha"
          (get_single_parameter_model (Some (ParameterTransform "alpha")) (Some alpha) None
             (regularizer_of "alpha"%string) None (Some "alpha"%string))
    | None => weights
    end in
  weights.

(** File accesses and strategy scopes, in the order they happen. *)
Inductive IOEvent : Type :=
| PathExists (path : string)
| LoadModel (path : string)
| ScopeEnter (strategy : string)
| ScopeExit (strategy : string).

(** The files on disk: which paths exist, the model a path loads to, and
    the exception the load of a path raises when it does not load (its
    class depends on the Keras version). *)
Record Disk : Type := {
  disk_exists : string -> bool;
  disk_model : string -> option LoadedModel;
  disk_load_error : string -> exn }.

(** The mutable state of a call: the loader object and the access log. *)
Record State : Type := {
  self : ModelLoader;
  io_log : list IOEvent }.

(** Computations that read and update the state and may raise; the state
    reached when an exception is raised is kept. *)
Definition M (A : Type) : Type := State -> result A * State.

Definition M_ret {A : Type} (a : A) : M A := fun s => (Ok a, s).

Definition M_bind {A B : Type} (m : M A) (k : A -> M B) : M B :=
  fun s =>
    match m s with
    | (Ok a, s') => k a s'
    | (Raise e, s') => (Raise e, s')
    end.

Definition raise {A : Type} (e : exn) : M A := fun s => (Raise e, s).

Definition lift {A : Type} (r : result A) : M A := fun s => (r, s).

Definition get_self : M ModelLoader := fun s => (Ok (self s), s).

Definition update_self (f : ModelLoader -> ModelLoader) : M unit :=
  fun s => (Ok tt, {| self := f (self s); io_log := io_log s |}).

Definition log (ev : IOEvent) : M unit :=
  fun s => (Ok tt, {| self := self s; io_log := io_log s ++ [ev] |}).

(** [try: m finally: after]. *)
Definition finally {A : Type} (m : M A) (after : M unit) : M A :=
  fun s =>
    match m s with
    | (r, s') =>
        match after s' with
        | (Ok _, s'') => (r, s'')
        | (Raise e, s'') => (Raise e, s'')
        end
    end.

Declare Scope M_scope.
Delimit Scope M_scope with M.
Notation "x <- c ;; k" := (M_bind c (fun x => k))
  (at level 61, c at next level, right associativity) : M_scope.
Notation "c ;;; k" := (M_bind c (fun _ => k))
  (at level 61, right associativity) : M_scope.

(** Reading a local variable that may not have been assigned. *)
Definition read_local {A : Type} (name : string) (value : option A) : result A :=
  match value with
  | Some v => Ok v
  | None => Raise (UnboundLocalError name)
  end.

Definition set_semi_weakly_weight_models (v : dict ParameterModel) (o : ModelLoader) :=
  {| base := base o; _loss := _loss o; _sigmoid_activation := _sigmoid_activation o;
     semi_weakly_weight_models := Some v;
     llr_model := llr_model o; fs_model := fs_model o;
     llr_2_model := llr_2_model o; llr_3_model := llr_3_model o;
     fs_2_model := fs_2_model o; fs_3_model := fs_3_model o |}.

Definition set_llr_model (v : KerasModel) (o : ModelLoader) :=
  {| base := base o; _loss := _loss o; _sigmoid_activation := _sigmoid_activation o;
     semi_weakly_weight_models := semi_weakly_weight_models o;
     llr_model := Some v; fs_model := fs_model o;
     llr_2_model := llr_2_model o; llr_3_model := llr_3_model o;
     fs_2_model := fs_2_model o; fs_3_model := fs_3_model o |}.

Definition set_fs_model (v : KerasModel) (o : ModelLoader) :=
  {| base := base o; _loss := _loss o; _sigmoid_activation := _sigmoid_activation o;
     semi_weakly_weight_models := semi_weakly_weight_models o;
     llr_model := llr_model o; fs_model := Some v;
     llr_2_model := llr_2_model o; llr_3_model := llr_3_model o;
     fs_2_model := fs_2_model o; fs_3_model := fs_3_model o |}.

Definition set_llr_2_model (v : KerasModel) (o : ModelLoader) :=
  {| base := base o; _loss := _loss o; _sigmoid_activation := _sigmoid_activation o;
     semi_weakly_weight_models := semi_weakly_weight_models o;
     llr_model := llr_model o; fs_model := fs_model o;
     llr_2_model := Some v; llr_3_model := llr_3_model o;
     fs_2_model := fs_2_model o; fs_3_model := fs_3_model o |}.

Definition set_llr_3_model (v : KerasModel) (o : ModelLoader) :=
  {| base := base o; _loss := _loss o; _sigmoid_activation := _sigmoid_activation o;
     semi_weakly_weight_models := semi_weakly_weight_models o;
     llr_model := llr_model o; fs_model := fs_model o;
     llr_2_model := llr_2_model o; llr_3_model := Some v;
     fs_2_model := fs_2_model o; fs_3_model := fs_3_model o |}.

Definition set_fs_2_model (v : KerasModel) (o : ModelLoader) :=
  {| base := base o; _loss := _loss o; _sigmoid_activation := _sigmoid_activation o;
     semi_weakly_weight_models := semi_weakly_weight_models o;
     llr_model := llr_model o; fs_model := fs_model o;
     llr_2_model := llr_2_model o; llr_3_model := llr_3_model o;
     fs_2_model := Some v; fs_3_model := fs_3_model o |}.

Definition set_fs_3_model (v : KerasModel) (o : ModelLoader) :=
  {| base := base o; _loss := _loss o; _sigmoid_activation := _sigmoid_activation o;
     semi_weakly_weight_models := semi_weakly_weight_models o;
     llr_model := llr_model o; fs_model := fs_model o;
     llr_2_model := llr_2_model o; llr_3_model := llr_3_model o;
     fs_2_model := fs_2_model o; fs_3_model := Some v |}.

(** A model path argument: [str | List[str]], or [None] where optional. *)
Inductive ModelPaths : Type :=
| NoPath
| OnePath (path : string)
| ManyPaths (paths : list string).

Definition is_None (p : ModelPaths) : bool :=
  match p with NoPath => true | _ => false end.

(** A [kappa] argument: [str | float]. *)
Inductive KappaSpec : Type :=
| KappaNumber (value : float)
| KappaString (value : string).

(** What [get_kappa_out] returns: a Python float or a Keras tensor. *)
Inductive KappaOut : Type :=
| KappaFloat (value : float)
| KappaTensor (value : tensor).

(** A float meets a tensor operator as a constant node. *)
Definition as_tensor (k : KappaOut) : tensor :=
  match k with
  | KappaFloat value => Constant value
  | KappaTensor value => value
  end.

Section Builder.
Variable ext : Collaborators.
Variable disk : Disk.
Local Open Scope M_scope.

(** [load_model]: reads the model file; a path that does not load raises
    what the loader of aliad raises for it. *)
Definition load_model (model_path : string) : M LoadedModel :=
  log (LoadModel model_path) ;;;
  match disk_model disk model_path with
  | Some model => M_ret model
  | None => raise (disk_load_error disk model_path)
  end.

Definition os_path_exists (path : string) : M bool :=
  log (PathExists path) ;;; M_ret (disk_exists disk path).

(** [os.path.dirname] of a path argument; only a [str] has one. *)
Definition os_path_dirname (p : ModelPaths) : result string :=
  match p with
  | OnePath path => Ok (os_path.dirname path)
  | _ => Raise TypeError
  end.

(** [_distributed_wrapper]: the call runs inside the strategy scope when a
    strategy is set, and directly otherwise. *)
Definition _distributed_wrapper {A : Type} (fn : M A) : M A :=
  this <- get_self ;;
  match distribute_strategy (base this) with
  | Some strategy =>
      log (ScopeEnter strategy) ;;; finally fn (log (ScopeExit strategy))
  | None => fn
  end.

(** The loop of [_get_prior_out]: load, freeze and name each model;
    [i] is the index [enumerate] gives. *)
Fixpoint load_prior_models (name : string) (i : nat) (model_paths : list string)
    : M (list LoadedModel) :=
  match model_paths with
  | [] => M_ret []
  | model_path :: rest =>
      prior_model <- load_model model_path ;;
      let prior_model := freeze_all_layers prior_model in
      let prior_model := set_name prior_model (name ++ "_" ++ str_of_nat (i + 1)) in
      prior_models <- load_prior_models name (S i) rest ;;
      M_ret (prior_model :: prior_models)
  end.

Definition _get_prior_out (x : list tensor) (model_paths : ModelPaths)
    (name : string) : M tensor :=
  model_paths <- match model_paths with
                 | OnePath path => M_ret [path]
                 | ManyPaths paths => M_ret paths
                 | NoPath => raise TypeError
                 end ;;
  prior_models <- load_prior_models name 0 model_paths ;;
  M_ret (Average (map (fun prior_model => Call (Loaded prior_model) x) prior_models)).

(** The closure [get_kappa_out] of [_get_semi_weakly_model]; the tensor
    [mass_params] it captures is its first argument here. *)
Definition get_kappa_out (mass_params : tensor) (val : KappaSpec)
    (supervised_model_path : ModelPaths) (name : option string) : M KappaOut :=
  match val with
  | KappaNumber val => M_ret (KappaFloat val)
  | KappaString val =>
      let val := lower val in
      if str_in val ["inferred"; "sampled"]%string then
        let basename := path_manager_get_file ext "model_prior_ratio" val in
        dirname <- lift (os_path_dirname supervised_model_path) ;;
        let model_path := os_path.join dirname basename in
        found <- os_path_exists model_path ;;
        if negb found then
          raise (FileNotFoundError
                   ("prior ratio model path does not exist: " ++ model_path))
        else
          prior_model <- load_model model_path ;;
          let prior_model :=
            match name with
            | Some name => set_name prior_model name
            | None => prior_model
            end in
          let prior_model := freeze_all_layers prior_model in
          M_ret (KappaTensor (Call (Loaded prior_model) [mass_params]))
      else
        match float_of_str ext val with
        | Some x => M_ret (KappaFloat x)
        | None => raise (ValueError ("could not convert string to float: " ++ val))
        end
  end.

(** [weights[name](ones_like(inputs['jet_features'])[:, 0, 0])]. *)
Definition weight_output (weights : dict ParameterModel) (inputs : dict tensor)
    (name : string) : result tensor :=
  (w <- getitem weights name ;;
   jet <- getitem inputs "jet_features" ;;
   Ok (Call (WeightModel w) [OnesLikeSlice jet]))%result.

(** [_get_semi_weakly_model].  Every keyword argument is passed by
    [get_semi_weakly_model], the only caller. *)
Definition _get_semi_weakly_model
    (feature_metadata : dict FeatureMetadata)
    (fs_model_path : ModelPaths)
    (m1 m2 mu alpha : float)
    (kappa : KappaSpec)
    (fs_model_path_2 : ModelPaths)
    (epsilon : float)
    (bug_fix use_sigmoid use_regularizer : bool) : M KerasModel :=
  this <- get_self ;;
  built <- lift (get_supervised_model_inputs ext this feature_metadata true) ;;
  let inputs := fst built in
  let weights :=
    get_semi_weakly_weights m1 m2 (Some mu) (Some alpha) use_sigmoid use_regularizer in
  update_self (set_semi_weakly_weight_models weights) ;;;
  m1_out <- lift (weight_output weights inputs "m1") ;;
  m2_out <- lift (weight_output weights inputs "m2") ;;
  mu_out <- lift (weight_output weights inputs "mu") ;;
  alpha_out <- lift (weight_output weights inputs "alpha") ;;
  let mass_params := Concatenate [m1_out; m2_out] in
  let train_features := _get_train_features ext SEMI_WEAKLY in
  train_inputs <- lift (mapM (getitem inputs) train_features) ;;
  fs_inputs <- lift (mapM (getitem inputs) train_features) ;;
  let fs_inputs := fs_inputs ++ [mass_params] in
  let multi_signal := (1 <? List.length (decay_modes (base this)))%nat in
  if multi_signal && is_None fs_model_path_2 then
    raise (ValueError "fs_model_path_2 cannot be None when multiple signals are considered")
  else
    ws_out <-
      (if negb multi_signal then
         fs_out <- _get_prior_out fs_inputs fs_model_path "prior" ;;
         kappa_out <- get_kappa_out mass_params kappa fs_model_path None ;;
         ws_out <-
           lift (if negb (String.eqb (loss this) "nll") then
                   _get_one_signal_semi_weakly_layer fs_out mu_out
                     (Some (as_tensor kappa_out)) (Some (Constant epsilon)) (Some bug_fix)
                 else
                   _get_one_signal_likelihood_layer fs_out mu_out
                     (Some (as_tensor kappa_out)) (Some (Constant epsilon))) ;;
         LLR <- lift (as_tensor kappa_out * fs_out / (#1 - fs_out + #1e-10))%py ;;
         update_self (set_llr_model
           {| km_inputs := train_inputs; km_outputs := LLR; km_name := "LLR" |}) ;;;
         update_self (set_fs_model
           {| km_inputs := train_inputs; km_outputs := fs_out; km_name := "Supervised" |}) ;;;
         M_ret ws_out
       else
         kappas <-
           match kappa with
           | KappaString text =>
               match split_str ext text with
               | [token] => M_ret (KappaString token, KappaString token)
               | [token_2; token_3] => M_ret (KappaString token_2, KappaString token_3)
               | _ => raise (ValueError ("failed to interpret kappa value: " ++ text))
               end
           | KappaNumber _ => M_ret (kappa, kappa)
           end ;;
         let kappa_2 := fst kappas in
         let kappa_3 := snd kappas in
         kappa_2_out <- get_kappa_out mass_params kappa_2 fs_model_path
                          (Some "PriorRatioNet_2"%string) ;;
         kappa_3_out <- get_kappa_out mass_params kappa_3 fs_model_path_2
                          (Some "PriorRatioNet_3"%string) ;;
         fs_2_out <- _get_prior_out fs_inputs fs_model_path "prior_2prong" ;;
         fs_3_out <- _get_prior_out fs_inputs fs_model_path_2 "prior_3prong" ;;
         ws_out <-
           lift (if negb (String.eqb (loss this) "nll") then
                   _get_two_signal_semi_weakly_layer fs_2_out fs_3_out mu_out alpha_out
                     (Some (as_tensor kappa_2_out)) (Some (as_tensor kappa_3_out))
                     (Some (Constant epsilon)) (Some bug_fix)
                 else
                   _get_two_signal_likelihood_layer fs_2_out fs_3_out mu_out alpha_out
                     (Some (as_tensor kappa_2_out)) (Some (as_tensor kappa_3_out))
                     (Some (Constant epsilon))) ;;
         (* [kappa_out] is a local of this function that only the
            single-signal branch assigns *)
         kappa_out <- lift (read_local "kappa_out" (@None KappaOut)) ;;
         LLR_2 <- lift (as_tensor kappa_out * fs_2_out / (#1 - fs_2_out + #1e-10))%py ;;
         LLR_3 <- lift (as_tensor kappa_out * fs_3_out / (#1 - fs_3_out + #1e-10))%py ;;
         update_self (set_llr_2_model
           {| km_inputs := train_inputs; km_outputs := LLR_2; km_name := "TwoProngLLR" |}) ;;;
         update_self (set_llr_3_model
           {| km_inputs := train_inputs; km_outputs := LLR_3; km_name := "ThreeProngLLR" |}) ;;;
         update_self (set_fs_2_model
           {| km_inputs := train_inputs; km_outputs := fs_2_out;
              km_name := "TwoProngSupervised" |}) ;;;
         update_self (set_fs_3_model
           {| km_inputs := train_inputs; km_outputs := fs_3_out;
              km_name := "ThreeProngSupervised" |}) ;;;
         M_ret ws_out) ;;
    let ws_model :=
      {| km_inputs := train_inputs; km_outputs := ws_out; km_name := "SemiWeakly" |} in
    M_ret ws_model.

(** [get_semi_weakly_model]: the public entry point. *)
Definition get_semi_weakly_model
    (feature_metadata : dict FeatureMetadata)
    (fs_model_path : ModelPaths)
    (m1 m2 mu alpha : float)
    (kappa : KappaSpec)
    (fs_model_path_2 : ModelPaths)
    (epsilon : float)
    (bug_fix use_sigmoid use_regularizer : bool) : M KerasModel :=
  let model_fn :=
    _get_semi_weakly_model feature_metadata fs_model_path m1 m2 mu alpha kappa
      fs_model_path_2 epsilon bug_fix use_sigmoid use_regularizer in
  _distributed_wrapper model_fn.
End Builder.


(** The steps of [_get_semi_weakly_model] that come before any branching
    on the decay modes succeed: the inputs are built and hold
    ['jet_features'] and every training feature. *)
Definition inputs_available (ext : Collaborators) (this : ModelLoader)
    (feature_metadata : dict FeatureMetadata) : bool :=
  match get_supervised_model_inputs ext this feature_metadata true with
  | Ok built =>
      is_ok (getitem (fst built) "jet_features")
      && is_ok (mapM (getitem (fst built)) (_get_train_features ext SEMI_WEAKLY))
  | Raise _ => false
  end.

(** The file accesses of a log: lookups and loads, scopes left out. *)
Definition file_accesses (events : list IOEvent) : list IOEvent :=
  filter (fun ev => match ev with
                    | PathExists _ | LoadModel _ => true
                    | ScopeEnter _ | ScopeExit _ => false
                    end) events.

(** [config['callbacks']['early_stopping']['monitor']]. *)
Definition monitor_of (config : TrainConfig) : string :=
  monitor (early_stopping (cfg_callbacks config)).

(* ================================================================== *)
(** * A concrete setting *)
(* ================================================================== *)

(** Stand-ins for the collaborators, a small disk and a loader, on which
    the definitions above are run. *)
Module Sample.
Local Open Scope string_scope.

(** Splitting at commas, empty tokens removed. *)
Fixpoint split_commas (current : string) (s : string) : list string :=
  match s with
  | EmptyString => if String.eqb current "" then [] else [current]
  | String c rest =>
      if Ascii.eqb c (ascii_of_nat 44) then
        if String.eqb current "" then split_commas "" rest
        else current :: split_commas "" rest
      else split_commas (current ++ String c EmptyString) rest
  end.

Definition ext : Collaborators :=
  {| BaseLoader_init := fun args =>
       Ok {| feature_level := HIGH_LEVEL;
             decay_modes := [TWO_PRONG; THREE_PRONG];
             variables := None;
             noise_dimension_per_jet := None;
             use_validation := arg_use_validation args;
             distribute_strategy := arg_distribute_strategy args |};
     ModelType_parse_name := fun name =>
       let name := lower name in
       if String.eqb name "semi_weakly" then Some SEMI_WEAKLY
       else if String.eqb name "ideal_weakly" then Some IDEAL_WEAKLY
       else if String.eqb name "prior_ratio" then Some PRIOR_RATIO
       else if String.eqb name "dedicated_supervised" then Some (OTHER_MODEL_TYPE name)
       else if String.eqb name "param_supervised" then Some (OTHER_MODEL_TYPE name)
       else None;
     ModelType_format := fun m =>
       match m with
       | SEMI_WEAKLY => "semi_weakly"
       | IDEAL_WEAKLY => "ideal_weakly"
       | PRIOR_RATIO => "prior_ratio"
       | OTHER_MODEL_TYPE key => key
       end;
     LoggerSaveMode_is_train := fun name =>
       let name := lower name in
       if String.eqb name "train" then Some true
       else if String.eqb name "epoch" then Some false
       else if String.eqb name "batch" then Some false
       else None;
     _get_train_features := fun _ => ["jet_features"];
     path_manager_get_file := fun kind sampling_method =>
       kind ++ "_" ++ sampling_method ++ ".keras";
     split_str := split_commas "";
     float_of_str := fun text =>
       if String.eqb text "1.0" then Some 1%float
       else if String.eqb text "0.5" then Some 0.5%float
       else None;
     Input_error := fun name sh dt =>
       if existsb (fun d => Z.ltb d 0) sh
       then Some (ValueError ("negative dimension in the shape of " ++ name))
       else None;
     ModelCheckpoint_error := fun filepath save_weights_only save_best_only save_freq =>
       if String.eqb save_freq "epoch" then None
       else Some (ValueError ("Unrecognized save_freq: " ++ save_freq)) |}.

Definition base_args : BaseArgs :=
  {| arg_feature_level := "high_level";
     arg_decay_modes := "qq,qqq";
     arg_variables := None;
     arg_noise_dimension := None;
     arg_use_validation := true;
     arg_distribute_strategy := None;
     arg_outdir := "outputs";
     arg_verbosity := "INFO" |}.

Definition loader (modes : list DecayMode) (validation : bool)
    (loss_name : string) : ModelLoader :=
  {| base := {| feature_level := HIGH_LEVEL;
                decay_modes := modes;
                variables := None;
                noise_dimension_per_jet := None;
                use_validation := validation;
                distribute_strategy := None |};
     _loss := loss_name;
     _sigmoid_activation := false;
     semi_weakly_weight_models := None;
     llr_model := None;
     fs_model := None;
     llr_2_model := None;
     llr_3_model := None;
     fs_2_model := None;
     fs_3_model := None |}.

Definition saved_model : LoadedModel :=
  {| _name := "functional";
     layers := [ {| layer_name := "dense_1"; trainable := true |};
                 {| layer_name := "dense_2"; trainable := true |} ] |}.

Definition files : list string :=
  ["models/qq/full.keras"; "models/qqq/full.keras";
   "models/qq/model_prior_ratio_inferred.keras"].

Definition disk : Disk :=
  {| disk_exists := fun path => str_in path files;
     disk_model := fun path => if str_in path files then Some saved_model else None;
     disk_load_error := fun path => OSError path |}.

Definition metadata : dict FeatureMetadata :=
  [("jet_features", {| shape := [2; 7]%Z; dtype := "float64" |});
   ("param_masses", {| shape := [2]%Z; dtype := "float64" |})].

Definition state (modes : list DecayMode) : State :=
  {| self := loader modes true "bce"; io_log := [] |}.

(** Two decay modes and both supervised-model paths. *)
Definition two_signal_run : result KerasModel * State :=
  _get_semi_weakly_model ext disk metadata
    (OnePath "models/qq/full.keras") 0%float 0%float 0.01%float 0.5%float
    (KappaNumber 1%float) (OnePath "models/qqq/full.keras") 1e-5%float true false true
    (state [TWO_PRONG; THREE_PRONG]).

(** One decay mode, [kappa='inferred']. *)
Definition one_signal_run : result KerasModel * State :=
  _get_semi_weakly_model ext disk metadata
    (OnePath "models/qq/full.keras") 0%float 0%float 0.01%float 0.5%float
    (KappaString "inferred") NoPath 1e-5%float true false true
    (state [TWO_PRONG]).
End Sample.

(* ================================================================== *)
(** * Model weights *)
(* ================================================================== *)

(** A trainable weight ([tf.Variable]) of a model: its name and the array
    it holds. *)
Record Weight (Array : Type) : Type := {
  weight_name : string;
  weight_value : Array }.
Arguments weight_name {Array} _.
Arguments weight_value {Array} _.

(** [name.split('/')[0]]: the text before the first slash. *)
Fixpoint before_slash (name : string) : string :=
  match name with
  | EmptyString => EmptyString
  | String c rest =>
      if Ascii.eqb c os_path.slash then EmptyString else String c (before_slash rest)
  end.

Definition unknown_weight_message (name : string) : string :=
  ("Unknown model weight: " ++ name
   ++ ". Please make sure model weights are initialized with the proper names")%string.

Section Weights.
Context {Array Value Scalar : Type}.

(** What aliad's [utils.assign_weight] leaves in a variable that held the
    first argument, and numpy's [value().numpy().flatten()[0]]. *)
Variable assign : Array -> Value -> Array.
Variable first_entry : Array -> Scalar.

(** [assign_weight(weight, value)]. *)
Definition assign_weight (weight : Weight Array) (value : Value) : Weight Array :=
  {| weight_name := weight_name weight;
     weight_value := assign (weight_value weight) value |}.

(** The loop of [set_semi_weakly_model_weights] over
    [ws_model.trainable_weights].  The weights are updated in place: the
    second component is the list as the call leaves it, also when it
    raises. *)
Fixpoint set_weights_by_full_name (weight_dict : dict (option Value))
    (trainable_weights : list (Weight Array)) : result unit * list (Weight Array) :=
  match trainable_weights with
  | [] => (Ok tt, [])
  | weight :: rest =>
      let name := weight_name weight in
      match dict_get weight_dict name with
      | None => (Raise (RuntimeError (unknown_weight_message name)), weight :: rest)
      | Some value =>
          let weight :=
            match value with
            | Some value => assign_weight weight value
            | None => weight
            end in
          let (outcome, rest) := set_weights_by_full_name weight_dict rest in
          (outcome, weight :: rest)
      end
  end.

(** [set_semi_weakly_model_weights(ws_model, m1, m2, mu, alpha)]. *)
Definition set_semi_weakly_model_weights (trainable_weights : list (Weight Array))
    (m1 m2 mu alpha : option Value) : result unit * list (Weight Array) :=
  let weight_dict : dict (option Value) :=
    [("m1/kernel:0"%string, m1); ("m2/kernel:0"%string, m2);
     ("mu/kernel:0"%string, mu); ("alpha/kernel:0"%string, alpha)] in
  set_weights_by_full_name weight_dict trainable_weights.

(** [get_semi_weakly_model_weights(ws_model)]. *)
Definition get_semi_weakly_model_weights (trainable_weights : list (Weight Array))
    : dict Scalar :=
  fold_left (fun (weights : dict Scalar) (weight : Weight Array) =>
               let name := before_slash (weight_name weight) in
               let value := first_entry (weight_value weight) in
               dict_set weights name value)
            trainable_weights [].

(** The [values] argument of [set_model_weights]: a dict keyed by weight
    name, or a sequence taken by position. *)
Inductive WeightValues : Type :=
| ValuesByName (values : dict Value)
| ValuesByPosition (values : list Value).

(** [for i, value in enumerate(values): assign_weight(weights[i], value)]. *)
Fixpoint assign_by_position (weights : list (Weight Array)) (values : list Value)
    : result unit * list (Weight Array) :=
  match values with
  | [] => (Ok tt, weights)
  | value :: values =>
      match weights with
      | [] => (Raise IndexError, [])
      | weight :: rest =>
          let (outcome, rest) := assign_by_position rest values in
          (outcome, assign_weight weight value :: rest)
      end
  end.

(** [set_model_weights(model, values)]. *)
Definition set_model_weights (trainable_weights : list (Weight Array))
    (values : WeightValues) : result unit * list (Weight Array) :=
  let weights := trainable_weights in
  match values with
  | ValuesByName values =>
      (Ok tt,
       map (fun weight =>
              let name := before_slash (weight_name weight) in
              match dict_get values name with
              | Some value => assign_weight weight value
              | None => weight
              end) weights)
  | ValuesByPosition values => assign_by_position weights values
  end.
End Weights.

(* ================================================================== *)
(** * Callbacks *)
(* ================================================================== *)

(** The callback objects of aliad and Keras, kept by their arguments.  The
    four callbacks of aliad store their options; the one of Keras is made
    by [new_ModelCheckpoint] below. *)
Inductive Callback : Type :=
| EarlyStopping (options : EarlyStoppingConfig)
| ModelCheckpoint (filepath : string) (options : ModelCheckpointConfig)
| MetricsLogger (cachedir : string) (options : MetricsLoggerConfig)
| LearningRateScheduler (options : LRSchedulerConfig)
| WeightsLogger (cachedir : string) (options : WeightsLoggerConfig).

(** The path manager as [get_callbacks] uses it:
    [get_basename(kind, partial_format=True)] and
    [get_directory(kind, basename_only=True, partial_format=True)]. *)
Record PathManager : Type := {
  get_basename : string -> string;
  get_directory : string -> string }.

(** [list(config['callbacks'])]: the keys in the order
    [get_train_config] inserts them. *)
Definition callbacks_keys (callbacks : CallbacksConfig) : list string :=
  (match lr_scheduler callbacks with Some _ => ["lr_scheduler"%string] | None => [] end)
  ++ ["early_stopping"%string]
  ++ (match model_checkpoint callbacks with Some _ => ["model_checkpoint"%string] | None => [] end)
  ++ (match metrics_logger callbacks with Some _ => ["metrics_logger"%string] | None => [] end)
  ++ (match weights_logger callbacks with Some _ => ["weights_logger"%string] | None => [] end).

(** [config['callbacks'][key]] for a key that may be absent. *)
Definition callback_options {A : Type} (entry : option A) (key : string) : result A :=
  match entry with
  | Some options => Ok options
  | None => Raise (KeyError key)
  end.

Section Callbacks.
Variable ext : Collaborators.
Variable path_manager : PathManager.

(** The [ModelCheckpoint] of Keras, made from the file path and the
    options of the configuration; it checks its arguments. *)
Definition new_ModelCheckpoint (filepath : string) (options : ModelCheckpointConfig)
    : result Callback :=
  match ModelCheckpoint_error ext filepath (save_weights_only options)
          (save_best_only options) (mc_save_freq options) with
  | Some e => Raise e
  | None => Ok (ModelCheckpoint filepath options)
  end.

(** [get_callbacks(model_type, config, targets=None)], on a configuration
    of the shape [get_train_config] returns: [early_stopping] is always
    there, the other four entries may be absent. *)
Definition get_callbacks (model_type : ModelTypeArg) (config : TrainConfig)
    (targets : option (list string)) : result (dict Callback) :=
  let checkpoint_dir := cfg_checkpoint_dir config in
  let callbacks : dict Callback := [] in
  let targets :=
    match targets with
    | Some targets => targets
    | None => callbacks_keys (cfg_callbacks config)
    end in
  let callbacks :=
    if str_in "early_stopping" targets then
      dict_set callbacks "early_stopping"
        (EarlyStopping (early_stopping (cfg_callbacks config)))
    else callbacks in
  callbacks <-
    (if str_in "model_checkpoint" targets then
       let basename := get_basename path_manager "model_checkpoint" in
       let model_ckpt_filepath := os_path.join checkpoint_dir basename in
       options <- callback_options (model_checkpoint (cfg_callbacks config))
                    "model_checkpoint" ;;
       checkpoint <- new_ModelCheckpoint model_ckpt_filepath options ;;
       Ok (dict_set callbacks "model_checkpoint" checkpoint)
     else Ok callbacks) ;;
  callbacks <-
    (if str_in "metrics_logger" targets then
       let basename := get_directory path_manager "train_metrics" in
       let metrics_cachedir := os_path.join checkpoint_dir basename in
       options <- callback_options (metrics_logger (cfg_callbacks config))
                    "metrics_logger" ;;
       Ok (dict_set callbacks "metrics_logger" (MetricsLogger metrics_cachedir options))
     else Ok callbacks) ;;
  callbacks <-
    (if str_in "lr_scheduler" targets then
       options <- callback_options (lr_scheduler (cfg_callbacks config)) "lr_scheduler" ;;
       Ok (dict_set callbacks "lr_scheduler" (LearningRateScheduler options))
     else Ok callbacks) ;;
  model_type <- ModelType_parse ext model_type ;;
  callbacks <-
    (if ModelType_eqb model_type SEMI_WEAKLY && str_in "weights_logger" targets then
       let basename := get_directory path_manager "model_weights" in
       let weights_cachedir := os_path.join checkpoint_dir basename in
       options <- callback_options (weights_logger (cfg_callbacks config))
                    "weights_logger" ;;
       Ok (dict_set callbacks "weights_logger" (WeightsLogger weights_cachedir options))
     else Ok callbacks) ;;
  Ok callbacks.
End Callbacks.

(** The keys of a dict, in insertion order. *)
Definition dict_keys {V : Type} (d : dict V) : list string := map fst d.

(** The body of the downcast loop of [get_supervised_model_inputs]. *)
Definition downcast_entry (entry : string * FeatureMetadata) : string * FeatureMetadata :=
  let (feature, metadata) := entry in
  if String.eqb (dtype metadata) "float64"
  then (feature, {| shape := shape metadata; dtype := "float32" |})
  else (feature, metadata).

(** The two updates of ['jet_features'] in [get_supervised_model_inputs],
    on the metadata after the downcast loop: the last dimension is set to
    the number of selected variables, then the noise dimensions are
    added. *)
Definition update_jet_features (self : ModelLoader)
    (tmp_metadata : dict FeatureMetadata) : result (dict FeatureMetadata) :=
  tmp_metadata <-
    match variables (base self) with
    | Some vars =>
        let nvar := Z.of_nat (List.length vars) in
        jet <- getitem tmp_metadata "jet_features" ;;
        sh <- set_last_dim (shape jet) nvar ;;
        Ok (dict_set tmp_metadata "jet_features" {| shape := sh; dtype := dtype jet |})
    | None => Ok tmp_metadata
    end ;;
  match noise_dimension_per_jet (base self) with
  | Some noise =>
      if Z.eqb noise 0 then Ok tmp_metadata
      else
        jet <- getitem tmp_metadata "jet_features" ;;
        d <- last_dim (shape jet) ;;
        sh <- set_last_dim (shape jet) (d + noise) ;;
        Ok (dict_set tmp_metadata "jet_features" {| shape := sh; dtype := dtype jet |})
  | None => Ok tmp_metadata
  end.

(** More of the concrete setting: loaders of other kinds, a path manager
    and the four kernels of a semi-weakly model. *)
Module SampleTraining.
Local Open Scope string_scope.

Definition loader_with (level : FeatureLevel) (noise : option Z) (loss_name : string)
    : ModelLoader :=
  {| base := {| feature_level := level;
                decay_modes := [TWO_PRONG];
                variables := None;
                noise_dimension_per_jet := noise;
                use_validation := true;
                distribute_strategy := None |};
     _loss := loss_name;
     _sigmoid_activation := false;
     semi_weakly_weight_models := None;
     llr_model := None;
     fs_model := None;
     llr_2_model := None;
     llr_3_model := None;
     fs_2_model := None;
     fs_3_model := None |}.

Definition nll_state : State :=
  {| self := Sample.loader [TWO_PRONG] true "nll"; io_log := [] |}.

Definition path_manager : PathManager :=
  {| get_basename := fun kind => kind ++ ".weights.h5";
     get_directory := fun kind => kind |}.

(** Kernels of one entry: assigning stores the value, and the first entry
    is the value held. *)
Definition assign (held value : float) : float := value.

Definition first_entry (held : float) : float := held.

Definition trainable_weights : list (Weight float) :=
  [ {| weight_name := "m1/kernel:0"; weight_value := 3%float |};
    {| weight_name := "m2/kernel:0"; weight_value := 1%float |};
    {| weight_name := "mu/kernel:0"; weight_value := 0.01%float |};
    {| weight_name := "alpha/kernel:0"; weight_value := 0.5%float |} ].
End SampleTraining.

(* ================================================================== *)
(** * Facts about binary64 arithmetic *)
(* ================================================================== *)

Section FloatFacts.
Local Open Scope float_scope.

Lemma digits2_pos_mul_2p52 (m : positive) :
  Zpos (digits2_pos (4503599627370496 * m)) = (Zpos (digits2_pos m) + 52)%Z.
Proof. cbn [Pos.mul digits2_pos]. rewrite !Pos2Z.inj_succ. lia. Qed.

Lemma shr_2p52 (m : positive) :
  iter_pos shr_1 52
    {| shr_m := Zpos (4503599627370496 * m); shr_r := false; shr_s := false |}
  = {| shr_m := Zpos m; shr_r := false; shr_s := false |}.
Proof. reflexivity. Qed.

(** Multiplying a valid binary64 value by [1.0] is exact: the product of
    the mantissas is shifted back by the 52 bits that [1.0] brings. *)
Lemma SF64mul_one_l (x : spec_float) :
  valid_binary x = true -> SF64mul (Prim2SF 1) x = x.
Proof.
  intros Hv. change (Prim2SF 1) with (S754_finite false 4503599627370496 (-52)).
  destruct x as [s|s| |s m e]; try reflexivity.
  cbn [valid_binary] in Hv. unfold bounded, canonical_mantissa in Hv.
  apply andb_prop in Hv. destruct Hv as [Hc Hb].
  apply Z.eqb_eq in Hc.
  unfold SF64mul, SFmul. cbn [xorb].
  unfold binary_round_aux, shr_fexp.
  cbn [Zdigits2 shr_record_of_loc].
  rewrite digits2_pos_mul_2p52.
  replace (Z.pos (digits2_pos m) + 52 + (-52 + e))%Z
    with (Z.pos (digits2_pos m) + e)%Z by lia.
  rewrite Hc.
  replace (e - (-52 + e))%Z with 52%Z by lia.
  cbn [shr]. rewrite shr_2p52.
  cbn [shr_m loc_of_shr_record round_nearest_even Zdigits2 shr_record_of_loc].
  replace (-52 + e + 52)%Z with e by lia.
  rewrite Hc, Z.sub_diag. cbn [shr shr_m]. now rewrite Hb.
Qed.

Lemma float_mul_1_l (x : float) : 1 * x = x.
Proof.
  apply Prim2SF_inj. rewrite mul_spec. apply SF64mul_one_l, Prim2SF_valid.
Qed.

Lemma SFeqb_refl_finite (s : bool) (m : positive) (e : Z) :
  SFeqb (S754_finite s m e) (S754_finite s m e) = true.
Proof.
  unfold SFeqb, SFcompare. rewrite Z.compare_refl.
  replace (Pos.compare_cont Eq m m) with Eq by (symmetry; apply Pos.compare_refl).
  now destruct s.
Qed.

Lemma is_finite_spec (x : float) : is_finite x = SF_is_finite (Prim2SF x).
Proof.
  unfold is_finite, is_nan, is_infinity.
  rewrite !eqb_spec, abs_spec.
  change (Prim2SF infinity) with (S754_infinity false).
  destruct (Prim2SF x) as [s|s| |s m e]; try reflexivity.
  - now destruct s.
  - cbn [SFabs SF_is_finite]. rewrite SFeqb_refl_finite. reflexivity.
Qed.

Lemma is_zero_spec (x : float) : is_zero x = SF_is_zero (Prim2SF x).
Proof.
  unfold is_zero. rewrite eqb_spec.
  change (Prim2SF zero) with (S754_zero false).
  destruct (Prim2SF x) as [s|s| |s m e]; try reflexivity; now destruct s.
Qed.

Lemma is_nan_spec (x : float) : is_nan x = SF_is_nan (Prim2SF x).
Proof.
  unfold is_nan. rewrite eqb_spec.
  destruct (Prim2SF x) as [s|s| |s m e]; try reflexivity.
  - now destruct s.
  - now rewrite SFeqb_refl_finite.
Qed.

Lemma is_nan_eq (x : float) : is_nan x = true -> x = nan.
Proof.
  rewrite is_nan_spec. intros H. rewrite <- (SF2Prim_Prim2SF x).
  destruct (Prim2SF x); try discriminate. reflexivity.
Qed.

(** The two zeros are the only values equal to zero. *)
Lemma zero_cases (x : float) : is_zero x = true -> x = 0 \/ x = (-0).
Proof.
  rewrite is_zero_spec. intros H.
  rewrite <- (SF2Prim_Prim2SF x).
  destruct (Prim2SF x) as [s|s| |s m e]; try discriminate.
  destruct s; [right|left]; reflexivity.
Qed.

Lemma mul_zero_finite (z x : float) :
  is_zero z = true -> is_finite x = true -> is_zero (z * x) = true.
Proof.
  rewrite !is_zero_spec, is_finite_spec, mul_spec.
  destruct (Prim2SF z) as [sz|sz| |sz mz ez]; try discriminate.
  destruct (Prim2SF x) as [s|s| |s m e]; try discriminate; reflexivity.
Qed.

(** Zero times an infinity or a NaN is a NaN. *)
Lemma mul_zero_not_finite (z x : float) :
  is_zero z = true -> is_finite x = false -> z * x = nan.
Proof.
  intros Hz Hx. apply is_nan_eq. revert Hz Hx.
  rewrite is_zero_spec, is_finite_spec, is_nan_spec, mul_spec.
  destruct (Prim2SF z) as [sz|sz| |sz mz ez]; try discriminate.
  destruct (Prim2SF x) as [s|s| |s m e]; try discriminate; reflexivity.
Qed.

Lemma add_zero_r (x z : float) :
  is_zero x = false -> is_zero z = true -> x + z = x.
Proof.
  rewrite !is_zero_spec. intros Hx Hz.
  apply Prim2SF_inj. rewrite add_spec.
  destruct (Prim2SF z) as [sz|sz| |sz mz ez]; try discriminate.
  destruct (Prim2SF x) as [s|s| |s m e]; try discriminate; reflexivity.
Qed.

Lemma sub_nan_l (x : float) : nan - x = nan.
Proof.
  apply is_nan_eq. rewrite is_nan_spec, sub_spec.
  change (Prim2SF nan) with S754_nan. reflexivity.
Qed.

(** Subtracting one forgets a zero added before, whatever its sign. *)
Lemma add_zero_sub_one (x z : float) :
  is_zero z = true -> (x + z) - 1 = x - 1.
Proof.
  rewrite is_zero_spec. intros Hz.
  apply Prim2SF_inj. rewrite !sub_spec, add_spec.
  change (Prim2SF 1) with (S754_finite false 4503599627370496 (-52)).
  destruct (Prim2SF z) as [sz|sz| |sz mz ez]; try discriminate.
  destruct (Prim2SF x) as [s|s| |s m e]; try reflexivity.
  now destruct s, sz.
Qed.

Lemma zero_add_sub_one (x z : float) :
  is_zero z = true -> (z + x) - 1 = x - 1.
Proof.
  rewrite is_zero_spec. intros Hz.
  apply Prim2SF_inj. rewrite !sub_spec, add_spec.
  change (Prim2SF 1) with (S754_finite false 4503599627370496 (-52)).
  destruct (Prim2SF z) as [sz|sz| |sz mz ez]; try discriminate.
  destruct (Prim2SF x) as [s|s| |s m e]; try reflexivity.
  now destruct s, sz.
Qed.

Lemma float_truediv_one_two (mu : float) :
  is_zero mu = true -> float_truediv 1 (1 + 1 - mu) = Ok 0.5.
Proof.
  intros H. destruct (zero_cases mu H) as [-> | ->]; reflexivity.
Qed.
End FloatFacts.

(* ================================================================== *)
(** * The likelihood-ratio transforms: results *)
(* ================================================================== *)

Lemma result_bind_ret {A : Type} (r : result A) : result_bind r (fun a => Ok a) = r.
Proof. now destruct r. Qed.

Ltac float_ops := cbv [py_add py_sub py_mul py_truediv of_float PyFloat] in *.

(** C1.  Whatever implements the operators (floats, tensors), the
    one-signal weak-supervision transform computes
    [LLR = kappa * f_s / (1 - f_s + epsilon)] and
    [LLR_xs = 1 + mu * (LLR - 1)], and returns [LLR_xs / (LLR_xs + 1 - mu)]
    when [bug_fix] is true or omitted, [LLR_xs / (LLR_xs + 1)] when it is
    false. *)
Theorem one_signal_layer_formula {T : Type} `{PyNumber T}
    (f_s mu kappa epsilon : T) (bug_fix : option bool) :
  _get_one_signal_semi_weakly_layer f_s mu (Some kappa) (Some epsilon) bug_fix
  = spec_one_signal_weight f_s mu kappa epsilon
      (match bug_fix with Some b => b | None => true end).
Proof.
  unfold _get_one_signal_semi_weakly_layer, spec_one_signal_weight,
    spec_LLR, spec_LLR_xs, spec_w_s.
  cbn [kwarg].
  destruct (kappa * f_s / (#1 - f_s + epsilon))%py as [LLR|e]; [|reflexivity].
  cbn [result_bind].
  destruct bug_fix as [[|]|]; cbn [kwarg]; apply result_bind_ret.
Qed.

(** On tensors no operator raises, so the transform always returns the
    graph of the formula. *)
Lemma one_signal_layer_on_tensors (f_s mu kappa epsilon : tensor) :
  _get_one_signal_semi_weakly_layer f_s mu (Some kappa) (Some epsilon) None
  = Ok (Div (Add (Constant 1) (Mul mu (Sub (Div (Mul kappa f_s)
                                                (Add (Sub (Constant 1) f_s) epsilon))
                                           (Constant 1))))
            (Sub (Add (Add (Constant 1)
                           (Mul mu (Sub (Div (Mul kappa f_s)
                                             (Add (Sub (Constant 1) f_s) epsilon))
                                        (Constant 1))))
                      (Constant 1))
                 mu)).
Proof. reflexivity. Qed.

Lemma one_signal_mu_zero_regular
    (f_s mu : float) (kappa epsilon : option float) (bug_fix : option bool) (LLR : float) :
  is_zero mu = true ->
  spec_LLR (kwarg 1%float kappa) f_s (kwarg 1e-10%float epsilon) = Ok LLR ->
  is_finite (LLR - 1)%float = true ->
  _get_one_signal_semi_weakly_layer f_s mu kappa epsilon bug_fix = Ok 0.5%float.
Proof.
  intros Hmu HLLR Hfin.
  unfold _get_one_signal_semi_weakly_layer.
  unfold spec_LLR in HLLR. float_ops.
  cbv zeta. rewrite HLLR. cbn [result_bind].
  pose proof (mul_zero_finite mu (LLR - 1)%float Hmu Hfin) as Hz.
  rewrite (add_zero_r 1%float _ eq_refl Hz).
  destruct (kwarg true bug_fix).
  - now rewrite (float_truediv_one_two mu Hmu).
  - reflexivity.
Qed.

Lemma one_signal_mu_zero_nan
    (f_s mu : float) (kappa epsilon : option float) (bug_fix : option bool) (LLR : float) :
  is_zero mu = true ->
  spec_LLR (kwarg 1%float kappa) f_s (kwarg 1e-10%float epsilon) = Ok LLR ->
  is_finite (LLR - 1)%float = false ->
  _get_one_signal_semi_weakly_layer f_s mu kappa epsilon bug_fix = Ok nan.
Proof.
  intros Hmu HLLR Hinf.
  unfold _get_one_signal_semi_weakly_layer.
  unfold spec_LLR in HLLR. float_ops.
  cbv zeta. rewrite HLLR. cbn [result_bind].
  rewrite (mul_zero_not_finite mu (LLR - 1)%float Hmu Hinf).
  change (1 + nan)%float with nan. change (nan + 1)%float with nan.
  rewrite sub_nan_l.
  destruct (kwarg true bug_fix); reflexivity.
Qed.

(** C3, as the code has it.  At [mu = 0] (either zero) the one-signal
    transform on Python floats returns exactly [0.5], under both variants
    of [bug_fix], exactly when the likelihood ratio is computed and
    [LLR - 1] is finite; otherwise the division raises or the result is a
    NaN. *)
Theorem one_signal_mu_zero_half_iff
    (f_s mu : float) (kappa epsilon : option float) (bug_fix : option bool) :
  is_zero mu = true ->
  _get_one_signal_semi_weakly_layer f_s mu kappa epsilon bug_fix = Ok 0.5%float
  <-> LLR_minus_one_finite (kwarg 1%float kappa) f_s (kwarg 1e-10%float epsilon) = true.
Proof.
  intros Hmu. unfold LLR_minus_one_finite.
  destruct (spec_LLR (kwarg 1%float kappa) f_s (kwarg 1e-10%float epsilon))
    as [LLR|e] eqn:HLLR.
  - destruct (is_finite (LLR - 1)%float) eqn:Hfin.
    + split; [reflexivity|]. intros _.
      now apply (one_signal_mu_zero_regular f_s mu kappa epsilon bug_fix LLR).
    + rewrite (one_signal_mu_zero_nan f_s mu kappa epsilon bug_fix LLR Hmu HLLR Hfin).
      split; [|discriminate]. intros H.
      apply (f_equal (fun r => match r with
                               | Ok x => is_nan x
                               | Raise _ => false
                               end)) in H.
      vm_compute in H. discriminate H.
  - split; [|discriminate]. intros H. exfalso. revert H.
    unfold _get_one_signal_semi_weakly_layer. unfold spec_LLR in HLLR. float_ops.
    cbv zeta. rewrite HLLR. cbn [result_bind]. intros H.
    apply (f_equal is_ok) in H. discriminate H.
Qed.

Lemma one_signal_mu_zero_half_witness :
  is_zero 0%float = true
  /\ LLR_minus_one_finite 3%float 0.75%float 1e-10%float = true
  /\ _get_one_signal_semi_weakly_layer 0.75%float 0%float (Some 3%float) None (Some true)
     = Ok 0.5%float
  /\ _get_one_signal_semi_weakly_layer 0.75%float 0%float (Some 3%float) None (Some false)
     = Ok 0.5%float.
Proof.
  split; [reflexivity|]. split; [vm_compute; reflexivity|]. split.
  - apply (proj2 (one_signal_mu_zero_half_iff 0.75%float 0%float (Some 3%float) None
                    (Some true) eq_refl)).
    vm_compute; reflexivity.
  - apply (proj2 (one_signal_mu_zero_half_iff 0.75%float 0%float (Some 3%float) None
                    (Some false) eq_refl)).
    vm_compute; reflexivity.
Defined.

(** C3, as stated, fails: with [f_s = 0.75] and [kappa] the largest finite
    float the likelihood ratio overflows, [0 * inf] is a NaN, and so is
    the result. *)
Lemma one_signal_mu_zero_counterexample :
  ~ (forall (f_s kappa : float) (bug_fix : bool),
        (0 <? f_s)%float = true -> (f_s <? 1)%float = true ->
        _get_one_signal_semi_weakly_layer f_s 0%float (Some kappa) None (Some bug_fix)
        = Ok 0.5%float).
Proof.
  intros H.
  specialize (H 0.75%float 0x1.fffffffffffffp+1023%float true eq_refl eq_refl).
  apply (f_equal (fun r => match r with
                           | Ok x => Prim2SF x
                           | Raise _ => S754_zero false
                           end)) in H.
  vm_compute in H. discriminate H.
Qed.

Example one_signal_mu_zero_overflow :
  _get_one_signal_semi_weakly_layer 0.75%float 0%float
    (Some 0x1.fffffffffffffp+1023%float) None (Some true) = Ok nan
  /\ _get_one_signal_semi_weakly_layer 0.75%float 0%float
       (Some 0x1.fffffffffffffp+1023%float) None (Some false) = Ok nan.
Proof. split; vm_compute; reflexivity. Qed.

(** C4, as the code has it.  On Python floats the two-signal transform at
    [alpha = 1] equals the one-signal transform of [(f_s3, kappa_3)]
    whenever the likelihood ratio of the other mode, [LLR_2], is computed
    and finite; at [alpha = 0] it equals the one-signal transform of
    [(f_s2, kappa_2)] whenever [LLR_3] is computed and finite. *)
Theorem two_signal_alpha_endpoints
    (fs_2 fs_3 mu : float) (kappa_2 kappa_3 epsilon : option float)
    (bug_fix : option bool) :
  (LLR_finite (kwarg 1%float kappa_2) fs_2 (kwarg 1e-10%float epsilon) = true ->
   _get_two_signal_semi_weakly_layer fs_2 fs_3 mu 1%float kappa_2 kappa_3 epsilon bug_fix
   = _get_one_signal_semi_weakly_layer fs_3 mu kappa_3 epsilon bug_fix)
  /\
  (LLR_finite (kwarg 1%float kappa_3) fs_3 (kwarg 1e-10%float epsilon) = true ->
   _get_two_signal_semi_weakly_layer fs_2 fs_3 mu 0%float kappa_2 kappa_3 epsilon bug_fix
   = _get_one_signal_semi_weakly_layer fs_2 mu kappa_2 epsilon bug_fix).
Proof.
  unfold LLR_finite, _get_two_signal_semi_weakly_layer,
    _get_one_signal_semi_weakly_layer, spec_LLR.
  float_ops. cbv zeta. split.
  - destruct (float_truediv (kwarg 1%float kappa_2 * fs_2)%float _) as [LLR_2|e];
      [|discriminate].
    intros Hfin. cbn [result_bind].
    destruct (float_truediv (kwarg 1%float kappa_3 * fs_3)%float _) as [LLR_3|e];
      [|reflexivity].
    cbn [result_bind].
    change (1 - 1)%float with 0%float.
    rewrite float_mul_1_l.
    rewrite (add_zero_sub_one LLR_3 (0 * LLR_2)%float
               (mul_zero_finite 0%float LLR_2 eq_refl Hfin)).
    reflexivity.
  - destruct (float_truediv (kwarg 1%float kappa_3 * fs_3)%float _) as [LLR_3|e];
      [|discriminate].
    intros Hfin.
    destruct (float_truediv (kwarg 1%float kappa_2 * fs_2)%float _) as [LLR_2|e];
      [|reflexivity].
    cbn [result_bind].
    change (1 - 0)%float with 1%float.
    rewrite float_mul_1_l.
    rewrite (zero_add_sub_one LLR_2 (0 * LLR_3)%float
               (mul_zero_finite 0%float LLR_3 eq_refl Hfin)).
    reflexivity.
Qed.

Lemma two_signal_alpha_endpoints_witness :
  LLR_finite 2%float 0.25%float 1e-10%float = true
  /\ LLR_finite 3%float 0.75%float 1e-10%float = true
  /\ _get_two_signal_semi_weakly_layer 0.25%float 0.75%float 0.125%float 1%float
       (Some 2%float) (Some 3%float) None None
     = _get_one_signal_semi_weakly_layer 0.75%float 0.125%float (Some 3%float) None None
  /\ _get_two_signal_semi_weakly_layer 0.25%float 0.75%float 0.125%float 0%float
       (Some 2%float) (Some 3%float) None None
     = _get_one_signal_semi_weakly_layer 0.25%float 0.125%float (Some 2%float) None None.
Proof.
  split; [vm_compute; reflexivity|]. split; [vm_compute; reflexivity|]. split.
  - apply (proj1 (two_signal_alpha_endpoints 0.25%float 0.75%float 0.125%float
                    (Some 2%float) (Some 3%float) None None)).
    vm_compute; reflexivity.
  - apply (proj2 (two_signal_alpha_endpoints 0.25%float 0.75%float 0.125%float
                    (Some 2%float) (Some 3%float) None None)).
    vm_compute; reflexivity.
Defined.

(** C4, as stated, fails: with [f_s2 = 1] and [epsilon = 0] the ratio of
    the two-prong mode divides by zero, so the two-signal transform raises
    at [alpha = 1] where the one-signal transform of the three-prong mode
    returns a weight. *)
Lemma two_signal_alpha_counterexample :
  ~ (forall (fs_2 fs_3 mu kappa_2 kappa_3 epsilon : float) (bug_fix : bool),
        _get_two_signal_semi_weakly_layer fs_2 fs_3 mu 1%float
          (Some kappa_2) (Some kappa_3) (Some epsilon) (Some bug_fix)
        = _get_one_signal_semi_weakly_layer fs_3 mu (Some kappa_3) (Some epsilon)
            (Some bug_fix)
        /\ _get_two_signal_semi_weakly_layer fs_2 fs_3 mu 0%float
             (Some kappa_2) (Some kappa_3) (Some epsilon) (Some bug_fix)
           = _get_one_signal_semi_weakly_layer fs_2 mu (Some kappa_2) (Some epsilon)
               (Some bug_fix)).
Proof.
  intros H.
  destruct (H 1%float 0.5%float 0.5%float 1%float 1%float 0%float true) as [H1 _].
  apply (f_equal is_ok) in H1. vm_compute in H1. discriminate H1.
Qed.

(** The same failure without any division by zero: a ratio that overflows
    turns the two-signal weight into a NaN. *)
Example two_signal_alpha_overflow :
  _get_two_signal_semi_weakly_layer 0.75%float 0.5%float 0.5%float 1%float
    (Some 0x1.fffffffffffffp+1023%float) (Some 1%float) None None = Ok nan
  /\ _get_one_signal_semi_weakly_layer 0.5%float 0.5%float (Some 1%float) None None
     = Ok 0.66666666664444441%float.
Proof. split; vm_compute; reflexivity. Qed.

(* ================================================================== *)
(** * The loader configuration: results *)
(* ================================================================== *)

Section LoaderFacts.
Variable ext : Collaborators.
Local Open Scope string_scope.

(** The constructor succeeds exactly when the base class does, whatever
    [loss] is, and stores [loss] as given. *)
Lemma ModelLoader_init_stores_loss (base_args : BaseArgs)
    (sigmoid_activation : option bool) (name : string) :
  is_ok (ModelLoader_init ext base_args sigmoid_activation (Some name))
  = is_ok (BaseLoader_init ext base_args)
  /\ forall loader : ModelLoader,
       ModelLoader_init ext base_args sigmoid_activation (Some name) = Ok loader ->
       loss loader = name.
Proof.
  unfold ModelLoader_init.
  destruct (BaseLoader_init ext base_args) as [b|e]; cbn [result_bind is_ok].
  - split; [reflexivity|]. intros loader H.
    apply (f_equal (fun r => match r with
                             | Ok l => loss l
                             | Raise _ => name
                             end)) in H.
    symmetry. exact H.
  - split; [reflexivity|]. intros loader H.
    apply (f_equal is_ok) in H. discriminate H.
Qed.

(** The setter accepts exactly the two loss names. *)
Lemma loss_setter_validates (self : ModelLoader) (value : string) :
  is_ok (loss_setter self value) = str_in (lower value) ["bce"; "nll"].
Proof.
  unfold loss_setter. now destruct (str_in (lower value) ["bce"; "nll"]).
Qed.

(** With a true model type the guard of the NLL loss applies; the message
    names the model type as it was given. *)
Lemma nll_loss_guard (self : ModelLoader) (a : ModelTypeArg) (m : ModelType) :
  loss self = "nll" ->
  truthy (Some a) = true ->
  ModelType_parse ext a = Ok m ->
  get_loss_fn ext self (Some a)
  = if ModelType_eqb m SEMI_WEAKLY then Ok (ScaledNLLLoss 0%float 1%float)
    else Raise (RuntimeError
                  ("NLL loss is only allowed for semi-weakly models, not "
                   ++ match a with
                      | ByName name => name
                      | ByMember member => ModelType_format ext member
                      end ++ ".")).
Proof.
  intros Hloss Htrue Hparse. unfold get_loss_fn, and_parsed.
  rewrite Hloss, Htrue, Hparse. cbn.
  rewrite orb_false_r. now destruct (ModelType_eqb m SEMI_WEAKLY), a.
Qed.
End LoaderFacts.

(** C10.  With [loss = 'nll'] and no model type (omitted, [None], or the
    empty string), [get_loss_fn] does not raise: the guard is skipped and
    the NLL loss object is returned. *)
Theorem nll_loss_without_model_type
    (ext : Collaborators) (self : ModelLoader) (model_type : option ModelTypeArg) :
  loss self = "nll"%string ->
  truthy model_type = false ->
  get_loss_fn ext self model_type = Ok (ScaledNLLLoss 0%float 1%float).
Proof.
  intros Hloss Hfalse. unfold get_loss_fn, and_parsed.
  rewrite Hloss, Hfalse. cbn.
  destruct model_type; reflexivity.
Qed.

Lemma nll_loss_without_model_type_witness :
  loss (Sample.loader [TWO_PRONG] true "nll") = "nll"%string
  /\ truthy None = false
  /\ get_loss_fn Sample.ext (Sample.loader [TWO_PRONG] true "nll") None
     = Ok (ScaledNLLLoss 0%float 1%float).
Proof.
  split; [reflexivity|]. split; [reflexivity|].
  apply (nll_loss_without_model_type Sample.ext (Sample.loader [TWO_PRONG] true "nll") None);
    reflexivity.
Defined.

(** C7, on the code.  Constructing the loader with [loss='mse'] succeeds
    and stores the name; the setter of the [loss] property would have
    raised, and the error only shows at the first use, in [get_loss_fn]. *)
Theorem init_stores_invalid_loss_unchecked :
  exists loader : ModelLoader,
    ModelLoader_init Sample.ext Sample.base_args None (Some "mse"%string) = Ok loader
    /\ loss loader = "mse"%string
    /\ loss_setter loader "mse"
       = Raise (ValueError (invalid_loss_message "mse"))
    /\ get_loss_fn Sample.ext loader None
       = Raise (ValueError "Invalid name for loss function: mse").
Proof.
  eexists. split; [reflexivity|]. repeat split.
Qed.

(** C8, as the code has it.  In a configuration that [get_train_config]
    returns, the early-stopping monitor is ['val_loss'] for the
    prior-ratio model, whatever [use_validation] is; for every other model
    type it is ['val_loss'] with a validation set and ['loss'] without. *)
Theorem train_config_monitor
    (ext : Collaborators) (self : ModelLoader) (checkpoint_dir : string)
    (model_type : option ModelTypeArg) (weight_clipping : bool) (epochs : option Z)
    (model_save_freq metric_save_freq weight_save_freq : string) (config : TrainConfig) :
  get_train_config ext self checkpoint_dir model_type weight_clipping epochs
    model_save_freq metric_save_freq weight_save_freq = Ok config ->
  exists is_prior_ratio : bool,
    and_parsed ext model_type (fun m => ModelType_eqb m PRIOR_RATIO) = Ok is_prior_ratio
    /\ monitor_of config
       = if is_prior_ratio then "val_loss"%string
         else if use_validation (base self) then "val_loss"%string else "loss"%string.
Proof.
  unfold get_train_config, monitor_of. intros H.
  destruct (and_parsed ext model_type (fun m => ModelType_eqb m PRIOR_RATIO))
    as [is_prior|e]; [|discriminate H].
  exists is_prior. split; [reflexivity|].
  cbn [result_bind] in H. destruct is_prior.
  - injection H as <-. reflexivity.
  - destruct (feature_level (base self)); cbn [result_bind] in H; try discriminate H;
    (destruct (get_loss_fn ext self model_type); cbn [result_bind] in H;
       [|discriminate H];
     destruct (LoggerSaveMode_is_train ext model_save_freq); cbn [result_bind] in H;
       [|discriminate H];
     destruct (and_parsed ext model_type (fun m => ModelType_eqb m SEMI_WEAKLY))
       as [[|]|]; cbn [result_bind] in H; [| |discriminate H];
     injection H as <-; reflexivity).
Qed.

Lemma train_config_monitor_witness :
  exists config : TrainConfig,
    get_train_config Sample.ext (Sample.loader [TWO_PRONG] false "bce") "checkpoints"
      (Some (ByName "semi_weakly")) true None "epoch" "epoch" "epoch" = Ok config
    /\ monitor_of config = "loss"%string
    /\ exists is_prior_ratio : bool,
         and_parsed Sample.ext (Some (ByName "semi_weakly"))
           (fun m => ModelType_eqb m PRIOR_RATIO) = Ok is_prior_ratio
         /\ monitor_of config
            = if is_prior_ratio then "val_loss"%string
              else if use_validation (base (Sample.loader [TWO_PRONG] false "bce"))
                   then "val_loss"%string else "loss"%string.
Proof.
  eexists. split; [reflexivity|]. split; [reflexivity|].
  apply (train_config_monitor Sample.ext (Sample.loader [TWO_PRONG] false "bce")
           "checkpoints"%string (Some (ByName "semi_weakly")) true None
           "epoch"%string "epoch"%string "epoch"%string).
  reflexivity.
Defined.

(** C8, as stated, fails: for the prior-ratio model without a validation
    set the monitor is ['val_loss'], not ['loss']. *)
Lemma train_config_monitor_counterexample :
  ~ (forall (ext : Collaborators) (self : ModelLoader) (checkpoint_dir : string)
            (model_type : option ModelTypeArg) (weight_clipping : bool) (epochs : option Z)
            (model_save_freq metric_save_freq weight_save_freq : string)
            (config : TrainConfig),
        get_train_config ext self checkpoint_dir model_type weight_clipping epochs
          model_save_freq metric_save_freq weight_save_freq = Ok config ->
        monitor_of config
        = if use_validation (base self) then "val_loss"%string else "loss"%string).
Proof.
  intros H.
  specialize (H Sample.ext (Sample.loader [TWO_PRONG] false "bce") "checkpoints"%string
                (Some (ByMember PRIOR_RATIO)) true None
                "epoch"%string "epoch"%string "epoch"%string
                _ eq_refl).
  discriminate H.
Qed.

(* ================================================================== *)
(** * The model builder: results *)
(* ================================================================== *)

Lemma M_bind_ok {A B : Type} (m : M A) (k : A -> M B) (s s' : State) (b : B) :
  M_bind m k s = (Ok b, s') ->
  exists a s1, m s = (Ok a, s1) /\ k a s1 = (Ok b, s').
Proof.
  unfold M_bind. destruct (m s) as [[a|e] s1]; intros H; [|discriminate].
  now exists a, s1.
Qed.

Ltac invert_bind H :=
  let a := fresh "a" in
  let s := fresh "s" in
  let Hm := fresh "Hm" in
  apply M_bind_ok in H; destruct H as (a & s & Hm & H); cbv beta in H.

Ltac invert_binds :=
  repeat match goal with
         | H : M_bind _ _ _ = (Ok _, _) |- _ => invert_bind H
         end.

Ltac step_result :=
  match goal with
  | |- context [match ?r with Ok _ => _ | Raise _ => _ end] =>
      destruct r; cbn [fst snd io_log is_ok]
  end.

Section BuilderFacts.
Variable ext : Collaborators.
Variable disk : Disk.
Local Open Scope string_scope.

Lemma freeze_all_layers_frozen (model : LoadedModel) :
  forallb (fun layer => negb (trainable layer)) (layers (freeze_all_layers model)) = true.
Proof.
  unfold freeze_all_layers. cbn [layers].
  induction (layers model) as [|layer rest IH]; [reflexivity|].
  cbn [map forallb trainable negb andb]. exact IH.
Qed.

(** With [mu] and [alpha] given, the four weight models are there. *)
Lemma weight_output_ok (m1 m2 mu alpha : float) (use_sigmoid use_regularizer : bool)
    (inputs : dict tensor) (jet : tensor) (name : string) :
  In name ["m1"; "m2"; "mu"; "alpha"] ->
  getitem inputs "jet_features" = Ok jet ->
  exists w,
    weight_output
      (get_semi_weakly_weights m1 m2 (Some mu) (Some alpha) use_sigmoid use_regularizer)
      inputs name = Ok (Call (WeightModel w) [OnesLikeSlice jet]).
Proof.
  intros Hin Hjet. unfold weight_output.
  cbn [In] in Hin.
  destruct Hin as [<- | [<- | [<- | [<- | []]]]];
    (eexists; cbn; rewrite Hjet; reflexivity).
Qed.

(** Without [mu] the mapping has no ['mu'] entry. *)
Lemma weights_without_mu (m1 m2 : float) (alpha : option float)
    (use_sigmoid use_regularizer : bool) :
  dict_get (get_semi_weakly_weights m1 m2 None alpha use_sigmoid use_regularizer) "mu"
  = None.
Proof. destruct alpha; reflexivity. Qed.

(** Without a distribution strategy the wrapper is the call itself. *)
Lemma _distributed_wrapper_direct {A : Type} (fn : M A) (s : State) :
  distribute_strategy (base (self s)) = None ->
  _distributed_wrapper fn s = fn s.
Proof.
  intros Hnone. unfold _distributed_wrapper, M_bind, get_self. now rewrite Hnone.
Qed.

(** With more than one decay mode the builder never returns a model:
    past the guard on the second path, the two-signal branch reads the
    local [kappa_out], which only the single-signal branch assigns. *)
Lemma multi_signal_never_builds
    (feature_metadata : dict FeatureMetadata) (fs_model_path : ModelPaths)
    (m1 m2 mu alpha : float) (kappa : KappaSpec) (fs_model_path_2 : ModelPaths)
    (epsilon : float) (bug_fix use_sigmoid use_regularizer : bool) (s : State) :
  (1 < List.length (decay_modes (base (self s))))%nat ->
  is_ok (fst (_get_semi_weakly_model ext disk feature_metadata fs_model_path m1 m2 mu
                alpha kappa fs_model_path_2 epsilon bug_fix use_sigmoid
                use_regularizer s)) = false.
Proof.
  intros Hmulti.
  destruct (_get_semi_weakly_model _ _ _ _ _ _ _ _ _ _ _ _ _ _ s)
    as [[model|e] s'] eqn:H; [exfalso|reflexivity].
  unfold _get_semi_weakly_model in H.
  invert_bind H. unfold get_self in Hm. injection Hm as <- <-.
  do 8 invert_bind H.
  apply Nat.ltb_lt in Hmulti. rewrite Hmulti in H. cbn [andb negb] in H.
  destruct (is_None fs_model_path_2); [discriminate H|].
  invert_binds.
  match goal with
  | H : lift (read_local _ None) _ = (Ok _, _) |- _ => discriminate H
  end.
Qed.
(** The guard on the second path: with more than one decay mode and no
    second path the builder raises, and every step before the guard
    leaves the access log alone. *)
Lemma guard_on_second_path
    (feature_metadata : dict FeatureMetadata) (fs_model_path : ModelPaths)
    (m1 m2 mu alpha : float) (kappa : KappaSpec)
    (epsilon : float) (bug_fix use_sigmoid use_regularizer : bool) (s : State) :
  (1 < List.length (decay_modes (base (self s))))%nat ->
  (io_log (snd (_get_semi_weakly_model ext disk feature_metadata fs_model_path m1 m2 mu
                  alpha kappa NoPath epsilon bug_fix use_sigmoid use_regularizer s))
   = io_log s
   /\ is_ok (fst (_get_semi_weakly_model ext disk feature_metadata fs_model_path m1 m2 mu
                    alpha kappa NoPath epsilon bug_fix use_sigmoid use_regularizer s))
      = false)
  /\ (inputs_available ext (self s) feature_metadata = true ->
      fst (_get_semi_weakly_model ext disk feature_metadata fs_model_path m1 m2 mu
             alpha kappa NoPath epsilon bug_fix use_sigmoid use_regularizer s)
      = Raise (ValueError
                 "fs_model_path_2 cannot be None when multiple signals are considered")).
Proof.
  intros Hmulti. apply Nat.ltb_lt in Hmulti.
  unfold _get_semi_weakly_model, M_bind, get_self, lift, update_self, raise.
  cbn [self io_log fst snd is_None andb]. rewrite Hmulti. cbn [andb].
  split.
  - repeat step_result; split; reflexivity.
  - unfold inputs_available. intros Hav.
    destruct (get_supervised_model_inputs ext (self s) feature_metadata true)
      as [built|e]; [|discriminate].
    apply andb_prop in Hav. destruct Hav as [Hjet Htrain].
    destruct (getitem (fst built) "jet_features") as [jet|e] eqn:Ejet; [|discriminate].
    destruct (mapM (getitem (fst built)) (_get_train_features ext SEMI_WEAKLY))
      as [train_inputs|e] eqn:Etrain; [|discriminate].
    destruct (weight_output_ok m1 m2 mu alpha use_sigmoid use_regularizer
                (fst built) jet "m1" (or_introl eq_refl) Ejet) as [w1 ->].
    destruct (weight_output_ok m1 m2 mu alpha use_sigmoid use_regularizer
                (fst built) jet "m2" (or_intror (or_introl eq_refl)) Ejet) as [w2 ->].
    destruct (weight_output_ok m1 m2 mu alpha use_sigmoid use_regularizer
                (fst built) jet "mu" (or_intror (or_intror (or_introl eq_refl))) Ejet)
      as [w3 ->].
    destruct (weight_output_ok m1 m2 mu alpha use_sigmoid use_regularizer
                (fst built) jet "alpha"
                (or_intror (or_intror (or_intror (or_introl eq_refl)))) Ejet)
      as [w4 ->].
    reflexivity.
Qed.

Lemma file_accesses_app (l1 l2 : list IOEvent) :
  file_accesses (l1 ++ l2)%list = (file_accesses l1 ++ file_accesses l2)%list.
Proof. apply filter_app. Qed.

(** What the wrapper adds to a call: the two scope events around it. *)
Lemma _distributed_wrapper_run {A : Type} (fn : M A) (s : State) :
  exists s1 : State,
    self s1 = self s
    /\ file_accesses (io_log s1) = file_accesses (io_log s)
    /\ fst (_distributed_wrapper fn s) = fst (fn s1)
    /\ file_accesses (io_log (snd (_distributed_wrapper fn s)))
       = file_accesses (io_log (snd (fn s1))).
Proof.
  unfold _distributed_wrapper, M_bind, get_self, finally, log.
  destruct (distribute_strategy (base (self s))) as [strategy|].
  - exists {| self := self s; io_log := (io_log s ++ [ScopeEnter strategy])%list |}.
    cbn [self io_log].
    split; [reflexivity|]. split.
    + rewrite file_accesses_app. cbn. apply app_nil_r.
    + destruct (fn _) as [r s2]. cbn [fst snd io_log]. split; [reflexivity|].
      rewrite file_accesses_app. cbn. apply app_nil_r.
  - exists s. repeat split; reflexivity.
Qed.
(** X22.  With at most one decay mode, a supervised-model path that loads
    and a numeric kappa, the build succeeds: it returns the model [SemiWeakly]
    and records the artifacts [LLR] and [Supervised], all three on the
    training inputs, after loading the one model file. *)
Lemma single_signal_builds
    (feature_metadata : dict FeatureMetadata) (path : string) (model : LoadedModel)
    (m1 m2 mu alpha k : float) (fs_model_path_2 : ModelPaths)
    (epsilon : float) (bug_fix use_sigmoid use_regularizer : bool) (s : State) :
  (List.length (decay_modes (base (self s))) <= 1)%nat ->
  inputs_available ext (self s) feature_metadata = true ->
  disk_model disk path = Some model ->
  exists (ws_model llr supervised : KerasModel) (s' : State),
    _get_semi_weakly_model ext disk feature_metadata (OnePath path) m1 m2 mu alpha
      (KappaNumber k) fs_model_path_2 epsilon bug_fix use_sigmoid use_regularizer s
    = (Ok ws_model, s')
    /\ km_name ws_model = "SemiWeakly"
    /\ llr_model (self s') = Some llr /\ km_name llr = "LLR"
    /\ fs_model (self s') = Some supervised /\ km_name supervised = "Supervised"
    /\ km_inputs llr = km_inputs ws_model
    /\ km_inputs supervised = km_inputs ws_model
    /\ io_log s' = (io_log s ++ [LoadModel path])%list.
Proof.
  intros Hsingle Hav Hload.
  assert (Hmulti : (1 <? List.length (decay_modes (base (self s))))%nat = false)
    by (apply Nat.ltb_ge; exact Hsingle).
  unfold inputs_available in Hav.
  unfold _get_semi_weakly_model, M_bind, get_self, lift, update_self, raise.
  cbn [self io_log fst snd]. rewrite Hmulti. cbn [andb negb].
  destruct (get_supervised_model_inputs ext (self s) feature_metadata true)
    as [built|e]; [|discriminate].
  apply andb_prop in Hav. destruct Hav as [Hjet Htrain].
  destruct (getitem (fst built) "jet_features") as [jet|e] eqn:Ejet; [|discriminate].
  destruct (mapM (getitem (fst built)) (_get_train_features ext SEMI_WEAKLY))
    as [train_inputs|e] eqn:Etrain; [|discriminate].
  destruct (weight_output_ok m1 m2 mu alpha use_sigmoid use_regularizer
              (fst built) jet "m1" (or_introl eq_refl) Ejet) as [w1 ->].
  destruct (weight_output_ok m1 m2 mu alpha use_sigmoid use_regularizer
              (fst built) jet "m2" (or_intror (or_introl eq_refl)) Ejet) as [w2 ->].
  destruct (weight_output_ok m1 m2 mu alpha use_sigmoid use_regularizer
              (fst built) jet "mu" (or_intror (or_intror (or_introl eq_refl))) Ejet)
    as [w3 ->].
  destruct (weight_output_ok m1 m2 mu alpha use_sigmoid use_regularizer
              (fst built) jet "alpha"
              (or_intror (or_intror (or_intror (or_introl eq_refl)))) Ejet)
    as [w4 ->].
  unfold _get_prior_out, get_kappa_out, M_bind, M_ret, load_prior_models, load_model, log,
    M_bind, M_ret.
  cbn [self io_log fst snd]. rewrite Hload.
  destruct (negb (loss (self s) =? "nll")), bug_fix; cbn;
    do 4 eexists; repeat split.
Qed.
End BuilderFacts.

(** One decay mode with [kappa='inferred']: the build succeeds, after
    loading the supervised model and the prior-ratio model beside it. *)
Example one_signal_run_builds :
  (exists ws_model : KerasModel,
      fst Sample.one_signal_run = Ok ws_model /\ km_name ws_model = "SemiWeakly"%string)
  /\ (exists llr : KerasModel,
        llr_model (self (snd Sample.one_signal_run)) = Some llr
        /\ km_name llr = "LLR"%string)
  /\ (exists supervised : KerasModel,
        fs_model (self (snd Sample.one_signal_run)) = Some supervised
        /\ km_name supervised = "Supervised"%string)
  /\ io_log (snd Sample.one_signal_run)
     = [LoadModel "models/qq/full.keras";
        PathExists "models/qq/model_prior_ratio_inferred.keras";
        LoadModel "models/qq/model_prior_ratio_inferred.keras"].
Proof.
  vm_compute. repeat split; eexists; split; reflexivity.
Qed.

(** C2, on the code.  With two decay modes and both supervised-model paths
    the build does not succeed: it raises [UnboundLocalError] for
    [kappa_out] after both supervised models are loaded, and none of the
    four per-mode artifacts is set. *)
Theorem two_signal_build_raises_unbound_local :
  fst Sample.two_signal_run = Raise (UnboundLocalError "kappa_out")
  /\ llr_2_model (self (snd Sample.two_signal_run)) = None
  /\ llr_3_model (self (snd Sample.two_signal_run)) = None
  /\ fs_2_model (self (snd Sample.two_signal_run)) = None
  /\ fs_3_model (self (snd Sample.two_signal_run)) = None
  /\ io_log (snd Sample.two_signal_run)
     = [LoadModel "models/qq/full.keras"; LoadModel "models/qqq/full.keras"].
Proof.
  vm_compute. repeat split.
Qed.

(** C5.  With more than one decay mode and no second supervised-model
    path, building the semi-weakly model fails, through the private and the
    public entry point alike, and no file is looked up or loaded before the
    failure.  When the inputs hold the features the builder reads first, the
    exception is the [ValueError] of the guard. *)
Theorem missing_second_path_fails_before_loading
    (ext : Collaborators) (disk : Disk)
    (feature_metadata : dict FeatureMetadata) (fs_model_path : ModelPaths)
    (m1 m2 mu alpha : float) (kappa : KappaSpec)
    (epsilon : float) (bug_fix use_sigmoid use_regularizer : bool) (s : State) :
  (1 < List.length (decay_modes (base (self s))))%nat ->
  (is_ok (fst (_get_semi_weakly_model ext disk feature_metadata fs_model_path m1 m2 mu
                 alpha kappa NoPath epsilon bug_fix use_sigmoid use_regularizer s))
   = false
   /\ io_log (snd (_get_semi_weakly_model ext disk feature_metadata fs_model_path m1 m2 mu
                     alpha kappa NoPath epsilon bug_fix use_sigmoid use_regularizer s))
      = io_log s
   /\ is_ok (fst (get_semi_weakly_model ext disk feature_metadata fs_model_path m1 m2 mu
                    alpha kappa NoPath epsilon bug_fix use_sigmoid use_regularizer s))
      = false
   /\ file_accesses
        (io_log (snd (get_semi_weakly_model ext disk feature_metadata fs_model_path m1 m2
                        mu alpha kappa NoPath epsilon bug_fix use_sigmoid
                        use_regularizer s)))
      = file_accesses (io_log s))
  /\ (inputs_available ext (self s) feature_metadata = true ->
      fst (_get_semi_weakly_model ext disk feature_metadata fs_model_path m1 m2 mu
             alpha kappa NoPath epsilon bug_fix use_sigmoid use_regularizer s)
      = Raise (ValueError
                 "fs_model_path_2 cannot be None when multiple signals are considered")
      /\ fst (get_semi_weakly_model ext disk feature_metadata fs_model_path m1 m2 mu
                alpha kappa NoPath epsilon bug_fix use_sigmoid use_regularizer s)
         = Raise (ValueError
                    "fs_model_path_2 cannot be None when multiple signals are considered")).
Proof.
  intros Hmulti.
  destruct (guard_on_second_path ext disk feature_metadata fs_model_path m1 m2 mu alpha
              kappa epsilon bug_fix use_sigmoid use_regularizer s Hmulti)
    as [[Hlog Hfail] Hraise].
  unfold get_semi_weakly_model.
  destruct (_distributed_wrapper_run
              (_get_semi_weakly_model ext disk feature_metadata fs_model_path m1 m2 mu
                 alpha kappa NoPath epsilon bug_fix use_sigmoid use_regularizer) s)
    as (s1 & Hself & Hacc & Hfst & Hsnd).
  assert (Hmulti1 : (1 < List.length (decay_modes (base (self s1))))%nat)
    by now rewrite Hself.
  destruct (guard_on_second_path ext disk feature_metadata fs_model_path m1 m2 mu alpha
              kappa epsilon bug_fix use_sigmoid use_regularizer s1 Hmulti1)
    as [[Hlog1 Hfail1] Hraise1].
  split.
  - repeat split; [exact Hfail | exact Hlog | now rewrite Hfst |].
    now rewrite Hsnd, Hlog1.
  - intros Hav. split; [now apply Hraise|].
    rewrite Hfst. apply Hraise1. now rewrite Hself.
Qed.

Lemma missing_second_path_witness :
  (1 < List.length (decay_modes (base (self (Sample.state [TWO_PRONG; THREE_PRONG])))))%nat
  /\ inputs_available Sample.ext (self (Sample.state [TWO_PRONG; THREE_PRONG]))
       Sample.metadata = true
  /\ io_log (snd (_get_semi_weakly_model Sample.ext Sample.disk Sample.metadata
                    (OnePath "models/qq/full.keras") 0%float 0%float 0.01%float 0.5%float
                    (KappaString "inferred") NoPath 1e-5%float true false true
                    (Sample.state [TWO_PRONG; THREE_PRONG])))
     = []
  /\ fst (get_semi_weakly_model Sample.ext Sample.disk Sample.metadata
            (OnePath "models/qq/full.keras") 0%float 0%float 0.01%float 0.5%float
            (KappaString "inferred") NoPath 1e-5%float true false true
            (Sample.state [TWO_PRONG; THREE_PRONG]))
     = Raise (ValueError
                "fs_model_path_2 cannot be None when multiple signals are considered").
Proof.
  assert (Hmulti : (1 < List.length (decay_modes
            (base (self (Sample.state [TWO_PRONG; THREE_PRONG])))))%nat)
    by (cbn; lia).
  split; [exact Hmulti|]. split; [reflexivity|].
  destruct (missing_second_path_fails_before_loading Sample.ext Sample.disk
              Sample.metadata (OnePath "models/qq/full.keras")
              0%float 0%float 0.01%float 0.5%float (KappaString "inferred")
              1e-5%float true false true (Sample.state [TWO_PRONG; THREE_PRONG]) Hmulti)
    as [(_ & Hlog & _ & _) Hraise].
  split; [exact Hlog|]. apply Hraise. reflexivity.
Defined.




(** C9.  [use_sigmoid] is accepted and never read: two calls that differ
    only in it give the same weights, and the same result and final state
    of the builder, through the private and the public entry point. *)
Theorem use_sigmoid_is_never_read
    (ext : Collaborators) (disk : Disk)
    (feature_metadata : dict FeatureMetadata) (fs_model_path : ModelPaths)
    (m1 m2 mu alpha : float) (kappa : KappaSpec) (fs_model_path_2 : ModelPaths)
    (epsilon : float) (bug_fix use_regularizer : bool) (s : State)
    (use_sigmoid use_sigmoid' : bool) :
  (forall mu_opt alpha_opt : option float,
     get_semi_weakly_weights m1 m2 mu_opt alpha_opt use_sigmoid use_regularizer
     = get_semi_weakly_weights m1 m2 mu_opt alpha_opt use_sigmoid' use_regularizer)
  /\ _get_semi_weakly_model ext disk feature_metadata fs_model_path m1 m2 mu alpha kappa
       fs_model_path_2 epsilon bug_fix use_sigmoid use_regularizer s
     = _get_semi_weakly_model ext disk feature_metadata fs_model_path m1 m2 mu alpha kappa
       fs_model_path_2 epsilon bug_fix use_sigmoid' use_regularizer s
  /\ get_semi_weakly_model ext disk feature_metadata fs_model_path m1 m2 mu alpha kappa
       fs_model_path_2 epsilon bug_fix use_sigmoid use_regularizer s
     = get_semi_weakly_model ext disk feature_metadata fs_model_path m1 m2 mu alpha kappa
       fs_model_path_2 epsilon bug_fix use_sigmoid' use_regularizer s.
Proof.
  repeat split; reflexivity.
Qed.

(* ================================================================== *)
(** * The likelihood transforms and the weak-supervision head *)
(* ================================================================== *)

(** X1.  Each weak-supervision transform is the likelihood transform of the
    same arguments followed by one division: [L / (L + 1 - mu)] when
    [bug_fix] is true or omitted, [L / (L + 1)] when it is false.  This
    holds for whatever implements the operators, and an exception of the
    likelihood part is the exception of the whole. *)
Theorem weak_layers_factor_through_likelihood {T : Type} `{PyNumber T}
    (fs_out fs_2_out fs_3_out mu alpha : T) (kappa kappa_2 kappa_3 epsilon : option T)
    (bug_fix : option bool) :
  _get_one_signal_semi_weakly_layer fs_out mu kappa epsilon bug_fix
  = result_bind (_get_one_signal_likelihood_layer fs_out mu kappa epsilon)
      (fun LLR_xs => if kwarg true bug_fix then (LLR_xs / (LLR_xs + #1 - mu))%py
                     else (LLR_xs / (LLR_xs + #1))%py)
  /\ _get_two_signal_semi_weakly_layer fs_2_out fs_3_out mu alpha kappa_2 kappa_3
       epsilon bug_fix
     = result_bind
         (_get_two_signal_likelihood_layer fs_2_out fs_3_out mu alpha kappa_2 kappa_3
            epsilon)
         (fun LLR_xs => if kwarg true bug_fix then (LLR_xs / (LLR_xs + #1 - mu))%py
                        else (LLR_xs / (LLR_xs + #1))%py).
Proof.
  unfold _get_one_signal_semi_weakly_layer, _get_one_signal_likelihood_layer,
    _get_two_signal_semi_weakly_layer, _get_two_signal_likelihood_layer.
  cbv zeta. split.
  - destruct (kwarg #1 kappa * fs_out / (#1 - fs_out + kwarg #1e-10 epsilon))%py
      as [LLR|e]; [|reflexivity].
    cbn [result_bind]. destruct (kwarg true bug_fix); apply result_bind_ret.
  - destruct (kwarg #1 kappa_2 * fs_2_out / (#1 - fs_2_out + kwarg #1e-10 epsilon))%py
      as [LLR_2|e]; [|reflexivity].
    cbn [result_bind].
    destruct (kwarg #1 kappa_3 * fs_3_out / (#1 - fs_3_out + kwarg #1e-10 epsilon))%py
      as [LLR_3|e]; [|reflexivity].
    cbn [result_bind]. destruct (kwarg true bug_fix); apply result_bind_ret.
Qed.

(** X2.  At [mu = 0] (either zero) the one-signal likelihood transform on
    Python floats returns exactly [1.0] exactly when the likelihood ratio
    is computed and [LLR - 1] is finite; an overflowing ratio gives NaN. *)
Theorem one_signal_likelihood_mu_zero
    (f_s mu : float) (kappa epsilon : option float) :
  is_zero mu = true ->
  _get_one_signal_likelihood_layer f_s mu kappa epsilon = Ok 1%float
  <-> LLR_minus_one_finite (kwarg 1%float kappa) f_s (kwarg 1e-10%float epsilon) = true.
Proof.
  intros Hmu. unfold LLR_minus_one_finite, _get_one_signal_likelihood_layer, spec_LLR.
  float_ops. cbv zeta.
  destruct (float_truediv (kwarg 1%float kappa * f_s)%float _) as [LLR|e].
  - cbn [result_bind]. destruct (is_finite (LLR - 1)%float) eqn:Hfin.
    + split; [reflexivity|]. intros _.
      now rewrite (add_zero_r 1%float _ eq_refl (mul_zero_finite mu _ Hmu Hfin)).
    + rewrite (mul_zero_not_finite mu (LLR - 1)%float Hmu Hfin).
      change (1 + nan)%float with nan.
      split; [|discriminate]. intros H.
      apply (f_equal (fun r => match r with
                               | Ok x => is_nan x
                               | Raise _ => false
                               end)) in H.
      vm_compute in H. discriminate H.
  - cbn [result_bind]. split; intros H; [|discriminate].
    apply (f_equal is_ok) in H. discriminate H.
Qed.

Lemma one_signal_likelihood_mu_zero_witness :
  is_zero (-0)%float = true
  /\ LLR_minus_one_finite 2%float 0.25%float 1e-10%float = true
  /\ _get_one_signal_likelihood_layer 0.25%float (-0)%float (Some 2%float) None
     = Ok 1%float.
Proof.
  split; [reflexivity|]. split; [vm_compute; reflexivity|].
  apply (proj2 (one_signal_likelihood_mu_zero 0.25%float (-0)%float (Some 2%float) None
                  eq_refl)).
  vm_compute; reflexivity.
Defined.

(** X3.  On Python floats the two-signal likelihood transform at
    [alpha = 1] is the one-signal likelihood transform of the three-prong
    mode whenever the two-prong ratio is computed and finite, and at
    [alpha = 0] that of the two-prong mode whenever the three-prong ratio
    is computed and finite. *)
Theorem two_signal_likelihood_alpha_endpoints
    (fs_2 fs_3 mu : float) (kappa_2 kappa_3 epsilon : option float) :
  (LLR_finite (kwarg 1%float kappa_2) fs_2 (kwarg 1e-10%float epsilon) = true ->
   _get_two_signal_likelihood_layer fs_2 fs_3 mu 1%float kappa_2 kappa_3 epsilon
   = _get_one_signal_likelihood_layer fs_3 mu kappa_3 epsilon)
  /\
  (LLR_finite (kwarg 1%float kappa_3) fs_3 (kwarg 1e-10%float epsilon) = true ->
   _get_two_signal_likelihood_layer fs_2 fs_3 mu 0%float kappa_2 kappa_3 epsilon
   = _get_one_signal_likelihood_layer fs_2 mu kappa_2 epsilon).
Proof.
  unfold LLR_finite, _get_two_signal_likelihood_layer,
    _get_one_signal_likelihood_layer, spec_LLR.
  float_ops. cbv zeta. split.
  - destruct (float_truediv (kwarg 1%float kappa_2 * fs_2)%float _) as [LLR_2|e];
      [|discriminate].
    intros Hfin. cbn [result_bind].
    destruct (float_truediv (kwarg 1%float kappa_3 * fs_3)%float _) as [LLR_3|e];
      [|reflexivity].
    cbn [result_bind].
    change (1 - 1)%float with 0%float.
    rewrite float_mul_1_l.
    rewrite (add_zero_sub_one LLR_3 (0 * LLR_2)%float
               (mul_zero_finite 0%float LLR_2 eq_refl Hfin)).
    reflexivity.
  - destruct (float_truediv (kwarg 1%float kappa_3 * fs_3)%float _) as [LLR_3|e];
      [|discriminate].
    intros Hfin.
    destruct (float_truediv (kwarg 1%float kappa_2 * fs_2)%float _) as [LLR_2|e];
      [|reflexivity].
    cbn [result_bind].
    change (1 - 0)%float with 1%float.
    rewrite float_mul_1_l.
    rewrite (zero_add_sub_one LLR_2 (0 * LLR_3)%float
               (mul_zero_finite 0%float LLR_3 eq_refl Hfin)).
    reflexivity.
Qed.

Lemma two_signal_likelihood_alpha_endpoints_witness :
  LLR_finite 2%float 0.25%float 1e-10%float = true
  /\ LLR_finite 3%float 0.75%float 1e-10%float = true
  /\ _get_two_signal_likelihood_layer 0.25%float 0.75%float 0.125%float 1%float
       (Some 2%float) (Some 3%float) None
     = _get_one_signal_likelihood_layer 0.75%float 0.125%float (Some 3%float) None
  /\ _get_two_signal_likelihood_layer 0.25%float 0.75%float 0.125%float 0%float
       (Some 2%float) (Some 3%float) None
     = _get_one_signal_likelihood_layer 0.25%float 0.125%float (Some 2%float) None.
Proof.
  split; [vm_compute; reflexivity|]. split; [vm_compute; reflexivity|]. split.
  - apply (proj1 (two_signal_likelihood_alpha_endpoints 0.25%float 0.75%float 0.125%float
                    (Some 2%float) (Some 3%float) None)).
    vm_compute; reflexivity.
  - apply (proj2 (two_signal_likelihood_alpha_endpoints 0.25%float 0.75%float 0.125%float
                    (Some 2%float) (Some 3%float) None)).
    vm_compute; reflexivity.
Defined.

(* ================================================================== *)
(** * The loss setting and the training configuration *)
(* ================================================================== *)


(** X5.  [epochs=0] is the same as [epochs] omitted: [epochs or default]
    takes the default for both, in every branch of [get_train_config]. *)
Theorem train_config_zero_epochs
    (ext : Collaborators) (self : ModelLoader) (checkpoint_dir : string)
    (model_type : option ModelTypeArg) (weight_clipping : bool)
    (model_save_freq metric_save_freq weight_save_freq : string) :
  get_train_config ext self checkpoint_dir model_type weight_clipping (Some 0%Z)
    model_save_freq metric_save_freq weight_save_freq
  = get_train_config ext self checkpoint_dir model_type weight_clipping None
      model_save_freq metric_save_freq weight_save_freq.
Proof. reflexivity. Qed.

(** X6.  For the prior-ratio model the configuration is returned before
    the loader is looked at: it does not depend on the feature level, the
    loss, the validation setting, [weight_clipping] or the save
    frequencies, it never raises, and it holds the one callback entry
    [early_stopping]. *)
Theorem prior_ratio_config_ignores_loader
    (ext : Collaborators) (a : ModelTypeArg) (self self' : ModelLoader)
    (checkpoint_dir : string) (weight_clipping weight_clipping' : bool)
    (epochs : option Z)
    (model_save_freq metric_save_freq weight_save_freq : string)
    (model_save_freq' metric_save_freq' weight_save_freq' : string) :
  truthy (Some a) = true ->
  ModelType_parse ext a = Ok PRIOR_RATIO ->
  exists config : TrainConfig,
    get_train_config ext self checkpoint_dir (Some a) weight_clipping epochs
      model_save_freq metric_save_freq weight_save_freq = Ok config
    /\ get_train_config ext self' checkpoint_dir (Some a) weight_clipping' epochs
         model_save_freq' metric_save_freq' weight_save_freq' = Ok config
    /\ callbacks_keys (cfg_callbacks config) = ["early_stopping"%string]
    /\ cfg_epochs config = int_or epochs 3000.
Proof.
  intros Htrue Hparse. unfold get_train_config, and_parsed.
  rewrite Htrue, Hparse. cbn [result_bind ModelType_eqb].
  eexists. repeat split.
Qed.

Lemma prior_ratio_config_ignores_loader_witness :
  truthy (Some (ByName "PRIOR_RATIO")) = true
  /\ ModelType_parse Sample.ext (ByName "PRIOR_RATIO") = Ok PRIOR_RATIO
  /\ exists config : TrainConfig,
       get_train_config Sample.ext (Sample.loader [TWO_PRONG] true "bce") "ckpt"
         (Some (ByName "PRIOR_RATIO")) true None "epoch" "epoch" "epoch" = Ok config
       /\ get_train_config Sample.ext (Sample.loader [] false "mse") "ckpt"
            (Some (ByName "PRIOR_RATIO")) false None "no such mode" "batch" "train"
          = Ok config
       /\ callbacks_keys (cfg_callbacks config) = ["early_stopping"%string]
       /\ cfg_epochs config = int_or None 3000.
Proof.
  split; [reflexivity|]. split; [reflexivity|].
  apply (prior_ratio_config_ignores_loader Sample.ext (ByName "PRIOR_RATIO")
           (Sample.loader [TWO_PRONG] true "bce") (Sample.loader [] false "mse")
           "ckpt" true false None "epoch" "epoch" "epoch" "no such mode" "batch" "train");
    reflexivity.
Defined.

(** X7.  For any other model type, a loader whose feature level is neither
    high-level nor low-level gets [RuntimeError] naming the level's key;
    this comes before the loss is resolved, so before any error of the
    loss name or of the save mode. *)
Theorem train_config_unknown_feature_level
    (ext : Collaborators) (self : ModelLoader) (key : string) (checkpoint_dir : string)
    (model_type : option ModelTypeArg) (weight_clipping : bool) (epochs : option Z)
    (model_save_freq metric_save_freq weight_save_freq : string) :
  feature_level (base self) = OTHER_FEATURE_LEVEL key ->
  and_parsed ext model_type (fun m => ModelType_eqb m PRIOR_RATIO) = Ok false ->
  get_train_config ext self checkpoint_dir model_type weight_clipping epochs
    model_save_freq metric_save_freq weight_save_freq
  = Raise (RuntimeError ("Unknown feature level: " ++ key)).
Proof.
  intros Hlevel Hprior. unfold get_train_config.
  rewrite Hprior. cbn [result_bind]. now rewrite Hlevel.
Qed.

Lemma train_config_unknown_feature_level_witness :
  feature_level
    (base (SampleTraining.loader_with (OTHER_FEATURE_LEVEL "mid_level") None "mse"))
  = OTHER_FEATURE_LEVEL "mid_level"
  /\ and_parsed Sample.ext (Some (ByMember SEMI_WEAKLY))
       (fun m => ModelType_eqb m PRIOR_RATIO) = Ok false
  /\ get_train_config Sample.ext
       (SampleTraining.loader_with (OTHER_FEATURE_LEVEL "mid_level") None "mse")
       "ckpt" (Some (ByMember SEMI_WEAKLY)) true None "no such mode" "epoch" "epoch"
     = Raise (RuntimeError "Unknown feature level: mid_level").
Proof.
  split; [reflexivity|]. split; [reflexivity|].
  apply (train_config_unknown_feature_level Sample.ext
           (SampleTraining.loader_with (OTHER_FEATURE_LEVEL "mid_level") None "mse")
           "mid_level" "ckpt" (Some (ByMember SEMI_WEAKLY)) true None
           "no such mode" "epoch" "epoch");
    reflexivity.
Defined.

(** The two tests on the model type in [get_train_config] as one case
    distinction on the configuration it returned. *)
Lemma get_train_config_cases
    (ext : Collaborators) (self : ModelLoader) (checkpoint_dir : string)
    (model_type : option ModelTypeArg) (weight_clipping : bool) (epochs : option Z)
    (model_save_freq metric_save_freq weight_save_freq : string) (config : TrainConfig) :
  get_train_config ext self checkpoint_dir model_type weight_clipping epochs
    model_save_freq metric_save_freq weight_save_freq = Ok config ->
  (and_parsed ext model_type (fun m => ModelType_eqb m PRIOR_RATIO) = Ok true
   /\ lr_scheduler (cfg_callbacks config) = None
   /\ model_checkpoint (cfg_callbacks config) = None
   /\ metrics_logger (cfg_callbacks config) = None
   /\ weights_logger (cfg_callbacks config) = None
   /\ es_patience (early_stopping (cfg_callbacks config)) = 200%Z)
  \/
  (and_parsed ext model_type (fun m => ModelType_eqb m PRIOR_RATIO) = Ok false
   /\ (exists per_run : bool,
         LoggerSaveMode_is_train ext model_save_freq = Some per_run
         /\ model_checkpoint (cfg_callbacks config)
            = if per_run then None
              else Some {| save_weights_only := true;
                           save_best_only := false;
                           mc_save_freq := model_save_freq |})
   /\ lr_scheduler (cfg_callbacks config) <> None
   /\ metrics_logger (cfg_callbacks config) = Some {| ml_save_freq := metric_save_freq |}
   /\ exists semi_weakly : bool,
        and_parsed ext model_type (fun m => ModelType_eqb m SEMI_WEAKLY) = Ok semi_weakly
        /\ weights_logger (cfg_callbacks config)
           = (if semi_weakly
              then Some {| wl_save_freq := weight_save_freq; display_weight := true |}
              else None)
        /\ es_patience (early_stopping (cfg_callbacks config))
           = (if semi_weakly then (if String.eqb (loss self) "nll" then 30 else 20)
              else match feature_level (base self) with
                   | LOW_LEVEL => 5
                   | _ => 20
                   end)%Z
        /\ clipvalue (cfg_optimizer_config config)
           = (if semi_weakly && weight_clipping then Some 0.0001%float else None)
        /\ clipnorm (cfg_optimizer_config config)
           = (if semi_weakly && weight_clipping then Some 0.0001%float else None)).
Proof.
  unfold get_train_config.
  destruct (and_parsed ext model_type (fun m => ModelType_eqb m PRIOR_RATIO))
    as [[|]|e]; cbn [result_bind]; [| |discriminate].
  - intros H. left.
    apply (f_equal (fun r => match r with
                             | Ok c => Some (cfg_callbacks c)
                             | Raise _ => None
                             end)) in H.
    cbn in H. injection H as <-. repeat split.
  - intros H. right. split; [reflexivity|].
    destruct (feature_level (base self)) as [| |key] eqn:Hlevel;
      cbn [result_bind] in H; [| |discriminate].
    all: destruct (get_loss_fn ext self model_type) as [loss_fn|e];
      cbn [result_bind] in H; [|discriminate].
    all: destruct (LoggerSaveMode_is_train ext model_save_freq) as [per_run|];
      cbn [result_bind] in H; [|discriminate].
    all: destruct (and_parsed ext model_type (fun m => ModelType_eqb m SEMI_WEAKLY))
      as [semi_weakly|e]; cbn [result_bind] in H; [|discriminate].
    all: apply (f_equal (fun r => match r with
                                  | Ok c => Some (cfg_callbacks c, cfg_optimizer_config c)
                                  | Raise _ => None
                                  end)) in H.
    all: destruct semi_weakly, weight_clipping; cbn in H.
    all: apply (f_equal (fun o => match o with
                                  | Some p => p
                                  | None => (cfg_callbacks config,
                                             cfg_optimizer_config config)
                                  end)) in H.
    all: cbn in H.
    all: assert (Hc : cfg_callbacks config = fst (cfg_callbacks config,
                                                    cfg_optimizer_config config))
           by reflexivity.
    all: assert (Ho : cfg_optimizer_config config
                      = snd (cfg_callbacks config, cfg_optimizer_config config))
           by reflexivity.
    all: rewrite <- H in Hc, Ho; cbn [fst snd] in Hc, Ho; rewrite Hc, Ho.
    all: cbn.
    all: (split; [exists per_run; split; [reflexivity|now destruct per_run]|]).
    all: (split; [discriminate|]).
    all: (split; [reflexivity|]).
    all: eexists; repeat split.
Qed.

(** X8.  In a configuration for any model but the prior-ratio one, the
    [model_checkpoint] entry is there exactly when the save mode of
    [model_save_freq] is not the per-run mode [TRAIN]; in that mode the
    entry is popped. *)
Theorem train_config_checkpoint_entry
    (ext : Collaborators) (self : ModelLoader) (checkpoint_dir : string)
    (model_type : option ModelTypeArg) (weight_clipping : bool) (epochs : option Z)
    (model_save_freq metric_save_freq weight_save_freq : string) (config : TrainConfig) :
  get_train_config ext self checkpoint_dir model_type weight_clipping epochs
    model_save_freq metric_save_freq weight_save_freq = Ok config ->
  and_parsed ext model_type (fun m => ModelType_eqb m PRIOR_RATIO) = Ok false ->
  (LoggerSaveMode_is_train ext model_save_freq = Some true
   /\ model_checkpoint (cfg_callbacks config) = None)
  \/ (LoggerSaveMode_is_train ext model_save_freq = Some false
      /\ model_checkpoint (cfg_callbacks config)
         = Some {| save_weights_only := true;
                   save_best_only := false;
                   mc_save_freq := model_save_freq |}).
Proof.
  intros Hconfig Hprior.
  destruct (get_train_config_cases _ _ _ _ _ _ _ _ _ _ Hconfig)
    as [(Hp & _) | (_ & (per_run & Hmode & Hentry) & _)].
  - rewrite Hprior in Hp. discriminate Hp.
  - destruct per_run; [left|right]; split; assumption.
Qed.

Lemma train_config_checkpoint_entry_witness :
  exists config : TrainConfig,
    get_train_config Sample.ext (Sample.loader [TWO_PRONG] true "bce") "ckpt"
      (Some (ByName "semi_weakly")) true None "train" "epoch" "epoch" = Ok config
    /\ and_parsed Sample.ext (Some (ByName "semi_weakly"))
         (fun m => ModelType_eqb m PRIOR_RATIO) = Ok false
    /\ ((LoggerSaveMode_is_train Sample.ext "train" = Some true
         /\ model_checkpoint (cfg_callbacks config) = None)
        \/ (LoggerSaveMode_is_train Sample.ext "train" = Some false
            /\ model_checkpoint (cfg_callbacks config)
               = Some {| save_weights_only := true;
                         save_best_only := false;
                         mc_save_freq := "train" |})).
Proof.
  eexists. split; [reflexivity|]. split; [reflexivity|].
  apply (train_config_checkpoint_entry Sample.ext (Sample.loader [TWO_PRONG] true "bce")
           "ckpt" (Some (ByName "semi_weakly")) true None "train" "epoch" "epoch");
    reflexivity.
Defined.

(** X9.  A returned configuration holds a [weights_logger] entry exactly
    when the model type is the semi-weakly one; and then the early-stopping
    patience is 30 for the loss ['nll'] and 20 otherwise, whatever the
    feature level (the 5 of the low-level features is overwritten). *)
Theorem train_config_semi_weakly_entries
    (ext : Collaborators) (self : ModelLoader) (checkpoint_dir : string)
    (model_type : option ModelTypeArg) (weight_clipping : bool) (epochs : option Z)
    (model_save_freq metric_save_freq weight_save_freq : string) (config : TrainConfig) :
  get_train_config ext self checkpoint_dir model_type weight_clipping epochs
    model_save_freq metric_save_freq weight_save_freq = Ok config ->
  (and_parsed ext model_type (fun m => ModelType_eqb m SEMI_WEAKLY) = Ok true
   /\ weights_logger (cfg_callbacks config)
      = Some {| wl_save_freq := weight_save_freq; display_weight := true |}
   /\ es_patience (early_stopping (cfg_callbacks config))
      = (if String.eqb (loss self) "nll" then 30 else 20)%Z)
  \/ (and_parsed ext model_type (fun m => ModelType_eqb m SEMI_WEAKLY) = Ok false
      /\ weights_logger (cfg_callbacks config) = None).
Proof.
  intros Hconfig.
  destruct (get_train_config_cases _ _ _ _ _ _ _ _ _ _ Hconfig)
    as [(Hp & _ & _ & _ & Hw & _)
       | (_ & _ & _ & _ & semi_weakly & Hs & Hw & Hpatience & _)].
  - right. split; [|exact Hw].
    revert Hp. unfold and_parsed.
    destruct model_type as [a|]; [|discriminate].
    destruct (truthy (Some a)); [|discriminate].
    destruct (ModelType_parse ext a) as [m|e]; cbn [result_bind]; [|discriminate].
    destruct m; cbn [ModelType_eqb]; (discriminate || reflexivity).
  - destruct semi_weakly; [left|right]; repeat split; assumption.
Qed.

Lemma train_config_semi_weakly_entries_witness :
  exists config : TrainConfig,
    get_train_config Sample.ext (SampleTraining.loader_with LOW_LEVEL None "nll")
      "ckpt" (Some (ByName "semi_weakly")) true None "epoch" "epoch" "batch" = Ok config
    /\ weights_logger (cfg_callbacks config)
       = Some {| wl_save_freq := "batch"; display_weight := true |}
    /\ es_patience (early_stopping (cfg_callbacks config)) = 30%Z.
Proof.
  eexists. split; [reflexivity|].
  destruct (train_config_semi_weakly_entries Sample.ext
              (SampleTraining.loader_with LOW_LEVEL None "nll")
              "ckpt" (Some (ByName "semi_weakly")) true None "epoch" "epoch" "batch" _
              eq_refl)
    as [(_ & Hw & Hp) | (Hs & _)]; [split; assumption|discriminate Hs].
Defined.

(** X10.  [weight_clipping] and [weight_save_freq] are only read for the
    semi-weakly model: for every other model type (or none) two calls that
    differ in them return the same configuration or raise the same
    exception. *)
Theorem train_config_clipping_only_semi_weakly
    (ext : Collaborators) (self : ModelLoader) (checkpoint_dir : string)
    (model_type : option ModelTypeArg) (weight_clipping weight_clipping' : bool)
    (epochs : option Z)
    (model_save_freq metric_save_freq weight_save_freq weight_save_freq' : string) :
  and_parsed ext model_type (fun m => ModelType_eqb m SEMI_WEAKLY) = Ok false ->
  get_train_config ext self checkpoint_dir model_type weight_clipping epochs
    model_save_freq metric_save_freq weight_save_freq
  = get_train_config ext self checkpoint_dir model_type weight_clipping' epochs
      model_save_freq metric_save_freq weight_save_freq'.
Proof.
  intros Hsemi. unfold get_train_config. rewrite Hsemi.
  destruct (and_parsed ext model_type (fun m => ModelType_eqb m PRIOR_RATIO))
    as [[|]|e]; reflexivity.
Qed.

Lemma train_config_clipping_only_semi_weakly_witness :
  and_parsed Sample.ext (Some (ByName "ideal_weakly"))
    (fun m => ModelType_eqb m SEMI_WEAKLY) = Ok false
  /\ get_train_config Sample.ext (Sample.loader [TWO_PRONG] true "bce") "ckpt"
       (Some (ByName "ideal_weakly")) true None "epoch" "epoch" "epoch"
     = get_train_config Sample.ext (Sample.loader [TWO_PRONG] true "bce") "ckpt"
         (Some (ByName "ideal_weakly")) false None "epoch" "epoch" "train".
Proof.
  split; [reflexivity|].
  apply (train_config_clipping_only_semi_weakly Sample.ext
           (Sample.loader [TWO_PRONG] true "bce") "ckpt" (Some (ByName "ideal_weakly"))
           true false None "epoch" "epoch" "epoch" "train").
  reflexivity.
Defined.

(* ================================================================== *)
(** * Callbacks from a configuration *)
(* ================================================================== *)

Lemma str_in_In (x : string) (l : list string) : str_in x l = true <-> In x l.
Proof.
  unfold str_in. rewrite existsb_exists. split.
  - intros (y & Hy & Heq). apply String.eqb_eq in Heq. now subst.
  - intros Hx. exists x. split; [exact Hx|apply String.eqb_refl].
Qed.

(** X11.  With [targets] omitted the targets are the keys of
    [config['callbacks']], so no lookup fails: [get_callbacks] returns
    exactly when Keras accepts the arguments of the [ModelCheckpoint] (if
    the configuration has that entry) and the model type parses; a
    refusal of Keras is raised as it is, before the model type is
    parsed. *)
Theorem get_callbacks_default_targets
    (ext : Collaborators) (path_manager : PathManager)
    (model_type : ModelTypeArg) (config : TrainConfig) :
  is_ok (get_callbacks ext path_manager model_type config None)
  = (match model_checkpoint (cfg_callbacks config) with
     | Some options =>
         is_ok (new_ModelCheckpoint ext
                  (os_path.join (cfg_checkpoint_dir config)
                     (get_basename path_manager "model_checkpoint")) options)
     | None => true
     end && is_ok (ModelType_parse ext model_type))
  /\ forall (options : ModelCheckpointConfig) (e : exn),
       model_checkpoint (cfg_callbacks config) = Some options ->
       new_ModelCheckpoint ext
         (os_path.join (cfg_checkpoint_dir config)
            (get_basename path_manager "model_checkpoint")) options = Raise e ->
       get_callbacks ext path_manager model_type config None = Raise e.
Proof.
  unfold get_callbacks, callbacks_keys, callback_options.
  destruct (cfg_callbacks config) as [lr es mc ml wl]. cbn [lr_scheduler early_stopping
    model_checkpoint metrics_logger weights_logger].
  split.
  - destruct lr, mc as [options|], ml, wl; cbn;
      try (destruct (new_ModelCheckpoint ext _ options); cbn; [|reflexivity]);
      destruct (ModelType_parse ext model_type) as [parsed|e]; cbn; try reflexivity;
      destruct (ModelType_eqb parsed SEMI_WEAKLY); reflexivity.
  - intros options e Hentry Hrefused. rewrite Hentry.
    destruct lr, ml, wl; cbn; rewrite Hrefused; reflexivity.
Qed.

Lemma get_callbacks_default_targets_witness :
  exists (config : TrainConfig) (options : ModelCheckpointConfig),
    get_train_config Sample.ext (Sample.loader [TWO_PRONG] true "bce") "ckpt"
      (Some (ByName "semi_weakly")) true None "batch" "epoch" "epoch" = Ok config
    /\ model_checkpoint (cfg_callbacks config) = Some options
    /\ new_ModelCheckpoint Sample.ext
         (os_path.join (cfg_checkpoint_dir config)
            (get_basename SampleTraining.path_manager "model_checkpoint")) options
       = Raise (ValueError "Unrecognized save_freq: batch")
    /\ get_callbacks Sample.ext SampleTraining.path_manager (ByName "semi_weakly") config
         None
       = Raise (ValueError "Unrecognized save_freq: batch").
Proof.
  let made := eval vm_compute in
    (get_train_config Sample.ext (Sample.loader [TWO_PRONG] true "bce") "ckpt"%string
       (Some (ByName "semi_weakly")) true None "batch"%string "epoch"%string
       "epoch"%string) in
  match made with
  | Ok ?config =>
      exists config;
      exists {| save_weights_only := true; save_best_only := false;
                mc_save_freq := "batch" |};
      split; [reflexivity|]; split; [reflexivity|]; split; [reflexivity|];
      apply (proj2 (get_callbacks_default_targets Sample.ext SampleTraining.path_manager
                      (ByName "semi_weakly") config)
               {| save_weights_only := true; save_best_only := false;
                  mc_save_freq := "batch" |});
      reflexivity
  end.
Defined.

(** X12.  A configuration made with a per-run save mode has no
    [model_checkpoint] entry, and neither has the prior-ratio one: asking
    [get_callbacks] for that target by name then raises
    [KeyError('model_checkpoint')], before the model type is parsed. *)
Theorem get_callbacks_checkpoint_key_error
    (ext : Collaborators) (path_manager : PathManager) (self : ModelLoader)
    (checkpoint_dir : string) (model_type : option ModelTypeArg) (weight_clipping : bool)
    (epochs : option Z) (model_save_freq metric_save_freq weight_save_freq : string)
    (config : TrainConfig) (a : ModelTypeArg) (targets : list string) :
  get_train_config ext self checkpoint_dir model_type weight_clipping epochs
    model_save_freq metric_save_freq weight_save_freq = Ok config ->
  LoggerSaveMode_is_train ext model_save_freq = Some true ->
  In "model_checkpoint"%string targets ->
  get_callbacks ext path_manager a config (Some targets)
  = Raise (KeyError "model_checkpoint").
Proof.
  intros Hconfig Hmode Hin.
  assert (Hnone : model_checkpoint (cfg_callbacks config) = None).
  { destruct (get_train_config_cases _ _ _ _ _ _ _ _ _ _ Hconfig)
      as [(_ & _ & Hmc & _) | (_ & (per_run & Hmode' & Hentry) & _)]; [exact Hmc|].
    rewrite Hmode in Hmode'. injection Hmode' as <-. exact Hentry. }
  apply str_in_In in Hin.
  unfold get_callbacks. rewrite Hin, Hnone. reflexivity.
Qed.

Lemma get_callbacks_checkpoint_key_error_witness :
  exists config : TrainConfig,
    get_train_config Sample.ext (Sample.loader [TWO_PRONG] true "bce") "ckpt"
      (Some (ByName "semi_weakly")) true None "train" "epoch" "epoch" = Ok config
    /\ LoggerSaveMode_is_train Sample.ext "train" = Some true
    /\ In "model_checkpoint"%string ["early_stopping"; "model_checkpoint"]%string
    /\ get_callbacks Sample.ext SampleTraining.path_manager
         (ByName "semi_weakly") config (Some ["early_stopping"; "model_checkpoint"]%string)
       = Raise (KeyError "model_checkpoint").
Proof.
  eexists. split; [reflexivity|]. split; [reflexivity|].
  split; [right; left; reflexivity|].
  apply (get_callbacks_checkpoint_key_error Sample.ext SampleTraining.path_manager
           (Sample.loader [TWO_PRONG] true "bce") "ckpt" (Some (ByName "semi_weakly"))
           true None "train" "epoch" "epoch").
  - reflexivity.
  - reflexivity.
  - right; left; reflexivity.
Defined.

(** X13.  What [get_callbacks] returns holds exactly the requested
    callbacks it knows, in the order early stopping, model checkpoint,
    metrics logger, learning-rate scheduler, weights logger, the last one
    only for the semi-weakly model; any other target name is ignored. *)
Theorem get_callbacks_keys
    (ext : Collaborators) (path_manager : PathManager) (model_type : ModelTypeArg)
    (config : TrainConfig) (targets : list string) (callbacks : dict Callback)
    (m : ModelType) :
  get_callbacks ext path_manager model_type config (Some targets) = Ok callbacks ->
  ModelType_parse ext model_type = Ok m ->
  dict_keys callbacks
  = filter (fun key => str_in key targets)
      (["early_stopping"; "model_checkpoint"; "metrics_logger"; "lr_scheduler"]%string
       ++ (if ModelType_eqb m SEMI_WEAKLY then ["weights_logger"%string] else [])).
Proof.
  intros Hrun Hparse. unfold get_callbacks, callback_options, new_ModelCheckpoint in Hrun.
  rewrite Hparse in Hrun. revert Hrun.
  destruct (ModelType_eqb m SEMI_WEAKLY) eqn:Hsemi; cbn [filter app];
    destruct (str_in "early_stopping" targets),
      (str_in "model_checkpoint" targets),
      (model_checkpoint (cfg_callbacks config)) as [options|],
      (str_in "metrics_logger" targets), (metrics_logger (cfg_callbacks config)),
      (str_in "lr_scheduler" targets), (lr_scheduler (cfg_callbacks config)),
      (str_in "weights_logger" targets), (weights_logger (cfg_callbacks config));
    cbn [result_bind];
    try (destruct (ModelCheckpoint_error ext _ (save_weights_only options)
                     (save_best_only options) (mc_save_freq options)));
    cbn; rewrite ?Hsemi; cbn; intros Hrun; try discriminate Hrun;
    apply (f_equal (fun r => match r with
                             | Ok c => dict_keys c
                             | Raise _ => []
                             end)) in Hrun;
    cbn in Hrun; rewrite <- Hrun; reflexivity.
Qed.

Lemma get_callbacks_keys_witness :
  exists (config : TrainConfig) (callbacks : dict Callback),
    get_train_config Sample.ext (Sample.loader [TWO_PRONG] true "bce") "ckpt"
      (Some (ByName "semi_weakly")) true None "epoch" "epoch" "epoch" = Ok config
    /\ get_callbacks Sample.ext SampleTraining.path_manager (ByName "semi_weakly") config
         (Some ["weights_logger"; "tensorboard"; "early_stopping"]%string) = Ok callbacks
    /\ ModelType_parse Sample.ext (ByName "semi_weakly") = Ok SEMI_WEAKLY
    /\ dict_keys callbacks = ["early_stopping"; "weights_logger"]%string.
Proof.
  let made := eval vm_compute in
    (get_train_config Sample.ext (Sample.loader [TWO_PRONG] true "bce") "ckpt"%string
       (Some (ByName "semi_weakly")) true None "epoch"%string "epoch"%string
       "epoch"%string) in
  match made with
  | Ok ?config =>
      exists config;
      let got := eval vm_compute in
        (get_callbacks Sample.ext SampleTraining.path_manager (ByName "semi_weakly") config
           (Some ["weights_logger"; "tensorboard"; "early_stopping"]%string)) in
      match got with
      | Ok ?callbacks =>
          exists callbacks;
          split; [reflexivity|]; split; [reflexivity|]; split; [reflexivity|];
          apply (get_callbacks_keys Sample.ext SampleTraining.path_manager
                   (ByName "semi_weakly") config
                   ["weights_logger"; "tensorboard"; "early_stopping"]%string
                   callbacks SEMI_WEAKLY);
          reflexivity
      end
  end.
Defined.

(* ================================================================== *)
(** * The inputs of the supervised models *)
(* ================================================================== *)

Lemma dict_get_set_same {V : Type} (d : dict V) (k : string) (v : V) :
  dict_get (dict_set d k v) k = Some v.
Proof.
  induction d as [|[k' v'] rest IH]; cbn.
  - now rewrite String.eqb_refl.
  - destruct (String.eqb k' k) eqn:E; cbn.
    + now rewrite String.eqb_refl.
    + now rewrite E.
Qed.

Lemma dict_get_set_other {V : Type} (d : dict V) (k k' : string) (v : V) :
  String.eqb k k' = false -> dict_get (dict_set d k v) k' = dict_get d k'.
Proof.
  intros Hne. induction d as [|[k0 v0] rest IH]; cbn.
  - now rewrite Hne.
  - destruct (String.eqb k0 k) eqn:E; cbn.
    + apply String.eqb_eq in E. subst k0. now rewrite Hne.
    + now rewrite IH.
Qed.

Lemma dict_set_Forall {V : Type} (P : string * V -> Prop) (d : dict V) (k : string) (v : V) :
  Forall P d -> P (k, v) -> Forall P (dict_set d k v).
Proof.
  intros Hd Hkv. induction Hd as [|[k' v'] rest Hhead Hrest IH]; cbn.
  - now constructor.
  - destruct (String.eqb k' k); constructor; assumption.
Qed.

Lemma dict_get_Forall {V : Type} (P : string * V -> Prop) (d : dict V) (k : string) (v : V) :
  Forall P d -> dict_get d k = Some v -> P (k, v).
Proof.
  intros Hd. induction Hd as [|[k' v'] rest Hhead Hrest IH]; cbn; [discriminate|].
  destruct (String.eqb k' k) eqn:E; [|exact IH].
  apply String.eqb_eq in E. subst k'. intros Hv. now injection Hv as <-.
Qed.

Lemma dict_get_downcast (d : dict FeatureMetadata) (k : string) :
  dict_get (map downcast_entry d) k
  = option_map (fun metadata => snd (downcast_entry (k, metadata))) (dict_get d k).
Proof.
  induction d as [|[k' v'] rest IH]; [reflexivity|].
  cbn [map dict_get]. unfold downcast_entry at 1.
  destruct (String.eqb (dtype v') "float64") eqn:E; cbn [dict_get];
    (destruct (String.eqb k' k); [|exact IH]);
    cbn [option_map downcast_entry snd]; now rewrite E.
Qed.

Lemma last_dim_set_last_dim (sh sh' : list Z) (d : Z) :
  set_last_dim sh d = Ok sh' -> last_dim sh' = Ok d.
Proof.
  unfold set_last_dim, last_dim.
  destruct (rev sh) as [|x front]; [discriminate|].
  intros H.
  apply (f_equal (fun r => match r with Ok l => l | Raise _ => [] end)) in H.
  subst sh'. now rewrite rev_involutive.
Qed.

Lemma set_last_dim_defined (sh : list Z) (d d' : Z) :
  last_dim sh = Ok d -> exists sh', set_last_dim sh d' = Ok sh'.
Proof.
  unfold set_last_dim, last_dim.
  destruct (rev sh) as [|x front]; [discriminate|]. intros _. now eexists.
Qed.

(** What the last loop of [get_supervised_model_inputs] builds: every
    input is the [Input] of a metadata entry, under the label of its
    feature. *)
Lemma input_layers_Forall (ext : Collaborators) (P : string * tensor -> Prop)
    (tmp_metadata : dict FeatureMetadata) :
  Forall (fun entry : string * FeatureMetadata =>
            P (dict_get_default label_map (fst entry) (fst entry),
               Input (fst entry) (shape (snd entry)) (dtype (snd entry)))) tmp_metadata ->
  forall acc inputs : dict tensor,
    Forall P acc ->
    input_layers ext tmp_metadata acc = Ok inputs ->
    Forall P inputs.
Proof.
  intros Htmp.
  induction Htmp as [|[feature metadata] rest Hhead Hrest IH]; intros acc inputs Hacc Hrun.
  - cbn [input_layers] in Hrun.
    apply (f_equal (fun r => match r with Ok d => d | Raise _ => acc end)) in Hrun.
    now subst.
  - cbn [input_layers] in Hrun.
    destruct (Input_error ext feature (shape metadata) (dtype metadata));
      [apply (f_equal is_ok) in Hrun; discriminate Hrun|].
    apply (IH _ _ (dict_set_Forall P _ _ _ Hacc Hhead) Hrun).
Qed.

(** The loop returns when every [Input] is accepted. *)
Lemma input_layers_accepted (ext : Collaborators) (tmp_metadata : dict FeatureMetadata) :
  Forall (fun entry : string * FeatureMetadata =>
            Input_error ext (fst entry) (shape (snd entry)) (dtype (snd entry)) = None)
    tmp_metadata ->
  forall acc : dict tensor, is_ok (input_layers ext tmp_metadata acc) = true.
Proof.
  intros Htmp.
  induction Htmp as [|[feature metadata] rest Hhead Hrest IH]; intros acc; [reflexivity|].
  cbn [input_layers]. cbn [fst snd] in Hhead. rewrite Hhead. apply IH.
Qed.

(** A label is never one of the three names that [label_map] renames. *)
Lemma label_is_renamed (feature : string) :
  str_in (dict_get_default label_map feature feature)
    ["part_coords"; "part_features"; "part_masks"]%string = false.
Proof.
  unfold dict_get_default, label_map. cbn [dict_get].
  destruct (String.eqb "part_coords" feature) eqn:E1; [reflexivity|].
  destruct (String.eqb "part_features" feature) eqn:E2; [reflexivity|].
  destruct (String.eqb "part_masks" feature) eqn:E3; [reflexivity|].
  unfold str_in. cbn [existsb].
  rewrite (String.eqb_sym feature "part_coords"), E1.
  rewrite (String.eqb_sym feature "part_features"), E2.
  rewrite (String.eqb_sym feature "part_masks"), E3. reflexivity.
Qed.

Lemma result_bind_assoc {A B C : Type} (r : result A) (f : A -> result B)
    (g : B -> result C) :
  result_bind (result_bind r f) g = result_bind r (fun a => result_bind (f a) g).
Proof. now destruct r. Qed.

(** [get_supervised_model_inputs] in three steps: the downcast loop, the
    two updates of ['jet_features'], the loop that makes the inputs. *)
Lemma get_supervised_model_inputs_unfold (ext : Collaborators) (self : ModelLoader)
    (feature_metadata : dict FeatureMetadata) (downcast : bool) :
  get_supervised_model_inputs ext self feature_metadata downcast
  = (tmp_metadata <-
       update_jet_features self
         (if downcast then map downcast_entry feature_metadata else feature_metadata) ;;
     inputs <- input_layers ext tmp_metadata [] ;;
     Ok (inputs, tmp_metadata))%result.
Proof.
  unfold get_supervised_model_inputs, update_jet_features.
  destruct downcast; rewrite result_bind_assoc; reflexivity.
Qed.

(** What a call that returns has gone through. *)
Lemma get_supervised_model_inputs_returns (ext : Collaborators) (self : ModelLoader)
    (feature_metadata : dict FeatureMetadata) (downcast : bool)
    (inputs : dict tensor) (metadata_after : dict FeatureMetadata) :
  get_supervised_model_inputs ext self feature_metadata downcast
  = Ok (inputs, metadata_after) ->
  update_jet_features self
    (if downcast then map downcast_entry feature_metadata else feature_metadata)
  = Ok metadata_after
  /\ input_layers ext metadata_after [] = Ok inputs.
Proof.
  rewrite get_supervised_model_inputs_unfold.
  destruct (update_jet_features self _) as [tmp|e]; cbn [result_bind];
    [|intros H; apply (f_equal is_ok) in H; discriminate H].
  destruct (input_layers ext tmp []) as [made|e] eqn:Hmade; cbn [result_bind];
    [|intros H; apply (f_equal is_ok) in H; discriminate H].
  intros H.
  apply (f_equal (fun r => match r with
                           | Ok p => p
                           | Raise _ => (inputs, metadata_after)
                           end)) in H.
  assert (H1 : made = inputs) by exact (f_equal fst H).
  assert (H2 : tmp = metadata_after) by exact (f_equal snd H).
  subst. split; [reflexivity|exact Hmade].
Qed.

(** One update of the last dimension of ['jet_features']. *)
Lemma jet_update_Forall (P : string * FeatureMetadata -> Prop)
    (tmp_metadata : dict FeatureMetadata) (jet : FeatureMetadata) (sh : list Z) :
  (forall (key : string) (metadata : FeatureMetadata) (sh' : list Z),
     P (key, metadata) -> P (key, {| shape := sh'; dtype := dtype metadata |})) ->
  Forall P tmp_metadata ->
  dict_get tmp_metadata "jet_features" = Some jet ->
  Forall P (dict_set tmp_metadata "jet_features" {| shape := sh; dtype := dtype jet |}).
Proof.
  intros Hshape Htmp Hjet. apply dict_set_Forall; [exact Htmp|].
  apply Hshape. exact (dict_get_Forall P _ _ _ Htmp Hjet).
Qed.

(** The updates of ['jet_features'] change shapes only. *)
Lemma update_jet_features_Forall (P : string * FeatureMetadata -> Prop)
    (self : ModelLoader) (tmp_metadata metadata_after : dict FeatureMetadata) :
  (forall (key : string) (metadata : FeatureMetadata) (sh' : list Z),
     P (key, metadata) -> P (key, {| shape := sh'; dtype := dtype metadata |})) ->
  Forall P tmp_metadata ->
  update_jet_features self tmp_metadata = Ok metadata_after ->
  Forall P metadata_after.
Proof.
  intros Hshape Htmp. unfold update_jet_features, getitem.
  assert (Hdone : forall tmp : dict FeatureMetadata,
             Forall P tmp -> Ok tmp = Ok metadata_after -> Forall P metadata_after).
  { intros tmp Hp H.
    apply (f_equal (fun r => match r with Ok d => d | Raise _ => tmp end)) in H.
    now subst. }
  assert (Hnoise : forall tmp : dict FeatureMetadata,
             Forall P tmp ->
             match noise_dimension_per_jet (base self) with
             | Some noise =>
                 if Z.eqb noise 0 then Ok tmp
                 else
                   (jet <- match dict_get tmp "jet_features" with
                           | Some v => Ok v
                           | None => Raise (KeyError "jet_features")
                           end ;;
                    d <- last_dim (shape jet) ;;
                    sh <- set_last_dim (shape jet) (d + noise) ;;
                    Ok (dict_set tmp "jet_features" {| shape := sh; dtype := dtype jet |}))
             | None => Ok tmp
             end = Ok metadata_after ->
             Forall P metadata_after).
  { intros tmp Hp.
    destruct (noise_dimension_per_jet (base self)) as [noise|]; [|now apply Hdone].
    destruct (Z.eqb noise 0); [now apply Hdone|].
    destruct (dict_get tmp "jet_features") as [jet|] eqn:Hjet; cbn [result_bind];
      [|intros H; apply (f_equal is_ok) in H; discriminate H].
    destruct (last_dim (shape jet)) as [d|e]; cbn [result_bind];
      [|intros H; apply (f_equal is_ok) in H; discriminate H].
    destruct (set_last_dim (shape jet) (d + noise)) as [sh|e]; cbn [result_bind];
      [|intros H; apply (f_equal is_ok) in H; discriminate H].
    apply Hdone. now apply jet_update_Forall. }
  destruct (variables (base self)) as [vars|]; cbn [result_bind]; [|now apply Hnoise].
  destruct (dict_get tmp_metadata "jet_features") as [jet|] eqn:Hjet; cbn [result_bind];
    [|intros H; apply (f_equal is_ok) in H; discriminate H].
  destruct (set_last_dim (shape jet) _) as [sh|e]; cbn [result_bind];
    [|intros H; apply (f_equal is_ok) in H; discriminate H].
  apply Hnoise. now apply jet_update_Forall.
Qed.

Lemma downcast_no_float64 (feature_metadata : dict FeatureMetadata) :
  Forall (fun entry : string * FeatureMetadata =>
            String.eqb (dtype (snd entry)) "float64" = false)
    (map downcast_entry feature_metadata).
Proof.
  induction feature_metadata as [|[feature metadata] rest IH]; cbn [map]; constructor;
    [|exact IH].
  unfold downcast_entry.
  destruct (String.eqb (dtype metadata) "float64") eqn:E; cbn [snd dtype];
    [reflexivity|exact E].
Qed.

(** X14.  With [downcast] (the default), whenever
    [get_supervised_model_inputs] returns, no input it returns is declared
    [float64], and the metadata it leaves behind (the caller's, updated in
    place) holds no [float64] entry either; every input is an [Input]
    layer. *)
Theorem inputs_downcast_leaves_no_float64 (ext : Collaborators) (self : ModelLoader)
    (feature_metadata : dict FeatureMetadata)
    (inputs : dict tensor) (metadata_after : dict FeatureMetadata) :
  get_supervised_model_inputs ext self feature_metadata true
  = Ok (inputs, metadata_after) ->
  Forall (fun entry : string * FeatureMetadata =>
            String.eqb (dtype (snd entry)) "float64" = false) metadata_after
  /\ Forall (fun input : string * tensor =>
               exists (feature : string) (sh : list Z) (dt : string),
                 snd input = Input feature sh dt /\ String.eqb dt "float64" = false)
       inputs.
Proof.
  intros H. apply get_supervised_model_inputs_returns in H. destruct H as [Hupdate Hmade].
  assert (Hafter : Forall (fun entry : string * FeatureMetadata =>
                             String.eqb (dtype (snd entry)) "float64" = false)
                     metadata_after).
  { apply (update_jet_features_Forall _ self (map downcast_entry feature_metadata));
      [|apply downcast_no_float64|exact Hupdate].
    intros key metadata sh' Hdt. exact Hdt. }
  split; [exact Hafter|].
  apply (input_layers_Forall ext _ metadata_after) with (acc := []);
    [|constructor|exact Hmade].
  eapply Forall_impl; [|exact Hafter].
  intros [feature metadata] Hdt. cbn [fst snd] in *.
  exists feature, (shape metadata), (dtype metadata). split; [reflexivity|exact Hdt].
Qed.

Lemma inputs_downcast_leaves_no_float64_witness :
  exists (inputs : dict tensor) (metadata_after : dict FeatureMetadata),
    get_supervised_model_inputs Sample.ext (Sample.loader [TWO_PRONG] true "bce")
      Sample.metadata true
    = Ok (inputs, metadata_after)
    /\ Forall (fun entry : string * FeatureMetadata =>
                 String.eqb (dtype (snd entry)) "float64" = false) metadata_after
    /\ Forall (fun input : string * tensor =>
                 exists (feature : string) (sh : list Z) (dt : string),
                   snd input = Input feature sh dt /\ String.eqb dt "float64" = false)
         inputs.
Proof.
  eexists. eexists. split; [reflexivity|].
  apply (inputs_downcast_leaves_no_float64 Sample.ext
           (Sample.loader [TWO_PRONG] true "bce") Sample.metadata).
  reflexivity.
Defined.

Lemma dict_get_absent {V : Type} (d : dict V) (k : string) :
  Forall (fun entry : string * V => String.eqb (fst entry) k = false) d ->
  dict_get d k = None.
Proof.
  intros Hd. induction Hd as [|[k' v'] rest Hhead Hrest IH]; [reflexivity|].
  cbn [fst] in Hhead. cbn [dict_get]. now rewrite Hhead.
Qed.

(** X15.  The three particle features are always renamed: whatever the
    metadata holds, the inputs returned have no key ['part_coords'],
    ['part_features'] or ['part_masks'] (they appear as ['points'],
    ['features'] and ['masks']). *)
Theorem inputs_renamed_keys_are_absent (ext : Collaborators) (self : ModelLoader)
    (feature_metadata : dict FeatureMetadata) (downcast : bool)
    (inputs : dict tensor) (metadata_after : dict FeatureMetadata) (key : string) :
  get_supervised_model_inputs ext self feature_metadata downcast
  = Ok (inputs, metadata_after) ->
  In key ["part_coords"; "part_features"; "part_masks"]%string ->
  dict_get inputs key = None.
Proof.
  intros H Hkey. apply get_supervised_model_inputs_returns in H. destruct H as [_ Hmade].
  apply dict_get_absent.
  apply (input_layers_Forall ext _ metadata_after) with (acc := []);
    [|constructor|exact Hmade].
  apply Forall_forall. intros [feature metadata] _. cbn [fst snd].
  pose proof (label_is_renamed feature) as Hlabel.
  unfold str_in in Hlabel. cbn [existsb] in Hlabel.
  repeat (apply orb_false_elim in Hlabel; destruct Hlabel as [? Hlabel]).
  cbn [In] in Hkey. destruct Hkey as [<- | [<- | [<- | []]]]; assumption.
Qed.

Lemma inputs_renamed_keys_are_absent_witness :
  exists (inputs : dict tensor) (metadata_after : dict FeatureMetadata),
    get_supervised_model_inputs Sample.ext (Sample.loader [TWO_PRONG] true "bce")
      [("part_coords"%string, {| shape := [2; 100; 2]%Z; dtype := "float32" |});
       ("jet_features"%string, {| shape := [2; 7]%Z; dtype := "float64" |})] true
    = Ok (inputs, metadata_after)
    /\ In "part_coords"%string ["part_coords"; "part_features"; "part_masks"]%string
    /\ dict_get inputs "part_coords" = None
    /\ dict_get inputs "points"
       = Some (Input "part_coords" [2; 100; 2]%Z "float32").
Proof.
  eexists. eexists. split; [reflexivity|]. split; [left; reflexivity|]. split.
  - apply (inputs_renamed_keys_are_absent Sample.ext
             (Sample.loader [TWO_PRONG] true "bce")
             [("part_coords"%string, {| shape := [2; 100; 2]%Z; dtype := "float32" |});
              ("jet_features"%string, {| shape := [2; 7]%Z; dtype := "float64" |})]
             true _ _ "part_coords"%string eq_refl).
    left; reflexivity.
  - reflexivity.
Defined.

(** X16.  ['jet_features'] is only looked up when the loader selects
    variables or adds noise dimensions.  Without either, the call returns
    whenever Keras accepts every [Input] (the metadata after the downcast
    loop is what it leaves behind); with either and no ['jet_features']
    entry it raises [KeyError('jet_features')], before any [Input] is
    made. *)
Theorem inputs_need_jet_features (ext : Collaborators) (self : ModelLoader)
    (feature_metadata : dict FeatureMetadata) (downcast : bool) :
  (variables (base self) = None ->
   noise_dimension_per_jet (base self) = None
   \/ noise_dimension_per_jet (base self) = Some 0%Z ->
   Forall (fun entry : string * FeatureMetadata =>
             Input_error ext (fst entry) (shape (snd entry)) (dtype (snd entry)) = None)
     (if downcast then map downcast_entry feature_metadata else feature_metadata) ->
   exists inputs : dict tensor,
     get_supervised_model_inputs ext self feature_metadata downcast
     = Ok (inputs,
           if downcast then map downcast_entry feature_metadata else feature_metadata))
  /\
  (variables (base self) <> None
   \/ (exists noise : Z,
         noise_dimension_per_jet (base self) = Some noise /\ noise <> 0%Z) ->
   dict_get feature_metadata "jet_features" = None ->
   get_supervised_model_inputs ext self feature_metadata downcast
   = Raise (KeyError "jet_features")).
Proof.
  rewrite get_supervised_model_inputs_unfold. split.
  - intros Hvars Hnoise Haccepted.
    assert (Hsame : forall tmp : dict FeatureMetadata,
               update_jet_features self tmp = Ok tmp).
    { intros tmp. unfold update_jet_features. rewrite Hvars.
      destruct Hnoise as [-> | ->]; reflexivity. }
    rewrite Hsame. cbn [result_bind].
    pose proof (input_layers_accepted ext _ Haccepted []) as Hok.
    destruct (input_layers ext _ []) as [inputs|e]; [|discriminate Hok].
    exists inputs. reflexivity.
  - intros Hneeds Habsent.
    assert (Hnone : dict_get (map downcast_entry feature_metadata) "jet_features" = None)
      by (rewrite dict_get_downcast, Habsent; reflexivity).
    unfold update_jet_features, getitem.
    destruct downcast;
      (destruct (variables (base self)) as [vars|];
       [ rewrite ?Hnone, ?Habsent; reflexivity
       | destruct Hneeds as [Hvars | (noise & -> & Hnoise)]; [now elim Hvars|];
         cbn [result_bind]; apply Z.eqb_neq in Hnoise;
         rewrite Hnoise, ?Hnone, ?Habsent; reflexivity ]).
Qed.

Lemma inputs_need_jet_features_witness :
  variables (base (Sample.loader [TWO_PRONG] true "bce")) = None
  /\ noise_dimension_per_jet (base (Sample.loader [TWO_PRONG] true "bce")) = None
  /\ dict_get [("param_masses"%string, {| shape := [2]%Z; dtype := "float64" |})]
       "jet_features" = None
  /\ (exists inputs : dict tensor,
        get_supervised_model_inputs Sample.ext (Sample.loader [TWO_PRONG] true "bce")
          [("param_masses"%string, {| shape := [2]%Z; dtype := "float64" |})] true
        = Ok (inputs, [("param_masses"%string, {| shape := [2]%Z; dtype := "float32" |})]))
  /\ noise_dimension_per_jet
       (base (SampleTraining.loader_with HIGH_LEVEL (Some 3%Z) "bce")) = Some 3%Z
  /\ get_supervised_model_inputs Sample.ext
       (SampleTraining.loader_with HIGH_LEVEL (Some 3%Z) "bce")
       [("param_masses"%string, {| shape := [2]%Z; dtype := "float64" |})] true
     = Raise (KeyError "jet_features").
Proof.
  split; [reflexivity|]. split; [reflexivity|]. split; [reflexivity|]. split.
  - apply (proj1 (inputs_need_jet_features Sample.ext
                    (Sample.loader [TWO_PRONG] true "bce")
                    [("param_masses"%string, {| shape := [2]%Z; dtype := "float64" |})]
                    true)).
    + reflexivity.
    + left; reflexivity.
    + repeat constructor.
  - split; [reflexivity|].
    apply (proj2 (inputs_need_jet_features Sample.ext
                    (SampleTraining.loader_with HIGH_LEVEL (Some 3%Z) "bce")
                    [("param_masses"%string, {| shape := [2]%Z; dtype := "float64" |})]
                    true)).
    + right. exists 3%Z. split; [reflexivity|lia].
    + reflexivity.
Defined.

(** X17.  The metadata is updated in place, so noise dimensions add up:
    on a loader without selected variables and with [noise] extra
    dimensions, a first call that returns leaves ['jet_features'] with
    last dimension [d + noise], and a second call on the same metadata
    that returns leaves [d + noise + noise]; the inputs of each call are
    made from the metadata it leaves. *)
Theorem inputs_noise_accumulates (ext : Collaborators) (self : ModelLoader)
    (feature_metadata : dict FeatureMetadata) (downcast : bool)
    (noise d : Z) (jet : FeatureMetadata)
    (inputs_1 inputs_2 : dict tensor) (metadata_1 metadata_2 : dict FeatureMetadata) :
  variables (base self) = None ->
  noise_dimension_per_jet (base self) = Some noise ->
  noise <> 0%Z ->
  dict_get feature_metadata "jet_features" = Some jet ->
  last_dim (shape jet) = Ok d ->
  get_supervised_model_inputs ext self feature_metadata downcast
  = Ok (inputs_1, metadata_1) ->
  get_supervised_model_inputs ext self metadata_1 downcast = Ok (inputs_2, metadata_2) ->
  exists jet_1 jet_2 : FeatureMetadata,
    dict_get metadata_1 "jet_features" = Some jet_1
    /\ last_dim (shape jet_1) = Ok (d + noise)%Z
    /\ input_layers ext metadata_1 [] = Ok inputs_1
    /\ dict_get metadata_2 "jet_features" = Some jet_2
    /\ last_dim (shape jet_2) = Ok (d + noise + noise)%Z
    /\ input_layers ext metadata_2 [] = Ok inputs_2.
Proof.
  intros Hvars Hnoise Hnz Hjet Hd Hrun1 Hrun2.
  apply Z.eqb_neq in Hnz.
  assert (Hstep : forall (md after : dict FeatureMetadata) (j : FeatureMetadata) (n : Z)
                         (inputs : dict tensor),
             dict_get md "jet_features" = Some j ->
             last_dim (shape j) = Ok n ->
             get_supervised_model_inputs ext self md downcast = Ok (inputs, after) ->
             exists j' : FeatureMetadata,
               dict_get after "jet_features" = Some j'
               /\ last_dim (shape j') = Ok (n + noise)%Z
               /\ input_layers ext after [] = Ok inputs).
  { intros md after j n inputs Hj Hn Hrun.
    apply get_supervised_model_inputs_returns in Hrun. destruct Hrun as [Hupdate Hmade].
    assert (Hdown : exists j0, dict_get (map downcast_entry md) "jet_features" = Some j0
                               /\ shape j0 = shape j).
    { rewrite dict_get_downcast, Hj. cbn [option_map downcast_entry].
      destruct (String.eqb (dtype j) "float64"); eexists; split; reflexivity. }
    destruct Hdown as (j0 & Hj0 & Hshape).
    destruct (set_last_dim_defined (shape j) n (n + noise) Hn) as [sh' Hsh'].
    unfold update_jet_features in Hupdate. rewrite Hvars, Hnoise, Hnz in Hupdate.
    cbn [result_bind] in Hupdate. unfold getitem in Hupdate.
    destruct downcast.
    - rewrite Hj0 in Hupdate. cbn [result_bind] in Hupdate.
      rewrite Hshape, Hn in Hupdate. cbn [result_bind] in Hupdate.
      rewrite Hsh' in Hupdate. cbn [result_bind] in Hupdate.
      apply (f_equal (fun r => match r with Ok m => m | Raise _ => after end)) in Hupdate.
      subst after. exists {| shape := sh'; dtype := dtype j0 |}.
      split; [apply dict_get_set_same|]. split; [|exact Hmade].
      cbn [shape]. exact (last_dim_set_last_dim _ _ _ Hsh').
    - rewrite Hj in Hupdate. cbn [result_bind] in Hupdate.
      rewrite Hn in Hupdate. cbn [result_bind] in Hupdate.
      rewrite Hsh' in Hupdate. cbn [result_bind] in Hupdate.
      apply (f_equal (fun r => match r with Ok m => m | Raise _ => after end)) in Hupdate.
      subst after. exists {| shape := sh'; dtype := dtype j |}.
      split; [apply dict_get_set_same|]. split; [|exact Hmade].
      cbn [shape]. exact (last_dim_set_last_dim _ _ _ Hsh'). }
  destruct (Hstep feature_metadata metadata_1 jet d inputs_1 Hjet Hd Hrun1)
    as (jet_1 & Hjet1 & Hd1 & Hmade1).
  destruct (Hstep metadata_1 metadata_2 jet_1 (d + noise)%Z inputs_2 Hjet1 Hd1 Hrun2)
    as (jet_2 & Hjet2 & Hd2 & Hmade2).
  exists jet_1, jet_2. repeat split; assumption.
Qed.

Lemma inputs_noise_accumulates_witness :
  exists (inputs_1 inputs_2 : dict tensor) (metadata_1 metadata_2 : dict FeatureMetadata)
         (jet_1 jet_2 : FeatureMetadata),
    get_supervised_model_inputs Sample.ext
      (SampleTraining.loader_with HIGH_LEVEL (Some 3%Z) "bce")
      Sample.metadata true = Ok (inputs_1, metadata_1)
    /\ get_supervised_model_inputs Sample.ext
         (SampleTraining.loader_with HIGH_LEVEL (Some 3%Z) "bce")
         metadata_1 true = Ok (inputs_2, metadata_2)
    /\ dict_get metadata_1 "jet_features" = Some jet_1
    /\ last_dim (shape jet_1) = Ok (7 + 3)%Z
    /\ dict_get metadata_2 "jet_features" = Some jet_2
    /\ last_dim (shape jet_2) = Ok (7 + 3 + 3)%Z
    /\ dict_get inputs_2 "jet_features"
       = Some (Input "jet_features" [2; 13]%Z "float32").
Proof.
  let first := eval vm_compute in
    (get_supervised_model_inputs Sample.ext
       (SampleTraining.loader_with HIGH_LEVEL (Some 3%Z) "bce") Sample.metadata true) in
  match first with
  | Ok (?inputs_1, ?metadata_1) =>
      let second := eval vm_compute in
        (get_supervised_model_inputs Sample.ext
           (SampleTraining.loader_with HIGH_LEVEL (Some 3%Z) "bce") metadata_1 true) in
      match second with
      | Ok (?inputs_2, ?metadata_2) =>
          destruct (inputs_noise_accumulates Sample.ext
                      (SampleTraining.loader_with HIGH_LEVEL (Some 3%Z) "bce")
                      Sample.metadata true 3%Z 7%Z
                      {| shape := [2; 7]%Z; dtype := "float64" |}
                      inputs_1 inputs_2 metadata_1 metadata_2
                      eq_refl eq_refl ltac:(lia) eq_refl eq_refl eq_refl eq_refl)
            as (jet_1 & jet_2 & H1 & H2 & _ & H3 & H4 & _);
          exists inputs_1, inputs_2, metadata_1, metadata_2, jet_1, jet_2;
          repeat split; (assumption || reflexivity)
      end
  end.
Defined.

(* ================================================================== *)
(** * The parts of the builder *)
(* ================================================================== *)

(** X18.  The weight models come in the order [m1], [m2], then [mu] and
    [alpha] when given; each is named by its key, trainable, uses the
    transform of its own parameter, no kernel constraint, its given value
    as initial kernel, and the regulariser of its own parameter exactly
    when [use_regularizer] holds. *)
Theorem semi_weakly_weights_entries (m1 m2 : float) (mu alpha : option float)
    (use_sigmoid use_regularizer : bool) :
  dict_keys (get_semi_weakly_weights m1 m2 mu alpha use_sigmoid use_regularizer)
  = (["m1"; "m2"]%string
     ++ (match mu with Some _ => ["mu"%string] | None => [] end)
     ++ (match alpha with Some _ => ["alpha"%string] | None => [] end))%list
  /\ map (fun entry : string * ParameterModel => pm_kernel_initializer (snd entry))
       (get_semi_weakly_weights m1 m2 mu alpha use_sigmoid use_regularizer)
     = ([Some m1; Some m2]
        ++ (match mu with Some _ => [mu] | None => [] end)
        ++ (match alpha with Some _ => [alpha] | None => [] end))%list
  /\ Forall (fun entry : string * ParameterModel =>
               pm_name (snd entry) = fst entry
               /\ pm_trainable (snd entry) = true
               /\ pm_activation (snd entry) = ParameterTransform (fst entry)
               /\ pm_kernel_constraint (snd entry) = None
               /\ pm_kernel_regularizer (snd entry)
                  = (if use_regularizer then Some (ParameterRegularizer (fst entry))
                     else None))
       (get_semi_weakly_weights m1 m2 mu alpha use_sigmoid use_regularizer).
Proof.
  destruct mu as [mu|], alpha as [alpha|], use_regularizer;
    (split; [reflexivity|]; split; [reflexivity|]);
    repeat constructor.
Qed.

Section PartsOfTheBuilder.
Variable disk : Disk.

(** The loop of [_get_prior_out] on paths that all load: the models are
    those on disk, each with its layers frozen and its name replaced. *)
Lemma load_prior_models_all (name : string) (model_paths : list string)
    (models : list LoadedModel) :
  Forall2 (fun path model => disk_model disk path = Some model) model_paths models ->
  forall (i : nat) (s : State),
    load_prior_models disk name i model_paths s
    = (Ok (map (fun numbered : nat * LoadedModel =>
                  {| _name := name ++ "_" ++ str_of_nat (fst numbered + 1);
                     layers := map (fun layer => {| layer_name := layer_name layer;
                                                    trainable := false |})
                                 (layers (snd numbered)) |})
             (combine (seq i (List.length models)) models)),
       {| self := self s; io_log := (io_log s ++ map LoadModel model_paths)%list |}).
Proof.
  intros Hload. induction Hload as [|model_path model rest models Hmodel Hrest IH];
    intros i s.
  - cbn. rewrite app_nil_r. now destruct s.
  - cbn [load_prior_models]. unfold M_bind at 1. unfold load_model, M_bind, log.
    rewrite Hmodel. unfold M_ret at 1. rewrite IH. unfold M_ret.
    cbn [self io_log List.length seq combine map fst snd].
    rewrite <- app_assoc. reflexivity.
Qed.
End PartsOfTheBuilder.

(** X19.  When every path loads, [_get_prior_out] reads the files once
    each, in the order given, leaves the loader alone and returns the
    average of the loaded models applied to [x]: the model of each path,
    in order, with its layer names kept, every layer frozen, and its name
    replaced by [name_1], [name_2], ...; a single [str] path is the list of
    that one path. *)
Theorem _get_prior_out_loads_every_path
    (disk : Disk) (x : list tensor) (model_path : string) (more_paths : list string)
    (models : list LoadedModel) (name : string) (s : State) :
  Forall2 (fun path model => disk_model disk path = Some model)
    (model_path :: more_paths) models ->
  _get_prior_out disk x (ManyPaths (model_path :: more_paths)) name s
  = (Ok (Average
           (map (fun numbered : nat * LoadedModel =>
                   Call (Loaded
                           {| _name := name ++ "_" ++ str_of_nat (fst numbered + 1);
                              layers := map (fun layer =>
                                               {| layer_name := layer_name layer;
                                                  trainable := false |})
                                          (layers (snd numbered)) |}) x)
              (combine (seq 0 (List.length models)) models))),
     {| self := self s;
        io_log := (io_log s ++ map LoadModel (model_path :: more_paths))%list |})
  /\ _get_prior_out disk x (OnePath model_path) name s
     = _get_prior_out disk x (ManyPaths [model_path]) name s.
Proof.
  intros Hload. split; [|reflexivity].
  unfold _get_prior_out, M_bind. unfold M_ret at 1.
  rewrite (load_prior_models_all disk name _ models Hload 0 s).
  unfold M_ret. now rewrite map_map.
Qed.

Lemma _get_prior_out_loads_every_path_witness :
  Forall2 (fun path model => disk_model Sample.disk path = Some model)
    ["models/qq/full.keras"; "models/qqq/full.keras"]%string
    [Sample.saved_model; Sample.saved_model]
  /\ _get_prior_out Sample.disk [Constant 1%float]
       (ManyPaths ["models/qq/full.keras"; "models/qqq/full.keras"]%string) "prior"
       (Sample.state [TWO_PRONG])
     = (Ok (Average
              [Call (Loaded {| _name := "prior_1";
                               layers := [ {| layer_name := "dense_1"; trainable := false |};
                                           {| layer_name := "dense_2"; trainable := false |} ]
                            |}) [Constant 1%float];
               Call (Loaded {| _name := "prior_2";
                               layers := [ {| layer_name := "dense_1"; trainable := false |};
                                           {| layer_name := "dense_2"; trainable := false |} ]
                            |}) [Constant 1%float]]),
        {| self := self (Sample.state [TWO_PRONG]);
           io_log := [LoadModel "models/qq/full.keras";
                      LoadModel "models/qqq/full.keras"] |}).
Proof.
  assert (Hload : Forall2 (fun path model => disk_model Sample.disk path = Some model)
                    ["models/qq/full.keras"; "models/qqq/full.keras"]%string
                    [Sample.saved_model; Sample.saved_model])
    by (repeat constructor).
  split; [exact Hload|].
  exact (proj1 (_get_prior_out_loads_every_path Sample.disk [Constant 1%float]
                  "models/qq/full.keras" ["models/qqq/full.keras"%string]
                  [Sample.saved_model; Sample.saved_model] "prior"
                  (Sample.state [TWO_PRONG]) Hload)).
Defined.

(** X20.  [_get_prior_out] stops at the first path that does not load: the
    exception of that load, whatever it is, is raised after the paths
    before it have been read, and no later path is touched. *)
Theorem _get_prior_out_stops_at_first_failure
    (disk : Disk) (x : list tensor)
    (loaded : list string) (failing : string) (rest : list string)
    (name : string) (s : State) :
  (forall path : string, In path loaded -> disk_model disk path <> None) ->
  disk_model disk failing = None ->
  _get_prior_out disk x (ManyPaths (loaded ++ failing :: rest)%list) name s
  = (Raise (disk_load_error disk failing),
     {| self := self s;
        io_log := (io_log s ++ map LoadModel loaded ++ [LoadModel failing])%list |}).
Proof.
  intros Hload Hfail.
  unfold _get_prior_out, M_bind. unfold M_ret at 1.
  assert (Hloop : forall (i : nat) (s0 : State),
             load_prior_models disk name i (loaded ++ failing :: rest)%list s0
             = (Raise (disk_load_error disk failing),
                {| self := self s0;
                   io_log := (io_log s0 ++ map LoadModel loaded
                              ++ [LoadModel failing])%list |})).
  { clear s. induction loaded as [|path loaded IH]; intros i s0.
    - cbn [app load_prior_models map]. unfold M_bind, load_model, M_bind, log.
      rewrite Hfail. reflexivity.
    - cbn [app load_prior_models map]. unfold M_bind at 1.
      unfold load_model, M_bind, log.
      destruct (disk_model disk path) as [model|] eqn:Hmodel;
        [|now elim (Hload path (or_introl eq_refl))].
      unfold M_ret at 1.
      rewrite (IH (fun p Hin => Hload p (or_intror Hin))).
      cbn [self io_log]. now rewrite <- app_assoc. }
  now rewrite Hloop.
Qed.

Lemma _get_prior_out_stops_at_first_failure_witness :
  disk_model Sample.disk "models/missing.keras" = None
  /\ _get_prior_out Sample.disk [Constant 1%float]
       (ManyPaths ["models/qq/full.keras"; "models/missing.keras";
                   "models/qqq/full.keras"]%string) "prior" (Sample.state [TWO_PRONG])
     = (Raise (disk_load_error Sample.disk "models/missing.keras"),
        {| self := self (Sample.state [TWO_PRONG]);
           io_log := [LoadModel "models/qq/full.keras";
                      LoadModel "models/missing.keras"] |}).
Proof.
  split; [reflexivity|].
  apply (_get_prior_out_stops_at_first_failure Sample.disk [Constant 1%float]
           ["models/qq/full.keras"%string] "models/missing.keras"%string
           ["models/qqq/full.keras"%string] "prior" (Sample.state [TWO_PRONG])).
  - intros path [<- | []]; discriminate.
  - reflexivity.
Defined.

(** X21.  An inferred or sampled kappa needs the directory of one
    supervised model: when the path argument is a list of paths (or
    [None]) the call raises [TypeError] in [os.path.dirname], before any
    file is looked up. *)
Theorem get_kappa_out_needs_one_path
    (ext : Collaborators) (disk : Disk) (mass_params : tensor) (val : string)
    (supervised_model_path : ModelPaths) (name : option string) (s : State) :
  str_in (lower val) ["inferred"; "sampled"]%string = true ->
  (forall path : string, supervised_model_path <> OnePath path) ->
  get_kappa_out ext disk mass_params (KappaString val) supervised_model_path name s
  = (Raise TypeError, s).
Proof.
  intros Hin Hpath. unfold get_kappa_out. rewrite Hin.
  destruct supervised_model_path as [|path|paths];
    [reflexivity|now elim (Hpath path)|reflexivity].
Qed.

Lemma get_kappa_out_needs_one_path_witness :
  str_in (lower "Inferred") ["inferred"; "sampled"]%string = true
  /\ get_kappa_out Sample.ext Sample.disk (Constant 1%float) (KappaString "Inferred")
       (ManyPaths ["models/qq/full.keras"; "models/qqq/full.keras"]%string) None
       (Sample.state [TWO_PRONG])
     = (Raise TypeError, Sample.state [TWO_PRONG]).
Proof.
  split; [reflexivity|].
  apply (get_kappa_out_needs_one_path Sample.ext Sample.disk (Constant 1%float)
           "Inferred"%string
           (ManyPaths ["models/qq/full.keras"; "models/qqq/full.keras"]%string) None
           (Sample.state [TWO_PRONG])).
  - reflexivity.
  - intros path Heq. discriminate Heq.
Defined.

(* ================================================================== *)
(** * The builder as a whole *)
(* ================================================================== *)

Ltac step_run :=
  match goal with
  | |- context [match ?r with Ok _ => _ | Raise _ => _ end] =>
      lazymatch r with
      | context [match _ with _ => _ end] => fail
      | _ => destruct r
      end
  | |- context [let (_, _) := ?p in _] =>
      lazymatch p with
      | context [match _ with _ => _ end] => fail
      | _ => destruct p
      end
  | |- context [if ?b then _ else _] =>
      lazymatch b with
      | context [match _ with _ => _ end] => fail
      | _ => destruct b
      end
  end; cbn [fst snd self io_log is_ok negb andb].

(** X23.  [epsilon] and [bug_fix] only shape the output of the returned
    model.  Two builds that differ in them read the same files, leave the
    same loader behind (the recorded [LLR] model is always built with
    [1e-10], not with [epsilon]) and end the same way: with the same
    exception, or with models of the same name on the same inputs. *)
Theorem build_state_ignores_epsilon
    (ext : Collaborators) (disk : Disk)
    (feature_metadata : dict FeatureMetadata) (fs_model_path : ModelPaths)
    (m1 m2 mu alpha : float) (kappa : KappaSpec) (fs_model_path_2 : ModelPaths)
    (epsilon epsilon' : float) (bug_fix bug_fix' use_sigmoid use_regularizer : bool)
    (s : State) :
  snd (_get_semi_weakly_model ext disk feature_metadata fs_model_path m1 m2 mu alpha kappa
         fs_model_path_2 epsilon bug_fix use_sigmoid use_regularizer s)
  = snd (_get_semi_weakly_model ext disk feature_metadata fs_model_path m1 m2 mu alpha
           kappa fs_model_path_2 epsilon' bug_fix' use_sigmoid use_regularizer s)
  /\ match fst (_get_semi_weakly_model ext disk feature_metadata fs_model_path m1 m2 mu
                  alpha kappa fs_model_path_2 epsilon bug_fix use_sigmoid
                  use_regularizer s),
           fst (_get_semi_weakly_model ext disk feature_metadata fs_model_path m1 m2 mu
                  alpha kappa fs_model_path_2 epsilon' bug_fix' use_sigmoid
                  use_regularizer s)
     with
     | Ok ws_model, Ok ws_model' =>
         km_inputs ws_model = km_inputs ws_model' /\ km_name ws_model = km_name ws_model'
     | Raise e, Raise e' => e = e'
     | _, _ => False
     end.
Proof.
  unfold _get_semi_weakly_model.
  unfold M_bind, get_self, lift, update_self, raise, M_ret.
  cbn [fst snd self io_log].
  unfold _get_one_signal_semi_weakly_layer, _get_one_signal_likelihood_layer,
    _get_two_signal_semi_weakly_layer, _get_two_signal_likelihood_layer.
  destruct kappa as [x|text];
    [|destruct (split_str ext text) as [|t2 [|t3 [|t4 ts]]]];
    destruct (negb (String.eqb (loss (self s)) "nll")), bug_fix, bug_fix';
    cbn [py_truediv PyTensor result_bind kwarg read_local];
    repeat first [ solve [repeat split; reflexivity] | step_run ].
Qed.

Section BuilderInvariants.
Variable ext : Collaborators.
Variable disk : Disk.

Lemma load_prior_models_self (name : string) (model_paths : list string) :
  forall (i : nat) (s : State),
    self (snd (load_prior_models disk name i model_paths s)) = self s.
Proof.
  induction model_paths as [|model_path rest IH]; intros i s; [reflexivity|].
  cbn [load_prior_models]. unfold M_bind at 1. unfold load_model, M_bind, log.
  destruct (disk_model disk model_path) as [model|]; [|reflexivity].
  unfold M_ret at 1.
  specialize (IH (S i) {| self := self s;
                          io_log := (io_log s ++ [LoadModel model_path])%list |}).
  destruct (load_prior_models disk name (S i) rest _) as [[models|e] s1];
    cbn [snd self] in *; exact IH.
Qed.

Lemma _get_prior_out_self (x : list tensor) (model_paths : ModelPaths) (name : string)
    (s : State) :
  self (snd (_get_prior_out disk x model_paths name s)) = self s.
Proof.
  unfold _get_prior_out, M_bind.
  destruct model_paths as [|path|paths]; [reflexivity| |].
  - unfold M_ret at 1.
    pose proof (load_prior_models_self name [path] 0 s) as H.
    destruct (load_prior_models disk name 0 [path] s) as [[models|e] s1]; exact H.
  - unfold M_ret at 1.
    pose proof (load_prior_models_self name paths 0 s) as H.
    destruct (load_prior_models disk name 0 paths s) as [[models|e] s1]; exact H.
Qed.

Lemma get_kappa_out_self (mass_params : tensor) (val : KappaSpec)
    (supervised_model_path : ModelPaths) (name : option string) (s : State) :
  self (snd (get_kappa_out ext disk mass_params val supervised_model_path name s))
  = self s.
Proof.
  unfold get_kappa_out.
  destruct val as [x|text]; [reflexivity|].
  destruct (str_in (lower text) ["inferred"; "sampled"]%string).
  - cbv [M_bind lift os_path_exists os_path_dirname log M_ret raise load_model].
    destruct supervised_model_path as [|path|paths]; try reflexivity.
    cbn [self io_log].
    destruct (disk_exists disk _); cbn [negb]; [|reflexivity].
    destruct (disk_model disk _); reflexivity.
  - destruct (float_of_str ext (lower text)); reflexivity.
Qed.
End BuilderInvariants.

Ltac step_call :=
  match goal with
  | |- context [_get_prior_out ?d ?x ?p ?n ?s] =>
      let H := fresh "Hself" in
      pose proof (_get_prior_out_self d x p n s) as H;
      destruct (_get_prior_out d x p n s) as [[?|?] ?]
  | |- context [get_kappa_out ?e ?d ?t ?v ?p ?n ?s] =>
      let H := fresh "Hself" in
      pose proof (get_kappa_out_self e d t v p n s) as H;
      destruct (get_kappa_out e d t v p n s) as [[?|?] ?]
  end; cbn [fst snd self io_log] in *.

(** X24.  The builder never changes the settings of the loader (the base
    attributes and the loss), and it records the four weight models on the
    loader as soon as the inputs are built: they are there after the call
    also when a later step raises; when the inputs cannot be built the
    attribute is as it was. *)
Theorem build_records_weight_models
    (ext : Collaborators) (disk : Disk)
    (feature_metadata : dict FeatureMetadata) (fs_model_path : ModelPaths)
    (m1 m2 mu alpha : float) (kappa : KappaSpec) (fs_model_path_2 : ModelPaths)
    (epsilon : float) (bug_fix use_sigmoid use_regularizer : bool) (s : State) :
  base (self (snd (_get_semi_weakly_model ext disk feature_metadata fs_model_path m1 m2 mu
                     alpha kappa fs_model_path_2 epsilon bug_fix use_sigmoid
                     use_regularizer s))) = base (self s)
  /\ _loss (self (snd (_get_semi_weakly_model ext disk feature_metadata fs_model_path m1 m2
                         mu alpha kappa fs_model_path_2 epsilon bug_fix use_sigmoid
                         use_regularizer s))) = _loss (self s)
  /\ semi_weakly_weight_models
       (self (snd (_get_semi_weakly_model ext disk feature_metadata fs_model_path m1 m2 mu
                     alpha kappa fs_model_path_2 epsilon bug_fix use_sigmoid
                     use_regularizer s)))
     = (if is_ok (get_supervised_model_inputs ext (self s) feature_metadata true)
        then Some (get_semi_weakly_weights m1 m2 (Some mu) (Some alpha) use_sigmoid
                     use_regularizer)
        else semi_weakly_weight_models (self s)).
Proof.
  unfold _get_semi_weakly_model.
  unfold M_bind, get_self, lift, update_self, raise, M_ret.
  cbn [fst snd self io_log].
  unfold _get_one_signal_semi_weakly_layer, _get_one_signal_likelihood_layer,
    _get_two_signal_semi_weakly_layer, _get_two_signal_likelihood_layer.
  destruct kappa as [x|text];
    [|destruct (split_str ext text) as [|t2 [|t3 [|t4 ts]]]];
    destruct (negb (String.eqb (loss (self s)) "nll")), bug_fix;
    cbn [py_truediv PyTensor result_bind kwarg read_local];
    repeat first
      [ solve [repeat split; cbn [fst snd self io_log is_ok];
               repeat match goal with
                      | H : self _ = _ |- _ => rewrite H; clear H
                      end;
               reflexivity]
      | step_call
      | step_run ].
Qed.

(** X25.  With more than one decay mode, a second path and a kappa string
    that does not split into one or two tokens, the builder raises
    [ValueError] naming the string; the weight models have been recorded
    by then and no file has been looked up or loaded. *)
Theorem two_signal_kappa_tokens
    (ext : Collaborators) (disk : Disk)
    (feature_metadata : dict FeatureMetadata) (fs_model_path fs_model_path_2 : ModelPaths)
    (m1 m2 mu alpha : float) (text : string)
    (epsilon : float) (bug_fix use_sigmoid use_regularizer : bool) (s : State) :
  (1 < List.length (decay_modes (base (self s))))%nat ->
  inputs_available ext (self s) feature_metadata = true ->
  is_None fs_model_path_2 = false ->
  List.length (split_str ext text) <> 1%nat ->
  List.length (split_str ext text) <> 2%nat ->
  _get_semi_weakly_model ext disk feature_metadata fs_model_path m1 m2 mu alpha
    (KappaString text) fs_model_path_2 epsilon bug_fix use_sigmoid use_regularizer s
  = (Raise (ValueError ("failed to interpret kappa value: " ++ text)),
     {| self := set_semi_weakly_weight_models
                  (get_semi_weakly_weights m1 m2 (Some mu) (Some alpha) use_sigmoid
                     use_regularizer) (self s);
        io_log := io_log s |}).
Proof.
  intros Hmulti Hav Hpath Hone Htwo.
  apply Nat.ltb_lt in Hmulti.
  unfold inputs_available in Hav.
  unfold _get_semi_weakly_model, M_bind, get_self, lift, update_self, raise.
  cbn [self io_log fst snd]. rewrite Hmulti, Hpath. cbn [andb negb].
  destruct (get_supervised_model_inputs ext (self s) feature_metadata true)
    as [built|e]; [|discriminate].
  apply andb_prop in Hav. destruct Hav as [Hjet Htrain].
  destruct (getitem (fst built) "jet_features") as [jet|e] eqn:Ejet; [|discriminate].
  destruct (mapM (getitem (fst built)) (_get_train_features ext SEMI_WEAKLY))
    as [train_inputs|e] eqn:Etrain; [|discriminate].
  destruct (weight_output_ok m1 m2 mu alpha use_sigmoid use_regularizer
              (fst built) jet "m1" (or_introl eq_refl) Ejet) as [w1 ->].
  destruct (weight_output_ok m1 m2 mu alpha use_sigmoid use_regularizer
              (fst built) jet "m2" (or_intror (or_introl eq_refl)) Ejet) as [w2 ->].
  destruct (weight_output_ok m1 m2 mu alpha use_sigmoid use_regularizer
              (fst built) jet "mu" (or_intror (or_intror (or_introl eq_refl))) Ejet)
    as [w3 ->].
  destruct (weight_output_ok m1 m2 mu alpha use_sigmoid use_regularizer
              (fst built) jet "alpha"
              (or_intror (or_intror (or_intror (or_introl eq_refl)))) Ejet)
    as [w4 ->].
  destruct (split_str ext text) as [|t2 [|t3 [|t4 ts]]];
    [reflexivity|now elim Hone|now elim Htwo|reflexivity].
Qed.

Lemma two_signal_kappa_tokens_witness :
  _get_semi_weakly_model Sample.ext Sample.disk Sample.metadata
    (OnePath "models/qq/full.keras") 0%float 0%float 0.01%float 0.5%float
    (KappaString "1.0,0.5,1.0") (OnePath "models/qqq/full.keras") 1e-5%float
    true false true (Sample.state [TWO_PRONG; THREE_PRONG])
  = (Raise (ValueError "failed to interpret kappa value: 1.0,0.5,1.0"),
     {| self := set_semi_weakly_weight_models
                  (get_semi_weakly_weights 0%float 0%float (Some 0.01%float)
                     (Some 0.5%float) false true)
                  (self (Sample.state [TWO_PRONG; THREE_PRONG]));
        io_log := [] |}).
Proof.
  apply (two_signal_kappa_tokens Sample.ext Sample.disk Sample.metadata
           (OnePath "models/qq/full.keras") (OnePath "models/qqq/full.keras")
           0%float 0%float 0.01%float 0.5%float "1.0,0.5,1.0" 1e-5%float true false true
           (Sample.state [TWO_PRONG; THREE_PRONG])).
  - cbn. lia.
  - reflexivity.
  - reflexivity.
  - cbn. lia.
  - cbn. lia.
Defined.

Lemma get_self_bind {A : Type} (k : ModelLoader -> M A) (s : State) :
  M_bind get_self k s = k (self s) s.
Proof. reflexivity. Qed.

(** X26.  With the loss ['nll'] the model output is the likelihood
    transform, which has no [bug_fix] variant: two builds that differ only
    in [bug_fix] give the same result and the same final state. *)
Theorem nll_build_ignores_bug_fix
    (ext : Collaborators) (disk : Disk)
    (feature_metadata : dict FeatureMetadata) (fs_model_path : ModelPaths)
    (m1 m2 mu alpha : float) (kappa : KappaSpec) (fs_model_path_2 : ModelPaths)
    (epsilon : float) (bug_fix bug_fix' use_sigmoid use_regularizer : bool) (s : State) :
  loss (self s) = "nll"%string ->
  _get_semi_weakly_model ext disk feature_metadata fs_model_path m1 m2 mu alpha kappa
    fs_model_path_2 epsilon bug_fix use_sigmoid use_regularizer s
  = _get_semi_weakly_model ext disk feature_metadata fs_model_path m1 m2 mu alpha kappa
      fs_model_path_2 epsilon bug_fix' use_sigmoid use_regularizer s.
Proof.
  intros Hloss. unfold _get_semi_weakly_model.
  rewrite !get_self_bind. rewrite Hloss. reflexivity.
Qed.

Lemma nll_build_ignores_bug_fix_witness :
  loss (self SampleTraining.nll_state) = "nll"%string
  /\ _get_semi_weakly_model Sample.ext Sample.disk Sample.metadata
       (OnePath "models/qq/full.keras") 0%float 0%float 0.01%float 0.5%float
       (KappaNumber 1%float) NoPath 1e-5%float true false true
       SampleTraining.nll_state
     = _get_semi_weakly_model Sample.ext Sample.disk Sample.metadata
         (OnePath "models/qq/full.keras") 0%float 0%float 0.01%float 0.5%float
         (KappaNumber 1%float) NoPath 1e-5%float false false true
         SampleTraining.nll_state.
Proof.
  split; [reflexivity|].
  apply (nll_build_ignores_bug_fix Sample.ext Sample.disk Sample.metadata
           (OnePath "models/qq/full.keras") 0%float 0%float 0.01%float 0.5%float
           (KappaNumber 1%float) NoPath 1e-5%float true false false true
           SampleTraining.nll_state).
  reflexivity.
Defined.

Lemma single_signal_builds_witness :
  exists (ws_model llr supervised : KerasModel) (s' : State),
    _get_semi_weakly_model Sample.ext Sample.disk Sample.metadata
      (OnePath "models/qq/full.keras") 0%float 0%float 0.01%float 0.5%float
      (KappaNumber 1%float) NoPath 1e-5%float true false true (Sample.state [TWO_PRONG])
    = (Ok ws_model, s')
    /\ km_name ws_model = "SemiWeakly"%string
    /\ llr_model (self s') = Some llr /\ km_name llr = "LLR"%string
    /\ fs_model (self s') = Some supervised /\ km_name supervised = "Supervised"%string
    /\ km_inputs llr = km_inputs ws_model
    /\ km_inputs supervised = km_inputs ws_model
    /\ io_log s' = [LoadModel "models/qq/full.keras"].
Proof.
  apply (single_signal_builds Sample.ext Sample.disk Sample.metadata
           "models/qq/full.keras" Sample.saved_model 0%float 0%float 0.01%float 0.5%float
           1%float NoPath 1e-5%float true false true (Sample.state [TWO_PRONG])).
  - cbn. lia.
  - reflexivity.
  - reflexivity.
Defined.


(* ================================================================== *)
(** * Reading and writing the model weights *)
(* ================================================================== *)

Section WeightFacts.
Context {Array Value Scalar : Type}.
Variable assign : Array -> Value -> Array.
Variable first_entry : Array -> Scalar.

(** The loop of [set_semi_weakly_model_weights] on names it knows, up to
    the first name it does not know. *)
Lemma set_weights_by_full_name_run (weight_dict : dict (option Value))
    (known : list (Weight Array)) (rest : list (Weight Array)) :
  (forall weight, In weight known -> dict_get weight_dict (weight_name weight) <> None) ->
  match rest with
  | [] => True
  | weight :: _ => dict_get weight_dict (weight_name weight) = None
  end ->
  set_weights_by_full_name assign weight_dict (known ++ rest)%list
  = (match rest with
     | [] => Ok tt
     | weight :: _ => Raise (RuntimeError (unknown_weight_message (weight_name weight)))
     end,
     (map (fun weight =>
             match dict_get weight_dict (weight_name weight) with
             | Some (Some value) => assign_weight assign weight value
             | _ => weight
             end) known ++ rest)%list).
Proof.
  intros Hknown Hrest. induction known as [|weight known IH].
  - cbn [app map]. destruct rest as [|weight rest]; [reflexivity|].
    cbn [set_weights_by_full_name]. now rewrite Hrest.
  - cbn [app map set_weights_by_full_name].
    destruct (dict_get weight_dict (weight_name weight)) as [value|] eqn:Hvalue;
      [|now elim (Hknown weight (or_introl eq_refl))].
    rewrite (IH (fun w Hin => Hknown w (or_intror Hin))).
    now destruct value.
Qed.

(** The last weight of a name is the one [get_semi_weakly_model_weights]
    reports. *)
Lemma get_weights_fold (trainable_weights : list (Weight Array)) :
  forall (acc : dict Scalar) (name : string),
    dict_get
      (fold_left (fun (weights : dict Scalar) (weight : Weight Array) =>
                    dict_set weights (before_slash (weight_name weight))
                      (first_entry (weight_value weight)))
                 trainable_weights acc) name
    = match find (fun weight => String.eqb (before_slash (weight_name weight)) name)
              (rev trainable_weights) with
      | Some weight => Some (first_entry (weight_value weight))
      | None => dict_get acc name
      end.
Proof.
  induction trainable_weights as [|weight rest IH]; intros acc name; [reflexivity|].
  cbn [fold_left rev]. rewrite IH.
  assert (Hfind : forall (l : list (Weight Array)),
             find (fun w => String.eqb (before_slash (weight_name w)) name)
               (l ++ [weight])%list
             = match find (fun w => String.eqb (before_slash (weight_name w)) name) l with
               | Some w => Some w
               | None => if String.eqb (before_slash (weight_name weight)) name
                         then Some weight else None
               end).
  { induction l as [|w l IHl]; cbn [app find]; [reflexivity|].
    destruct (String.eqb (before_slash (weight_name w)) name); [reflexivity|exact IHl]. }
  rewrite Hfind.
  destruct (find _ (rev rest)) as [w|]; [reflexivity|].
  destruct (String.eqb (before_slash (weight_name weight)) name) eqn:E.
  - apply String.eqb_eq in E. subst name. apply dict_get_set_same.
  - now apply dict_get_set_other.
Qed.

Lemma key_injective_on (key : Weight Array -> string) (l : list (Weight Array)) :
  NoDup (map key l) ->
  forall a b, In a l -> In b l -> key a = key b -> a = b.
Proof.
  induction l as [|x l IH]; intros Hnodup a b Ha Hb Hkey; [destruct Ha|].
  cbn [map] in Hnodup. inversion Hnodup as [|? ? Hnotin Hrest]; subst.
  destruct Ha as [<- | Ha], Hb as [<- | Hb].
  - reflexivity.
  - elim Hnotin. rewrite Hkey. now apply in_map.
  - elim Hnotin. rewrite <- Hkey. now apply in_map.
  - now apply IH.
Qed.
End WeightFacts.

(** X27.  [set_semi_weakly_model_weights] goes through the trainable
    weights in order.  When every weight has one of the four kernel names,
    it returns, having assigned exactly the weights whose parameter was
    given: a parameter left [None] is not touched, and no weight is renamed
    or moved.  At the first weight with another name it raises
    [RuntimeError] naming it: the weights before it have been assigned
    already, that weight and those after it are as they were. *)
Theorem set_semi_weakly_model_weights_outcome {Array Value : Type}
    (assign : Array -> Value -> Array)
    (known rest : list (Weight Array)) (m1 m2 mu alpha : option Value) :
  (forall weight, In weight known ->
     In (weight_name weight)
       ["m1/kernel:0"; "m2/kernel:0"; "mu/kernel:0"; "alpha/kernel:0"]%string) ->
  match rest with
  | [] => True
  | weight :: _ =>
      ~ In (weight_name weight)
          ["m1/kernel:0"; "m2/kernel:0"; "mu/kernel:0"; "alpha/kernel:0"]%string
  end ->
  set_semi_weakly_model_weights assign (known ++ rest)%list m1 m2 mu alpha
  = (match rest with
     | [] => Ok tt
     | weight :: _ => Raise (RuntimeError (unknown_weight_message (weight_name weight)))
     end,
     (map (fun weight =>
             match
               (if String.eqb (weight_name weight) "m1/kernel:0" then m1
                else if String.eqb (weight_name weight) "m2/kernel:0" then m2
                else if String.eqb (weight_name weight) "mu/kernel:0" then mu
                else alpha)
             with
             | Some value => assign_weight assign weight value
             | None => weight
             end) known ++ rest)%list).
Proof.
  intros Hknown Hrest. unfold set_semi_weakly_model_weights.
  assert (Hget : forall name : string,
             dict_get [("m1/kernel:0"%string, m1); ("m2/kernel:0"%string, m2);
                       ("mu/kernel:0"%string, mu); ("alpha/kernel:0"%string, alpha)] name
             = if String.eqb name "m1/kernel:0" then Some m1
               else if String.eqb name "m2/kernel:0" then Some m2
               else if String.eqb name "mu/kernel:0" then Some mu
               else if String.eqb name "alpha/kernel:0" then Some alpha
               else None).
  { intros name. cbn [dict_get].
    rewrite (String.eqb_sym "m1/kernel:0"), (String.eqb_sym "m2/kernel:0"),
      (String.eqb_sym "mu/kernel:0"), (String.eqb_sym "alpha/kernel:0").
    reflexivity. }
  assert (Hin : forall name : string,
             In name ["m1/kernel:0"; "m2/kernel:0"; "mu/kernel:0"; "alpha/kernel:0"]%string
             <-> (String.eqb name "m1/kernel:0" || String.eqb name "m2/kernel:0"
                  || String.eqb name "mu/kernel:0" || String.eqb name "alpha/kernel:0")
                 = true).
  { intros name. rewrite <- str_in_In. unfold str_in. cbn [existsb].
    now rewrite orb_false_r, !orb_assoc. }
  rewrite (set_weights_by_full_name_run assign _ known rest).
  - f_equal. f_equal. apply map_ext_in. intros weight Hw.
    rewrite Hget. apply Hknown, Hin in Hw.
    destruct (String.eqb (weight_name weight) "m1/kernel:0"); [reflexivity|].
    destruct (String.eqb (weight_name weight) "m2/kernel:0"); [reflexivity|].
    destruct (String.eqb (weight_name weight) "mu/kernel:0"); [reflexivity|].
    destruct (String.eqb (weight_name weight) "alpha/kernel:0"); [reflexivity|].
    discriminate Hw.
  - intros weight Hw. rewrite Hget. apply Hknown, Hin in Hw.
    destruct (String.eqb (weight_name weight) "m1/kernel:0"); [discriminate|].
    destruct (String.eqb (weight_name weight) "m2/kernel:0"); [discriminate|].
    destruct (String.eqb (weight_name weight) "mu/kernel:0"); [discriminate|].
    destruct (String.eqb (weight_name weight) "alpha/kernel:0"); [discriminate|].
    discriminate Hw.
  - destruct rest as [|weight rest]; [exact I|].
    rewrite Hget. rewrite Hin in Hrest.
    destruct (String.eqb (weight_name weight) "m1/kernel:0"); [now elim Hrest|].
    destruct (String.eqb (weight_name weight) "m2/kernel:0"); [now elim Hrest|].
    destruct (String.eqb (weight_name weight) "mu/kernel:0"); [now elim Hrest|].
    destruct (String.eqb (weight_name weight) "alpha/kernel:0"); [now elim Hrest|].
    reflexivity.
Qed.

Lemma set_semi_weakly_model_weights_outcome_witness :
  set_semi_weakly_model_weights SampleTraining.assign
    ([ {| weight_name := "m1/kernel:0"; weight_value := 3%float |};
       {| weight_name := "mu/kernel:0"; weight_value := 0.01%float |} ]
     ++ [ {| weight_name := "dense/kernel:0"; weight_value := 7%float |};
          {| weight_name := "alpha/kernel:0"; weight_value := 0.5%float |} ])%list
    (Some 2.5%float) None None (Some 1%float)
  = (Raise (RuntimeError (unknown_weight_message "dense/kernel:0")),
     [ {| weight_name := "m1/kernel:0"; weight_value := 2.5%float |};
       {| weight_name := "mu/kernel:0"; weight_value := 0.01%float |};
       {| weight_name := "dense/kernel:0"; weight_value := 7%float |};
       {| weight_name := "alpha/kernel:0"; weight_value := 0.5%float |} ])
  /\ set_semi_weakly_model_weights SampleTraining.assign
       (SampleTraining.trainable_weights ++ [])%list
       None None (Some 0.02%float) None
     = (Ok tt,
        [ {| weight_name := "m1/kernel:0"; weight_value := 3%float |};
          {| weight_name := "m2/kernel:0"; weight_value := 1%float |};
          {| weight_name := "mu/kernel:0"; weight_value := 0.02%float |};
          {| weight_name := "alpha/kernel:0"; weight_value := 0.5%float |} ]).
Proof.
  split.
  - apply (set_semi_weakly_model_weights_outcome SampleTraining.assign
             [ {| weight_name := "m1/kernel:0"; weight_value := 3%float |};
               {| weight_name := "mu/kernel:0"; weight_value := 0.01%float |} ]
             [ {| weight_name := "dense/kernel:0"; weight_value := 7%float |};
               {| weight_name := "alpha/kernel:0"; weight_value := 0.5%float |} ]
             (Some 2.5%float) None None (Some 1%float)).
    + intros weight [<- | [<- | []]]; cbn; auto.
    + cbn. intros [H | [H | [H | [H | []]]]]; discriminate H.
  - apply (set_semi_weakly_model_weights_outcome SampleTraining.assign
             SampleTraining.trainable_weights [] None None (Some 0.02%float) None).
    + intros weight [<- | [<- | [<- | [<- | []]]]]; cbn; auto.
    + exact I.
Defined.

(** X28.  [get_semi_weakly_model_weights] reports a name exactly when
    some trainable weight has it before the first slash of its name, and
    the value reported is the first entry of the last such weight: a later
    weight of the same name overwrites an earlier one. *)
Theorem get_semi_weakly_model_weights_last_wins {Array Scalar : Type}
    (first_entry : Array -> Scalar) (trainable_weights : list (Weight Array))
    (name : string) :
  dict_get (get_semi_weakly_model_weights first_entry trainable_weights) name
  = option_map (fun weight => first_entry (weight_value weight))
      (find (fun weight => String.eqb (before_slash (weight_name weight)) name)
         (rev trainable_weights)).
Proof.
  unfold get_semi_weakly_model_weights. rewrite get_weights_fold.
  now destruct (find _ (rev trainable_weights)).
Qed.

(** X29.  Writing back what was read changes nothing: when the trainable
    weights have pairwise different names before the slash, and assigning
    to a weight its own first entry leaves it as it is (a kernel of one
    entry), [set_model_weights(model, get_semi_weakly_model_weights(model))]
    returns with every weight unchanged. *)
Theorem model_weights_round_trip {Array Scalar : Type}
    (assign : Array -> Scalar -> Array) (first_entry : Array -> Scalar)
    (trainable_weights : list (Weight Array)) :
  NoDup (map (fun weight => before_slash (weight_name weight)) trainable_weights) ->
  (forall weight, In weight trainable_weights ->
     assign (weight_value weight) (first_entry (weight_value weight))
     = weight_value weight) ->
  set_model_weights assign trainable_weights
    (ValuesByName (get_semi_weakly_model_weights first_entry trainable_weights))
  = (Ok tt, trainable_weights).
Proof.
  intros Hnodup Hsame. unfold set_model_weights. f_equal.
  rewrite <- (map_id trainable_weights) at 2.
  apply map_ext_in. intros weight Hw.
  unfold get_semi_weakly_model_weights. rewrite get_weights_fold.
  destruct (find _ (rev trainable_weights)) as [weight'|] eqn:Hfind.
  - apply find_some in Hfind. destruct Hfind as [Hin Hkey].
    apply in_rev in Hin. apply String.eqb_eq in Hkey.
    assert (weight' = weight)
      by exact (key_injective_on _ trainable_weights Hnodup weight' weight Hin Hw Hkey).
    subst weight'. unfold assign_weight. rewrite (Hsame weight Hw). now destruct weight.
  - apply in_rev in Hw. apply (find_none _ _ Hfind weight) in Hw.
    now rewrite String.eqb_refl in Hw.
Qed.

Lemma model_weights_round_trip_witness :
  NoDup (map (fun weight : Weight float => before_slash (weight_name weight))
           SampleTraining.trainable_weights)
  /\ get_semi_weakly_model_weights SampleTraining.first_entry
       SampleTraining.trainable_weights
     = [("m1"%string, 3%float); ("m2"%string, 1%float); ("mu"%string, 0.01%float);
        ("alpha"%string, 0.5%float)]
  /\ set_model_weights SampleTraining.assign SampleTraining.trainable_weights
       (ValuesByName (get_semi_weakly_model_weights SampleTraining.first_entry
                        SampleTraining.trainable_weights))
     = (Ok tt, SampleTraining.trainable_weights).
Proof.
  assert (Hnodup : NoDup (map (fun weight : Weight float =>
                                 before_slash (weight_name weight))
                            SampleTraining.trainable_weights)).
  { cbn. repeat constructor; cbn; intuition discriminate. }
  split; [exact Hnodup|]. split; [reflexivity|].
  apply (model_weights_round_trip SampleTraining.assign SampleTraining.first_entry
           SampleTraining.trainable_weights Hnodup).
  intros weight _. reflexivity.
Defined.

(** X30.  With a sequence of values [set_model_weights] assigns by
    position: it returns when there are at most as many values as
    weights, leaving the weights beyond the values alone, and raises
    [IndexError] otherwise, after every weight has been assigned. *)
Theorem set_model_weights_by_position {Array Value : Type}
    (assign : Array -> Value -> Array)
    (trainable_weights : list (Weight Array)) (values : list Value) :
  set_model_weights assign trainable_weights (ValuesByPosition values)
  = (if (List.length values <=? List.length trainable_weights)%nat then Ok tt
     else Raise IndexError,
     (map (fun pair => assign_weight assign (fst pair) (snd pair))
        (combine trainable_weights values)
      ++ skipn (List.length values) trainable_weights)%list).
Proof.
  unfold set_model_weights. revert trainable_weights.
  induction values as [|value values IH]; intros weights.
  - cbn. now destruct weights.
  - destruct weights as [|weight rest]; [reflexivity|].
    cbn [assign_by_position]. rewrite IH. reflexivity.
Qed.
